(** * Overnight / intraday return pipeline of [plot_suspicious_returns.py]

    A shallow embedding of the three functions that carry the logic of the
    program,

      - [get_prices_open_close_adj_dates]   (row cleaning, source l. 589-641),
      - [compute_returns_overnight_intraday] (decomposition, l. 644-677),
      - [cumulate_returns]                   (compounding, l. 417-429),

    together with the tail of [get_plot_data] (l. 758-772), the constructor
    and the methods of [PlotData] (l. 682-755) and the small helpers around
    them.

    Modelling conventions.

      - Python exceptions are the left summand of [result]; the order in
        which the source evaluates its sub-expressions is the order of the
        binds.
      - A Python [float] is an IEEE 754 binary64 number, [binary64]: the
        type [spec_float] of the standard library with [prec = 53] and
        [emax = 1024].  [+], [-] and [*] are the correctly rounded
        operations, which overflow to an infinity and give [nan] on
        [inf * 0]; [/] raises [ZeroDivisionError] on a zero divisor and is
        the correctly rounded quotient otherwise; comparisons are the IEEE
        ones, false on [nan].  The integers the source mixes into float
        expressions ([0], [1], [100], [3]) are the floats of the same
        value, which is what Python converts them to.
      - A naive [datetime] is the number of microseconds since the start of
        ordinal day 0 of the proleptic Gregorian calendar; ordering and
        subtraction of datetimes are ordering and subtraction on [Z].
      - The builtins [float], [int] and [strftime] are variables of the
        section holding the program, so every general theorem holds for any
        behaviour of theirs.  The closed examples run the program with the
        concrete [py_float], [py_int] and [py_strftime] below; [py_float]
        reads a decimal literal, with or without fraction and exponent, and
        rounds it to the nearest binary64 number. *)

From Stdlib Require Import String Ascii List Bool Arith ZArith QArith Qabs Lia Lqa SpecFloat.
Import ListNotations.

Local Close Scope Q_scope.
Local Open Scope string_scope.
Local Open Scope list_scope.
Local Open Scope nat_scope.

(** ** Exceptions and the error monad *)

Inductive assert_msg : Type :=
| NoMessage
| Message (s : string)
| Lengths (a b c : nat).

Inductive exn : Type :=
| AssertionError (msg : assert_msg)
| ValueError
| IndexError
| TypeError
| OverflowError
| ZeroDivisionError.

Definition result (A : Type) : Type := (exn + A)%type.

Definition ret {A : Type} (a : A) : result A := inr a.

Definition raise {A : Type} (e : exn) : result A := inl e.

Definition bind {A B : Type} (c : result A) (k : A -> result B) : result B :=
  match c with
  | inl e => inl e
  | inr a => k a
  end.

Notation "x <- c ;; k" := (bind c (fun x => k))
  (at level 61, c at next level, right associativity).
Notation "c ;;; k" := (bind c (fun _ => k))
  (at level 61, right associativity).

Definition assert_ (b : bool) (msg : assert_msg) : result unit :=
  if b then ret tt else raise (AssertionError msg).

Definition of_option {A : Type} (e : exn) (o : option A) : result A :=
  match o with
  | Some a => ret a
  | None => raise e
  end.

(** A list comprehension whose element expression may raise. *)
Fixpoint mapM {A B : Type} (f : A -> result B) (l : list A) : result (list B) :=
  match l with
  | [] => ret []
  | a :: l' => b <- f a ;; bs <- mapM f l' ;; ret (b :: bs)
  end.

(** A list comprehension whose condition may raise. *)
Fixpoint filterM {A : Type} (f : A -> result bool) (l : list A) : result (list A) :=
  match l with
  | [] => ret []
  | a :: l' => b <- f a ;; r <- filterM f l' ;; ret (if b then a :: r else r)
  end.

(** ** Python list and string builtins *)

(** [l[i]] for [i >= 0]. *)
Definition getitem {A : Type} (l : list A) (i : nat) : result A :=
  of_option IndexError (nth_error l i).

(** [l[lo:hi]] for [0 <= lo] and [0 <= hi]. *)
Definition slice {A : Type} (lo hi : nat) (l : list A) : list A :=
  firstn (hi - lo) (skipn lo l).

(** [range(lo, hi)]. *)
Definition range (lo hi : nat) : list nat := seq lo (hi - lo).

(** [l.index(True)]: position of the first [True], [ValueError] if none. *)
Fixpoint index_True (l : list bool) : result nat :=
  match l with
  | [] => raise ValueError
  | b :: l' => if b then ret 0%nat else i <- index_True l' ;; ret (S i)
  end.

(** [max(l)] on a list of integers, [ValueError] on the empty list. *)
Definition py_max (l : list Z) : result Z :=
  match l with
  | [] => raise ValueError
  | x :: l' => ret (fold_left Z.max l' x)
  end.

(** [s.split(sep)] for a one-character separator. *)
Fixpoint str_split (sep : ascii) (s : string) : list string :=
  match s with
  | EmptyString => [EmptyString]
  | String c rest =>
      if Ascii.eqb c sep then EmptyString :: str_split sep rest
      else match str_split sep rest with
           | [] => [String c EmptyString]
           | w :: ws => String c w :: ws
           end
  end.

(** [sep.join(l)]; the program does not call it, the statements about
    feeding retained rows back into the cleaner do. *)
Fixpoint str_join (sep : ascii) (l : list string) : string :=
  match l with
  | [] => EmptyString
  | [w] => w
  | w :: ws => (w ++ String sep (str_join sep ws))%string
  end.

(** [sub in s]. *)
Definition contains (sub s : string) : bool :=
  match String.index 0 sub s with
  | Some _ => true
  | None => false
  end.

(** [x in set_of_strings]. *)
Definition mem (x : string) (l : list string) : bool :=
  existsb (String.eqb x) l.

Definition is_space (c : ascii) : bool :=
  let n := N_of_ascii c in
  (N.eqb n 32 || (N.leb 9 n && N.leb n 13))%bool.

Fixpoint lstrip (s : string) : string :=
  match s with
  | EmptyString => EmptyString
  | String c rest => if is_space c then lstrip rest else s
  end.

Fixpoint rstrip (s : string) : string :=
  match s with
  | EmptyString => EmptyString
  | String c rest =>
      match rstrip rest with
      | EmptyString => if is_space c then EmptyString else String c EmptyString
      | r => String c r
      end
  end.

(** [s.strip()]. *)
Definition str_strip (s : string) : string := rstrip (lstrip s).

(** [len(set(l))] on strings. *)
Definition len_set (l : list string) : nat := length (nodup string_dec l).

(** ** Python floats: IEEE 754 binary64 *)

Definition prec : Z := 53.

Definition emax : Z := 1024.

Definition binary64 : Type := spec_float.

(** [float(n)] for an integer [n]: the nearest binary64 number. *)
Definition of_Z (n : Z) : binary64 := binary_normalize prec emax n 0 false.

(** The float written [m * 10^k] in decimal, with the sign apart so that
    [-0.0] is read as such: the nearest binary64 number. *)
Definition of_decimal (negative : bool) (m : N) (k : Z) : binary64 :=
  match m with
  | N0 => S754_zero negative
  | Npos p =>
      if (0 <=? k)%Z
      then binary_normalize prec emax
             (if negative then Z.neg p * 10 ^ k else Z.pos p * 10 ^ k)%Z 0 false
      else
        let '(q, e, l) := SFdiv_core_binary prec emax (Z.pos p) 0 (10 ^ (- k))%Z 0 in
        binary_round_aux prec emax negative q e l
  end.

Definition fadd : binary64 -> binary64 -> binary64 := SFadd prec emax.

Definition fsub : binary64 -> binary64 -> binary64 := SFsub prec emax.

Definition fmul : binary64 -> binary64 -> binary64 := SFmul prec emax.

(** The IEEE quotient, which [x / y] returns when [y] is not zero. *)
Definition fdiv : binary64 -> binary64 -> binary64 := SFdiv prec emax.

Definition fneg : binary64 -> binary64 := SFopp.

Definition flt : binary64 -> binary64 -> bool := SFltb.

Definition fle : binary64 -> binary64 -> bool := SFleb.

Definition feq : binary64 -> binary64 -> bool := SFeqb.

Definition F0 : binary64 := S754_zero false.

Definition F1 : binary64 := Eval cbv in of_Z 1.

Declare Scope F_scope.
Delimit Scope F_scope with F.
Bind Scope F_scope with binary64.

Notation "0" := F0 : F_scope.
Notation "1" := F1 : F_scope.
Infix "+" := fadd : F_scope.
Infix "-" := fsub : F_scope.
Infix "*" := fmul : F_scope.
Infix "/" := fdiv : F_scope.
Notation "- x" := (fneg x) : F_scope.
Infix "<?" := flt : F_scope.
Infix "<=?" := fle : F_scope.
Infix "=?" := feq : F_scope.

Definition is_zero (x : binary64) : bool :=
  match x with
  | S754_zero _ => true
  | _ => false
  end.

Definition is_nan (x : binary64) : bool :=
  match x with
  | S754_nan => true
  | _ => false
  end.

Definition is_finite (x : binary64) : bool :=
  match x with
  | S754_zero _ | S754_finite _ _ _ => true
  | _ => false
  end.

(** [x / y] on floats: [ZeroDivisionError] when [y] is [0.0] or [-0.0],
    the IEEE quotient otherwise. *)
Definition div (x y : binary64) : result binary64 :=
  if is_zero y then raise ZeroDivisionError else ret (x / y)%F.

(** ** Naive datetimes *)

Definition datetime : Type := Z.

Definition is_leap (y : Z) : bool :=
  ((y mod 4 =? 0) && (negb (y mod 100 =? 0) || (y mod 400 =? 0)))%Z.

Definition days_before_year (y : Z) : Z :=
  let y1 := (y - 1)%Z in
  (y1 * 365 + y1 / 4 - y1 / 100 + y1 / 400)%Z.

Definition days_in_month (y m : Z) : Z :=
  (if m =? 2 then (if is_leap y then 29 else 28)
   else if (m =? 4) || (m =? 6) || (m =? 9) || (m =? 11) then 30
   else 31)%Z.

Fixpoint days_before_month_aux (y : Z) (k : nat) : Z :=
  match k with
  | O => 0%Z
  | S k' => (days_before_month_aux y k' + days_in_month y (Z.of_nat k))%Z
  end.

Definition days_before_month (y m : Z) : Z :=
  days_before_month_aux y (Z.to_nat (m - 1)).

(** [date(y, m, d).toordinal()]; 0001-01-01 is day 1. *)
Definition ymd2ord (y m d : Z) : Z :=
  (days_before_year y + days_before_month y m + d)%Z.

Definition MICROS_PER_DAY : Z := 86400000000%Z.

Definition mk_datetime (y m d hh mm ss us : Z) : datetime :=
  (((((ymd2ord y m d) * 24 + hh) * 60 + mm) * 60 + ss) * 1000000 + us)%Z.

(** [timedelta(days=n)]. *)
Definition timedelta_days (n : Z) : Z := (n * MICROS_PER_DAY)%Z.

Definition fits_c_int (x : Z) : bool :=
  ((-2147483648 <=? x) && (x <=? 2147483647))%Z.

Definition in_range (lo x hi : Z) : bool := ((lo <=? x) && (x <=? hi))%Z.

(** The [datetime] constructor applied to a list of integer arguments: it
    takes between three and seven of them (an eighth would be [tzinfo], which
    an integer is not), each must fit a C int, and year, month, day and time
    of day must be in range. *)
Definition datetime_new (args : list Z) : result datetime :=
  match args with
  | y :: m :: d :: rest =>
      if (8 <? length rest + 3)%nat then raise TypeError
      else if negb (forallb fits_c_int (firstn 7 args)) then raise OverflowError
      else
        let hh := nth 0 rest 0%Z in
        let mm := nth 1 rest 0%Z in
        let ss := nth 2 rest 0%Z in
        let us := nth 3 rest 0%Z in
        if negb (in_range 1 y 9999 && in_range 1 m 12
                 && in_range 1 d (days_in_month y m)) then raise ValueError
        else if negb (in_range 0 hh 23 && in_range 0 mm 59
                      && in_range 0 ss 59 && in_range 0 us 999999) then raise ValueError
        else if (length rest =? 5)%nat then raise TypeError
        else ret (mk_datetime y m d hh mm ss us)
  | _ => raise TypeError
  end.

Definition DATETIME_FORMAT : string := "%Y-%m-%d".
Definition DEFAULT_START_DATE : datetime := Eval cbv in mk_datetime 1990 1 1 0 0 0 0.
Definition DEFAULT_END_DATE : datetime := Eval cbv in mk_datetime 2021 12 31 0 0 0 0.

(** ** Concrete builtins for the closed examples *)

Definition digit_of (c : ascii) : option Z :=
  let n := N_of_ascii c in
  if (N.leb 48 n && N.leb n 57)%bool then Some (Z.of_N (n - 48)) else None.

Fixpoint digits_val (acc : Z) (s : string) : option Z :=
  match s with
  | EmptyString => Some acc
  | String c rest =>
      match digit_of c with
      | Some d => digits_val (acc * 10 + d) rest
      | None => None
      end
  end.

Definition unsigned_int (s : string) : option Z :=
  match s with
  | EmptyString => None
  | _ => digits_val 0 s
  end.

(** [int(s)] on an optionally signed run of decimal digits. *)
Definition py_int (s : string) : option Z :=
  match s with
  | String "-" rest => option_map Z.opp (unsigned_int rest)
  | String "+" rest => unsigned_int rest
  | _ => unsigned_int s
  end.

(** The longest run of decimal digits [s] starts with: the number it
    makes of [acc], how many digits it has, and what follows it. *)
Fixpoint digit_run (acc : N) (s : string) : N * nat * string :=
  match s with
  | EmptyString => (acc, O, EmptyString)
  | String c rest =>
      match digit_of c with
      | Some d =>
          let '(v, n, tl) := digit_run (acc * 10 + Z.to_N d) rest in (v, S n, tl)
      | None => (acc, O, s)
      end
  end.

(** The exponent part of a float literal: empty, or [e] or [E], an optional
    sign and at least one digit, with nothing after. *)
Definition exponent_part (s : string) : option Z :=
  match s with
  | EmptyString => Some 0%Z
  | String c rest =>
      if (Ascii.eqb c "e" || Ascii.eqb c "E")%bool then py_int rest else None
  end.

(** An unsigned decimal literal: digits, an optional point and more digits,
    with at least one digit in all, and an optional exponent. *)
Definition unsigned_decimal (negative : bool) (s : string) : option binary64 :=
  let '(ip, n_ip, rest) := digit_run 0 s in
  let '(m, n_fp, rest) :=
    match rest with
    | String "." rest' => digit_run ip rest'
    | _ => (ip, O, rest)
    end in
  if (n_ip + n_fp =? 0)%nat then None
  else
    match exponent_part rest with
    | Some e => Some (of_decimal negative m (e - Z.of_nat n_fp))
    | None => None
    end.

Definition lower (c : ascii) : ascii :=
  let n := N_of_ascii c in
  if (N.leb 65 n && N.leb n 90)%bool then ascii_of_N (n + 32) else c.

Fixpoint str_lower (s : string) : string :=
  match s with
  | EmptyString => EmptyString
  | String c rest => String (lower c) (str_lower rest)
  end.

Definition unsigned_float (negative : bool) (s : string) : option binary64 :=
  if ((str_lower s =? "inf") || (str_lower s =? "infinity"))%string
  then Some (S754_infinity negative)
  else if (str_lower s =? "nan")%string then Some S754_nan
  else unsigned_decimal negative s.

(** [float(s)]: white space around the text is dropped; the text is an
    optional sign and [inf], [infinity], [nan] or a decimal literal. *)
Definition py_float (s : string) : option binary64 :=
  match str_strip s with
  | String "-" rest => unsigned_float true rest
  | String "+" rest => unsigned_float false rest
  | t => unsigned_float false t
  end.

Definition digit_char (d : Z) : ascii := ascii_of_N (48 + Z.to_N d).

(** The [w] low decimal digits of [n], most significant first. *)
Fixpoint zfill (w : nat) (n : Z) : string :=
  match w with
  | O => EmptyString
  | S w' => (zfill w' (n / 10) ++ String (digit_char (n mod 10)) EmptyString)%string
  end.

(** Year, month and day of an ordinal day number. *)
Definition ord2ymd (ordinal : Z) : Z * Z * Z :=
  let n := (ordinal - 1)%Z in
  let n400 := (n / 146097)%Z in
  let n := (n mod 146097)%Z in
  let n100 := (n / 36524)%Z in
  let n := (n mod 36524)%Z in
  let n4 := (n / 1461)%Z in
  let n := (n mod 1461)%Z in
  let n1 := (n / 365)%Z in
  let n := (n mod 365)%Z in
  let year := (n400 * 400 + 1 + n100 * 100 + n4 * 4 + n1)%Z in
  if ((n1 =? 4) || (n100 =? 4))%Z then ((year - 1)%Z, 12%Z, 31%Z)
  else
    let month := ((n + 50) / 32)%Z in
    let preceding := days_before_month year month in
    if (n <? preceding)%Z
    then (year, (month - 1)%Z, (n - days_before_month year (month - 1) + 1)%Z)
    else (year, month, (n - preceding + 1)%Z).

(** [d.strftime(fmt)] for [fmt = DATETIME_FORMAT]; Python 2 refuses years
    before 1900. *)
Definition py_strftime (d : datetime) (fmt : string) : option string :=
  if negb (fmt =? DATETIME_FORMAT)%string then None
  else
    let '(y, m, dd) := ord2ymd (d / MICROS_PER_DAY) in
    if (y <? 1900)%Z then None
    else Some (zfill 4 y ++ "-" ++ zfill 2 m ++ "-" ++ zfill 2 dd)%string.

(** ** The program *)

Definition HEADER : string := "Date,Open,High,Low,Close,Adj Close,Volume".

Definition BAD_DATA : assert_msg := Message "Bad data: negative adjusted close price".

(** The four parallel lists the cleaner returns:
    [(price_open, price_close, price_close_adj, dates_datetime)]. *)
Definition series : Type :=
  (list binary64 * list binary64 * list binary64 * list datetime)%type.

(** *** [cumulate_returns] (l. 417-429) *)

(** The loop body, with the running value [r0] as accumulator. *)
Fixpoint cumulate_from (r0 : binary64) (returns : list binary64) : list binary64 :=
  match returns with
  | [] => []
  | r1 :: rest =>
      let r0' := ((1 + r0) * (1 + r1) - 1)%F in
      r0' :: cumulate_from r0' rest
  end.

Definition cumulate_returns (returns : list binary64) : list binary64 :=
  cumulate_from 0%F returns.

(** *** [compute_returns_overnight_intraday] (l. 644-677) *)

Definition intraday_at (price_open price_close : list binary64) (i : nat)
  : result binary64 :=
  c <- getitem price_close i ;;
  o <- getitem price_open i ;;
  q <- div c o ;;
  ret (q - 1)%F.

Definition close_to_close_at (price_close_adj : list binary64) (i : nat)
  : result binary64 :=
  a <- getitem price_close_adj i ;;
  b <- getitem price_close_adj (i - 1) ;;
  q <- div a b ;;
  ret (q - 1)%F.

Definition overnight_at (returns_close_to_close returns_intraday : list binary64)
    (dates_datetime : list datetime) (i : nat) : result binary64 :=
  di <- getitem dates_datetime i ;;
  dp <- getitem dates_datetime (i - 1) ;;
  if (di - dp <? timedelta_days 14)%Z
  then
    c <- getitem returns_close_to_close i ;;
    r <- getitem returns_intraday i ;;
    q <- div (1 + c)%F (1 + r)%F ;;
    ret (q - 1)%F
  else ret 0%F.

Definition compute_returns_overnight_intraday
    (price_open price_close price_close_adj : list binary64)
    (dates_datetime : list datetime)
  : result (list binary64 * list binary64) :=
  assert_ ((length price_open =? length price_close)
           && (length price_close =? length price_close_adj)
           && (length price_close_adj =? length dates_datetime)) NoMessage ;;;
  let n_days := length dates_datetime in
  if n_days =? 0 then ret ([], [])
  else
    returns_intraday <- mapM (intraday_at price_open price_close) (range 0 n_days) ;;
    ctc_tail <- mapM (close_to_close_at price_close_adj) (range 1 n_days) ;;
    let returns_close_to_close := 0%F :: ctc_tail in
    overnight_tail <-
      mapM (overnight_at returns_close_to_close returns_intraday dates_datetime)
           (range 1 n_days) ;;
    ret (0%F :: overnight_tail, returns_intraday).

(** *** [PlotData.__init__] (l. 682-696) *)

Record PlotData : Type := {
  _dates_datetime : list datetime;
  _returns_overnight : list binary64;
  _returns_intraday : list binary64
}.

Definition PlotData_init (dates_datetime : list datetime)
    (returns_overnight returns_intraday : list binary64) : result PlotData :=
  assert_ ((length dates_datetime =? length returns_overnight)
           && (length returns_overnight =? length returns_intraday))
          (Lengths (length dates_datetime) (length returns_overnight)
                   (length returns_intraday)) ;;;
  r <- getitem returns_overnight 0 ;;
  assert_ (r =? 0)%F NoMessage ;;;
  ret {| _dates_datetime := dates_datetime;
         _returns_overnight := returns_overnight;
         _returns_intraday := returns_intraday |}.

(** The entry of [symbol_details_dict()] for a symbol, as far as
    [get_plot_data] reads it; a missing key is [None] or the empty list. *)
Record symbol_details : Type := {
  sd_start_date : option datetime;
  sd_end_date : option datetime;
  sd_bad_data_dates : list datetime
}.

Section Program.

(** [float(s)], [int(s)] and [d.strftime(fmt)]; [None] is [ValueError]. *)
Variable float : string -> option binary64.
Variable int : string -> option Z.
Variable strftime : datetime -> string -> option string.

(** *** [get_prices_open_close_adj_dates] *)

(** The condition of the comprehension at l. 612-613. *)
Definition line_kept (bad_data_dates_str : list string) (d : string) : bool :=
  negb (d =? "")%string
  && negb (contains "null" d)
  && negb (mem (nth 0 (str_split "," d) "") bad_data_dates_str).

(** l. 616 keeps a row when [len(set(d[1:5])) > 1]: the open, high, low
    and close fields, compared as the texts they are. *)
Definition all_flat (d : list string) : bool :=
  negb (1 <? len_set (slice 1 5 d))%nat.

(** The condition at l. 618, [float(d[1]) > 0]. *)
Definition open_positive (d : list string) : result bool :=
  s <- getitem d 1 ;;
  x <- of_option ValueError (float s) ;;
  ret (0 <? x)%F.

(** l. 608-618: header check and the three row filters. *)
Definition read_rows (original_data : list string) (bad_data_dates : list datetime)
  : result (list (list string)) :=
  hdr <- getitem original_data 0 ;;
  assert_ (str_strip hdr =? HEADER)%string (Message hdr) ;;;
  bad_data_dates_str <-
    mapM (fun d => of_option ValueError (strftime d DATETIME_FORMAT)) bad_data_dates ;;
  let data := map (str_split ",") (filter (line_kept bad_data_dates_str) (tl original_data)) in
  let data := filter (fun d => negb (all_flat d)) data in
  filterM open_positive data.

(** [float(d[k])]. *)
Definition field_float (k : nat) (d : list string) : result binary64 :=
  s <- getitem d k ;;
  of_option ValueError (float s).

(** l. 624: the date field, split at the dashes, each part read as an
    integer, the integers passed to the [datetime] constructor. *)
Definition field_date (d : list string) : result datetime :=
  s <- getitem d 0 ;;
  parts <- mapM (fun p => of_option ValueError (int p)) (str_split "-" s) ;;
  datetime_new parts.

(** l. 620-624: the four columns and the adjusted-close assertion. *)
Definition columns (data : list (list string)) : result series :=
  price_open <- mapM (field_float 1) data ;;
  price_close <- mapM (field_float 4) data ;;
  price_close_adj <- mapM (field_float 5) data ;;
  assert_ (forallb (fun p => 0 <? p)%F price_close_adj) BAD_DATA ;;;
  dates_datetime <- mapM field_date data ;;
  ret (price_open, price_close, price_close_adj, dates_datetime).

(** [d or dflt] on an optional datetime. *)
Definition or_default (d : option datetime) (dflt : datetime) : datetime :=
  match d with
  | Some x => x
  | None => dflt
  end.

(** l. 630-631. *)
Definition window_d0 (price_open price_close : list binary64)
    (dates_datetime : list datetime) (start_date : option datetime) : result nat :=
  a <- index_True (map (fun oc => negb (fst oc =? snd oc)%F)
                       (combine price_open price_close)) ;;
  b <- index_True (map (fun d => (or_default start_date DEFAULT_START_DATE <=? d)%Z)
                       dates_datetime) ;;
  ret (Nat.max a b).

(** l. 633-634. *)
Definition window_d1 (dates_datetime : list datetime) (end_date : option datetime)
  : result nat :=
  m <- py_max dates_datetime ;;
  if (or_default end_date DEFAULT_END_DATE <? m)%Z
  then index_True (map (fun d => (or_default end_date DEFAULT_END_DATE <? d)%Z)
                       dates_datetime)
  else ret (length dates_datetime).

(** l. 630-641: the lists are cut to [[d0:d1]] only when [d0 > 1] or
    [d1 < len(dates_datetime)]. *)
Definition window (s : series) (start_date end_date : option datetime) : result series :=
  let '(price_open, price_close, price_close_adj, dates_datetime) := s in
  d0 <- window_d0 price_open price_close dates_datetime start_date ;;
  d1 <- window_d1 dates_datetime end_date ;;
  if ((1 <? d0) || (d1 <? length dates_datetime))%nat
  then ret (slice d0 d1 price_open, slice d0 d1 price_close,
            slice d0 d1 price_close_adj, slice d0 d1 dates_datetime)
  else ret s.

Definition get_prices_open_close_adj_dates (original_data : list string)
    (start_date end_date : option datetime) (bad_data_dates : list datetime)
  : result series :=
  data <- read_rows original_data bad_data_dates ;;
  s <- columns data ;;
  window s start_date end_date.

(** *** [get_plot_data] (l. 766-772), from the lines of the price file on *)

Definition get_plot_data (data : list string) (s : symbol_details)
    (start_date : option datetime) : result (option PlotData) :=
  cleaned <- get_prices_open_close_adj_dates data
               (match start_date with
                | Some d => Some d
                | None => sd_start_date s
                end)
               (sd_end_date s) (sd_bad_data_dates s) ;;
  let '(price_open, price_close, price_close_adj, dates_datetime) := cleaned in
  returns <- compute_returns_overnight_intraday
               price_open price_close price_close_adj dates_datetime ;;
  match dates_datetime with
  | [] => ret None
  | _ :: _ =>
      p <- PlotData_init dates_datetime (fst returns) (snd returns) ;;
      ret (Some p)
  end.

End Program.

(** ** The helpers around the pipeline *)

(** Exceptions of the functions below that [exn] does not list: a
    subscript on a dict with a missing key. *)
Inductive py_error : Type :=
| Builtin (e : exn)
| KeyError (key : string).

Definition outcome (A : Type) : Type := (py_error + A)%type.

Definition obind {A B : Type} (c : outcome A) (k : A -> outcome B) : outcome B :=
  match c with
  | inl e => inl e
  | inr a => k a
  end.

Notation "x <~ c ;; k" := (obind c (fun x => k))
  (at level 61, c at next level, right associativity).

Definition lift {A : Type} (c : result A) : outcome A :=
  match c with
  | inl e => inl (Builtin e)
  | inr a => inr a
  end.

(** [d[key]] on a dict with string keys. *)
Fixpoint dict_getitem {V : Type} (d : list (string * V)) (key : string) : outcome V :=
  match d with
  | [] => inl (KeyError key)
  | (k, v) :: d' => if (k =? key)%string then inr v else dict_getitem d' key
  end.

(** [d.get(key)]. *)
Fixpoint dict_get {V : Type} (d : list (string * V)) (key : string) : option V :=
  match d with
  | [] => None
  | (k, v) :: d' => if (k =? key)%string then Some v else dict_get d' key
  end.

(** [l[-1]]. *)
Definition getitem_last {A : Type} (l : list A) : result A :=
  of_option IndexError (nth_error l (length l - 1)).

(** [s.split()]: the maximal runs of non-whitespace characters.
    [words_aux s] is the run [s] starts with (empty when [s] starts with
    whitespace or is empty) and the words after it. *)
Fixpoint words_aux (s : string) : string * list string :=
  match s with
  | EmptyString => (EmptyString, [])
  | String c rest =>
      let (w, ws) := words_aux rest in
      if is_space c
      then (EmptyString, match w with EmptyString => ws | _ => w :: ws end)
      else (String c w, ws)
  end.

Definition str_words (s : string) : list string :=
  let (w, ws) := words_aux s in
  match w with
  | EmptyString => ws
  | _ => w :: ws
  end.

Definition LINEAR_SCALES : list string := ["percent"; "fraction_of_unity"; "currency"].

(** *** [linear_scale_start_value] (l. 386-394) *)

Definition linear_scale_start_value (linear_scale : string) : outcome binary64 :=
  _ <~ lift (assert_ (mem linear_scale LINEAR_SCALES) (Message linear_scale)) ;;
  dict_getitem [("percent", 0%F); ("fraction_of_unity", 0%F); ("currency", 1%F)]
               linear_scale.

(** *** [sym_to_currency_tex] (l. 432-440) *)

Definition sym_to_currency_tex (sym : string) : result (option string) :=
  exchange <- (if length (str_split "." sym) =? 1 then ret "US"
               else getitem (str_split "." sym) 1) ;;
  ret (dict_get [("US", "$"); ("HK", "HK$"); ("SS", "CN$\yen$")] exchange).

(** *** [word_wrapped_company_name] (l. 443-463), from the name found in
    [symbol_details_dict()] on *)

Definition NEWLINE : string := String "010"%char EmptyString.

Definition SPACE : ascii := " "%char.

Definition word_wrapped_company_name (s_name : string) : string :=
  let s_name_words := str_words s_name in
  if 5 <=? length s_name_words
  then (str_join SPACE (slice 0 3 s_name_words) ++ NEWLINE
        ++ str_join SPACE (skipn 3 s_name_words))%string
  else if (length s_name_words =? 4) && (26 <=? String.length s_name)
  then
    let l2x2 := Nat.max (String.length (str_join SPACE (slice 0 2 s_name_words)))
                        (String.length (str_join SPACE (skipn 2 s_name_words))) in
    let l3x1 := Nat.max (String.length (str_join SPACE (slice 0 3 s_name_words)))
                        (String.length (str_join SPACE (skipn 3 s_name_words))) in
    let i_word_break := if l2x2 <? l3x1 then 2 else 3 in
    (str_join SPACE (slice 0 i_word_break s_name_words) ++ NEWLINE
     ++ str_join SPACE (skipn i_word_break s_name_words))%string
  else if (length s_name_words =? 3) && (26 <=? String.length s_name)
  then (str_join SPACE (slice 0 2 s_name_words) ++ NEWLINE
        ++ str_join SPACE (skipn 2 s_name_words))%string
  else s_name.

(** *** [clip] (l. 466-470) *)

Definition clip (x lo hi : binary64) : binary64 :=
  if (x <? lo)%F then lo
  else if (hi <? x)%F then hi
  else x.

(** *** The methods of [PlotData] (l. 698-755) *)

Definition n_days (self : PlotData) : nat := length (_dates_datetime self).

Definition first_date (self : PlotData) : result datetime :=
  getitem (_dates_datetime self) 0.

Definition last_date (self : PlotData) : result datetime :=
  getitem_last (_dates_datetime self).

(** The four presentations of a cumulated return (l. 728-732). *)
Definition r_funcs : list (string * (binary64 -> binary64)) :=
  [("percent", fun r1 => (r1 * of_Z 100)%F);
   ("currency", fun r1 => (r1 + 1)%F);
   ("fraction_of_unity", fun r1 => r1);
   ("log", fun r1 => (r1 + 1)%F)].

(** [plot_data] (l. 713-742): the two curves it computes, checks and
    returns.  The conversion of the dates for the axes and the calls that
    draw the curves are not modelled. *)
Definition plot_data (self : PlotData) (vertical_scale linear_scale : string)
  : outcome (list binary64 * list binary64) :=
  _ <~ lift (assert_ (mem vertical_scale ["linear"; "log"]) (Message vertical_scale)) ;;
  _ <~ (if (vertical_scale =? "linear")%string
        then lift (assert_ (mem linear_scale LINEAR_SCALES) (Message linear_scale))
        else inr tt) ;;
  vertical_choice <~ dict_getitem [("linear", linear_scale); ("log", "log")]
                                  vertical_scale ;;
  r_func <~ dict_getitem r_funcs vertical_choice ;;
  let overnight_curve := map r_func (cumulate_returns (_returns_overnight self)) in
  let intraday_curve := map r_func (cumulate_returns (_returns_intraday self)) in
  c0 <~ lift (getitem overnight_curve 0) ;;
  _ <~ lift (assert_ (c0 =? r_func 0)%F NoMessage) ;;
  inr (overnight_curve, intraday_curve).

(** The arguments of one call of [hist]. *)
Record hist_call : Type := {
  hist_x : list binary64;
  hist_bins : Z;
  hist_range : Z * Z
}.

(** [histogram_returns] (l. 744-755): the two calls of [hist] it makes,
    overnight first.  What [hist] draws is not modelled. *)
Definition histogram_returns (self : PlotData) : result (hist_call * hist_call) :=
  assert_ (length (_returns_overnight self) =? length (_returns_intraday self))
          NoMessage ;;;
  r0 <- getitem (_returns_overnight self) 0 ;;
  assert_ (r0 =? 0)%F NoMessage ;;;
  let r := 3%Z in
  let c := (of_Z r - of_decimal false 7 (-2))%F in
  let n_bins := (10 * r * 2)%Z in
  ret ({| hist_x := map (fun r1 => clip (r1 * of_decimal false 1 2) (- c) c)%F
                        (skipn 1 (_returns_overnight self));
          hist_bins := n_bins;
          hist_range := ((- r)%Z, r) |},
       {| hist_x := map (fun r1 => clip (r1 * of_decimal false 1 2) (- c) c)%F
                        (_returns_intraday self);
          hist_bins := n_bins;
          hist_range := ((- r)%Z, r) |}).

(** * Vocabulary of the statements

    Nothing below is part of the program: these are the quantities and
    predicates the theorems speak about. *)

(** A binary64 number in canonical form, as every Python float is. *)
Definition valid (x : binary64) : Prop := valid_binary prec emax x = true.

(** The rational a finite float stands for ([0] is returned for the
    infinities and [nan], which stand for none). *)
Definition value (x : binary64) : Q :=
  match x with
  | S754_finite s m e => (inject_Z (cond_Zopp s (Z.pos m)) * (2 # 1) ^ e)%Q
  | _ => 0%Q
  end.

(** The power of two [2^k], for [k] in the range of the normal numbers. *)
Definition pow2 (k : Z) : binary64 := S754_finite false 4503599627370496 (k - 52).

(** The product of [1 + r] over the elements [r] of a list, in exact
    arithmetic. *)
Definition compound (l : list Q) : Q :=
  fold_right (fun r acc => ((1 + r) * acc)%Q) 1%Q l.

(** The quantities the decomposition is specified with, in the float
    arithmetic of the source: [intraday[i] = close[i] / open[i] - 1],
    [closeToClose[i] = adjustedClose[i] / adjustedClose[i-1] - 1], and the
    overnight return under the gap rule. *)
Definition intraday_of (price_open price_close : list binary64) (i : nat) : binary64 :=
  (nth i price_close 0 / nth i price_open 0 - 1)%F.

Definition close_to_close_of (price_close_adj : list binary64) (i : nat) : binary64 :=
  (nth i price_close_adj 0 / nth (i - 1) price_close_adj 0 - 1)%F.

Definition gap_of (dates_datetime : list datetime) (i : nat) : Z :=
  (nth i dates_datetime 0 - nth (i - 1) dates_datetime 0)%Z.

Definition overnight_of (price_open price_close price_close_adj : list binary64)
    (dates_datetime : list datetime) (i : nat) : binary64 :=
  if (gap_of dates_datetime i <? timedelta_days 14)%Z
  then ((1 + close_to_close_of price_close_adj i)
        / (1 + intraday_of price_open price_close i) - 1)%F
  else 0%F.

(** Index [i >= 1] is less than 14 days after its predecessor and
    [1 + intraday[i]] is zero: the overnight formula divides by zero there. *)
Definition zero_divisor_at (price_open price_close : list binary64)
    (dates_datetime : list datetime) (i : nat) : Prop :=
  1 <= i < length dates_datetime
  /\ (gap_of dates_datetime i < timedelta_days 14)%Z
  /\ is_zero (1 + intraday_of price_open price_close i)%F = true.

(** The loop body of the overnight comprehension, once the intraday and
    close-to-close lists are known. *)
Definition overnight_step (price_open price_close price_close_adj : list binary64)
    (dates_datetime : list datetime) (i : nat) : result binary64 :=
  if (gap_of dates_datetime i <? timedelta_days 14)%Z
  then q <- div (1 + close_to_close_of price_close_adj i)%F
                (1 + intraday_of price_open price_close i)%F ;;
       ret (q - 1)%F
  else ret 0%F.

(** The order of the floats other than [nan], as the lexicographic order
    on triples of integers: the sign class, then the exponent, then the
    mantissa. *)
Definition rank (x : binary64) : Z * Z * Z :=
  match x with
  | S754_zero _ => (0, 0, 0)
  | S754_infinity s => (if s then -2 else 2, 0, 0)
  | S754_nan => (0, 0, 0)
  | S754_finite s m e => if s then (-1, - e, - Z.pos m) else (1, e, Z.pos m)
  end%Z.

Definition lex3 (a b : Z * Z * Z) : comparison :=
  let '(a1, a2, a3) := a in
  let '(b1, b2, b3) := b in
  match (a1 ?= b1)%Z with
  | Eq => match (a2 ?= b2)%Z with
          | Eq => (a3 ?= b3)%Z
          | c => c
          end
  | c => c
  end.

(** A computation that raises no [AssertionError]. *)
Definition never_asserts {A : Type} (c : result A) : Prop :=
  forall m, c <> inl (AssertionError m).

Section Retained.

Variable float : string -> option binary64.
Variable int : string -> option Z.
Variable strftime : datetime -> string -> option string.

(** The rows of [data] whose columns the cleaner returns: the same
    computation as [get_prices_open_close_adj_dates], cutting [data] where
    the source cuts the four lists. *)
Definition retained_rows (original_data : list string)
    (start_date end_date : option datetime) (bad_data_dates : list datetime)
  : result (list (list string)) :=
  data <- read_rows float strftime original_data bad_data_dates ;;
  s <- columns float int data ;;
  d0 <- window_d0 (fst (fst (fst s))) (snd (fst (fst s))) (snd s) start_date ;;
  d1 <- window_d1 (snd s) end_date ;;
  ret (if ((1 <? d0) || (d1 <? length (snd s)))%nat then slice d0 d1 data else data).

(** The cleaner applied to the price file made of the header and the
    retained rows, same window, no excluded dates. *)
Definition reclean (original_data : list string)
    (start_date end_date : option datetime) (bad_data_dates : list datetime)
  : result series :=
  rows <- retained_rows original_data start_date end_date bad_data_dates ;;
  get_prices_open_close_adj_dates float int strftime
    (HEADER :: map (str_join ",") rows) start_date end_date [].

(** What the filters establish of a row. *)
Definition row_passes (d : list string) : Prop :=
  (exists line, d = str_split "," line /\ line <> ""
                /\ contains "null" line = false)
  /\ all_flat d = false
  /\ open_positive float d = inr true.

End Retained.

(** The program with the concrete builtins. *)
Definition clean_py : list string -> option datetime -> option datetime
                      -> list datetime -> result series :=
  get_prices_open_close_adj_dates py_float py_int py_strftime.

Definition jan (d : Z) : datetime := mk_datetime 2020 1 d 0 0 0 0.

(** A line the cleaner passes over: empty, carrying a [null], or with
    fewer than three comma-separated fields. *)
Definition junk_line (d : string) : bool :=
  (d =? "")%string || contains "null" d || (length (str_split "," d) <=? 2).

(** The date field of a line, as text. *)
Definition date_text (d : string) : string := nth 0 (str_split "," d) "".

(** A word: at least one character, none of them whitespace. *)
Fixpoint no_space (s : string) : bool :=
  match s with
  | EmptyString => true
  | String c rest => negb (is_space c) && no_space rest
  end.

Definition is_word (w : string) : Prop := w <> EmptyString /\ no_space w = true.

(** A computation that raises no [KeyError]. *)
Definition no_KeyError {A : Type} (c : outcome A) : Prop :=
  forall key, c <> inl (KeyError key).

(** A text without the character [c]. *)
Fixpoint lacks (c : ascii) (s : string) : bool :=
  match s with
  | EmptyString => true
  | String c' rest => negb (Ascii.eqb c' c) && lacks c rest
  end.

(** The table of [sym_to_currency_tex]. *)
Definition CURRENCY_TEX : list (string * string) :=
  [("US", "$"); ("HK", "HK$"); ("SS", "CN$\yen$")].


(** The least exponent of a binary64 mantissa. *)
Definition emin : Z := (-1074)%Z.

(** [mrs] is the integer part of [N / D] with the round and sticky bits of
    its fractional part. *)
Definition inbetween (N D : Z) (mrs : shr_record) : Prop :=
  (shr_m mrs = N / D
   /\ (shr_r mrs = true <-> D <= 2 * (N mod D))
   /\ (shr_s mrs = true <-> N mod D <> 0 /\ 2 * (N mod D) <> D))%Z.
(** * Properties *)

(** ** The error monad and the list builtins *)

Lemma bind_inr {A B : Type} (c : result A) (k : A -> result B) (b : B) :
  bind c k = inr b -> exists a, c = inr a /\ k a = inr b.
Proof.
  destruct c as [e | a]; simpl; intros H; [discriminate | eauto].
Qed.

Lemma bind_inl {A B : Type} (c : result A) (k : A -> result B) (e : exn) :
  bind c k = inl e -> c = inl e \/ exists a, c = inr a /\ k a = inl e.
Proof.
  destruct c as [e' | a]; simpl; intros H; [left; congruence | right; eauto].
Qed.

Lemma assert_inr (b : bool) (msg : assert_msg) (u : unit) :
  assert_ b msg = inr u -> b = true.
Proof.
  destruct b; simpl; [reflexivity | discriminate].
Qed.

Lemma mapM_length {A B : Type} (f : A -> result B) (l : list A) (bs : list B) :
  mapM f l = inr bs -> length bs = length l.
Proof.
  revert bs; induction l as [| a l IH]; simpl; intros bs H.
  - injection H as <-. reflexivity.
  - destruct (f a) as [e | b]; [discriminate |]. simpl in H.
    destruct (mapM f l) as [e | bs']; [discriminate |]. simpl in H.
    injection H as <-. simpl. f_equal. apply IH. reflexivity.
Qed.

Lemma mapM_total {A B : Type} (f : A -> result B) (l : list A) :
  (forall a, In a l -> exists b, f a = inr b) -> exists bs, mapM f l = inr bs.
Proof.
  induction l as [| x l IH]; simpl; intros H.
  - eexists; reflexivity.
  - destruct (H x (or_introl eq_refl)) as [b Hb]. rewrite Hb. simpl.
    destruct IH as [bs Hbs]; [intros a Ha; apply H; right; exact Ha |].
    rewrite Hbs. simpl. eexists; reflexivity.
Qed.

Lemma getitem_inr {A : Type} (l : list A) (i : nat) (a : A) :
  getitem l i = inr a <-> nth_error l i = Some a.
Proof.
  unfold getitem. destruct (nth_error l i); simpl; split; intros H;
    try discriminate; inversion H; reflexivity.
Qed.

Lemma getitem_lt {A : Type} (l : list A) (i : nat) (d : A) :
  i < length l -> getitem l i = inr (nth i l d).
Proof.
  intros H. apply getitem_inr. apply nth_error_nth'. exact H.
Qed.

(** ** Comparisons of floats *)

Lemma positive_not_zero (x : binary64) : (0 <? x)%F = true -> is_zero x = false.
Proof.
  destruct x; simpl; intros H; [discriminate | reflexivity..].
Qed.

Lemma positive_not_nan (x : binary64) : (0 <? x)%F = true -> is_nan x = false.
Proof.
  destruct x; simpl; intros H; [reflexivity | reflexivity | discriminate | reflexivity].
Qed.

Lemma feq_zero (x : binary64) : (x =? 0)%F = true <-> is_zero x = true.
Proof.
  destruct x as [s | s | | s m e]; simpl; split; intros H;
    try reflexivity; try discriminate; destruct s; discriminate.
Qed.

Lemma forallb_Forall {A : Type} (f : A -> bool) (l : list A) :
  forallb f l = true <-> Forall (fun a => f a = true) l.
Proof.
  rewrite forallb_forall, Forall_forall. reflexivity.
Qed.

Lemma forallb_Exists {A : Type} (f : A -> bool) (l : list A) :
  forallb f l = false <-> Exists (fun a => f a = false) l.
Proof.
  induction l as [| x l IH]; simpl.
  - split; [discriminate | intros H; inversion H].
  - rewrite andb_false_iff, Exists_cons, IH. reflexivity.
Qed.

(** [SFcompare] read backwards. *)
Lemma SFcompare_swap (x y : binary64) :
  SFcompare y x = option_map CompOpp (SFcompare x y).
Proof.
  destruct x as [sx | sx | | sx mx ex], y as [sy | sy | | sy my ey]; simpl;
    try reflexivity;
    try (destruct sx; reflexivity); try (destruct sy; reflexivity);
    try (destruct sx, sy; reflexivity).
  fold (Pos.compare mx my). fold (Pos.compare my mx).
  rewrite (Z.compare_antisym ex ey), (Pos.compare_antisym mx my).
  destruct sx, sy; try reflexivity; f_equal;
    destruct (ex ?= ey)%Z; simpl; try reflexivity;
    destruct (mx ?= my)%positive; reflexivity.
Qed.

(** On numbers, [not (x < y)] is [y <= x]. *)
Lemma flt_false_fle (x y : binary64) :
  is_nan x = false -> is_nan y = false -> (x <? y)%F = false -> (y <=? x)%F = true.
Proof.
  intros Nx Ny. unfold flt, fle, SFltb, SFleb. rewrite (SFcompare_swap x y).
  destruct (SFcompare x y) as [[| |] |] eqn:E; simpl; try reflexivity; try discriminate.
  destruct x, y; simpl in *; discriminate.
Qed.

Lemma fle_not_nan (x y : binary64) :
  (x <=? y)%F = true -> is_nan x = false /\ is_nan y = false.
Proof.
  destruct x, y; simpl; intros H; try discriminate; split; reflexivity.
Qed.

Lemma flt_not_nan (x y : binary64) :
  (x <? y)%F = true -> is_nan x = false /\ is_nan y = false.
Proof.
  destruct x, y; simpl; intros H; try discriminate; split; reflexivity.
Qed.

Lemma SFcompare_refl (x : binary64) : is_nan x = false -> SFcompare x x = Some Eq.
Proof.
  destruct x as [s | s | | s m e]; simpl; intros H; try discriminate; try reflexivity.
  - destruct s; reflexivity.
  - fold (Pos.compare m m). rewrite Z.compare_refl, Pos.compare_refl.
    destruct s; reflexivity.
Qed.

Lemma fle_refl (x : binary64) : is_nan x = false -> (x <=? x)%F = true.
Proof.
  intros H. unfold fle, SFleb. rewrite SFcompare_refl by exact H. reflexivity.
Qed.

Lemma SFcompare_rank (x y : binary64) :
  is_nan x = false -> is_nan y = false ->
  SFcompare x y = Some (lex3 (rank x) (rank y)).
Proof.
  destruct x as [sx | sx | | sx mx ex], y as [sy | sy | | sy my ey];
    intros Hx Hy; try discriminate; simpl;
    try (destruct sx; reflexivity); try (destruct sy; reflexivity);
    try (destruct sx, sy; reflexivity); try reflexivity.
  fold (Pos.compare mx my).
  destruct sx, sy; cbn [rank lex3 Z.compare]; try reflexivity; f_equal.
  cbn [Pos.compare Pos.compare_cont CompOpp].
  rewrite Z.compare_opp, (Z.compare_antisym ex ey).
  destruct (ex ?= ey)%Z; reflexivity.
Qed.

Lemma lex3_trans (a b c : Z * Z * Z) :
  lex3 a b <> Gt -> lex3 b c <> Gt ->
  lex3 a c <> Gt /\ (lex3 a b = Lt \/ lex3 b c = Lt -> lex3 a c = Lt).
Proof.
  destruct a as [[a1 a2] a3], b as [[b1 b2] b3], c as [[c1 c2] c3]. unfold lex3.
  destruct (Z.compare_spec a1 b1), (Z.compare_spec b1 c1), (Z.compare_spec a1 c1);
    try lia; try (intros; split; [discriminate | reflexivity || tauto]); try tauto;
    destruct (Z.compare_spec a2 b2), (Z.compare_spec b2 c2), (Z.compare_spec a2 c2);
    try lia; try (intros; split; [discriminate | reflexivity || tauto]); try tauto;
    destruct (Z.compare_spec a3 b3), (Z.compare_spec b3 c3), (Z.compare_spec a3 c3);
    try lia; try (intros; split; [discriminate | reflexivity || tauto]); try tauto.
Qed.

Lemma fle_rank (x y : binary64) :
  (x <=? y)%F = true <->
  is_nan x = false /\ is_nan y = false /\ lex3 (rank x) (rank y) <> Gt.
Proof.
  split.
  - intros H. destruct (fle_not_nan x y H) as [Nx Ny]. repeat split; try assumption.
    unfold fle, SFleb in H. rewrite (SFcompare_rank x y Nx Ny) in H.
    intros E. rewrite E in H. discriminate.
  - intros (Nx & Ny & H). unfold fle, SFleb. rewrite (SFcompare_rank x y Nx Ny).
    destruct (lex3 (rank x) (rank y)); [reflexivity | reflexivity | contradiction].
Qed.

Lemma flt_rank (x y : binary64) :
  (x <? y)%F = true <->
  is_nan x = false /\ is_nan y = false /\ lex3 (rank x) (rank y) = Lt.
Proof.
  split.
  - intros H. destruct (flt_not_nan x y H) as [Nx Ny]. repeat split; try assumption.
    unfold flt, SFltb in H. rewrite (SFcompare_rank x y Nx Ny) in H.
    destruct (lex3 (rank x) (rank y)); [discriminate | reflexivity | discriminate].
  - intros (Nx & Ny & H). unfold flt, SFltb. rewrite (SFcompare_rank x y Nx Ny), H.
    reflexivity.
Qed.

Lemma fle_trans (x y z : binary64) :
  (x <=? y)%F = true -> (y <=? z)%F = true -> (x <=? z)%F = true.
Proof.
  rewrite !fle_rank. intros (Nx & Ny & A) (_ & Nz & B).
  repeat split; try assumption. apply (lex3_trans _ _ _ A B).
Qed.

Lemma flt_fle_trans (x y z : binary64) :
  (x <? y)%F = true -> (y <=? z)%F = true -> (x <? z)%F = true.
Proof.
  rewrite !flt_rank, fle_rank. intros (Nx & Ny & A) (_ & Nz & B).
  repeat split; try assumption.
  apply (lex3_trans (rank x) (rank y) (rank z)); [congruence | exact B | left; exact A].
Qed.

Lemma fle_flt_trans (x y z : binary64) :
  (x <=? y)%F = true -> (y <? z)%F = true -> (x <? z)%F = true.
Proof.
  rewrite !flt_rank, fle_rank. intros (Nx & Ny & A) (_ & Nz & B).
  repeat split; try assumption.
  apply (lex3_trans (rank x) (rank y) (rank z)); [exact A | congruence | right; exact B].
Qed.

(** [x <= y] excludes [y < x]. *)
Lemma fle_flt_false (x y : binary64) : (x <=? y)%F = true -> (y <? x)%F = false.
Proof.
  intros H. unfold fle, SFleb in H. unfold flt, SFltb. rewrite (SFcompare_swap x y).
  destruct (SFcompare x y) as [[| |] |]; simpl; try reflexivity; discriminate.
Qed.

(** ** Rounding to binary64 *)

Lemma iter_pos_invariant {A : Type} (f : A -> A) (P : A -> Prop) :
  (forall x, P x -> P (f x)) -> forall p x, P x -> P (iter_pos f p x).
Proof.
  intros Hf. induction p as [p IH | p IH |]; intros x Hx; simpl.
  - apply IH. apply IH. apply Hf. exact Hx.
  - apply IH. apply IH. exact Hx.
  - apply Hf. exact Hx.
Qed.

Lemma shr_1_nonneg (mrs : shr_record) : (0 <= shr_m mrs)%Z -> (0 <= shr_m (shr_1 mrs))%Z.
Proof.
  destruct mrs as [m r s]. simpl. intros H.
  destruct m as [| [p | p |] | p]; simpl; lia.
Qed.

Lemma shr_nonneg (mrs : shr_record) (e n : Z) :
  (0 <= shr_m mrs)%Z -> (0 <= shr_m (fst (shr mrs e n)))%Z.
Proof.
  intros H. unfold shr. destruct n as [| p | p]; simpl; try exact H.
  apply (iter_pos_invariant shr_1 (fun x => (0 <= shr_m x)%Z) shr_1_nonneg). exact H.
Qed.

Lemma shr_record_of_loc_m (m : Z) (l : location) : shr_m (shr_record_of_loc m l) = m.
Proof.
  destruct l as [| [| |]]; reflexivity.
Qed.

Lemma round_nearest_even_nonneg (m : Z) (l : location) :
  (0 <= m)%Z -> (0 <= round_nearest_even m l)%Z.
Proof.
  intros H. destruct l as [| [| |]]; simpl; try lia.
  destruct (Z.even m); lia.
Qed.

(** Rounding a non-negative mantissa gives a zero, a finite number or an
    infinity of the sign asked for. *)
Lemma binary_round_aux_sign (s : bool) (mx ex : Z) (lx : location) :
  (0 <= mx)%Z ->
  binary_round_aux prec emax s mx ex lx = S754_zero s
  \/ binary_round_aux prec emax s mx ex lx = S754_infinity s
  \/ exists m e, binary_round_aux prec emax s mx ex lx = S754_finite s m e.
Proof.
  intros H. unfold binary_round_aux.
  destruct (shr_fexp prec emax mx ex lx) as [mrs' e'] eqn:E1.
  assert (H1 : (0 <= shr_m mrs')%Z).
  { replace mrs' with (fst (shr_fexp prec emax mx ex lx)) by (rewrite E1; reflexivity).
    unfold shr_fexp. apply shr_nonneg. rewrite shr_record_of_loc_m. exact H. }
  destruct (shr_fexp prec emax
              (round_nearest_even (shr_m mrs') (loc_of_shr_record mrs')) e' loc_Exact)
    as [mrs'' e''] eqn:E2.
  assert (H2 : (0 <= shr_m mrs'')%Z).
  { replace mrs'' with
      (fst (shr_fexp prec emax
              (round_nearest_even (shr_m mrs') (loc_of_shr_record mrs')) e' loc_Exact))
      by (rewrite E2; reflexivity).
    unfold shr_fexp. apply shr_nonneg. rewrite shr_record_of_loc_m.
    apply round_nearest_even_nonneg. exact H1. }
  destruct (shr_m mrs'') as [| m | m]; [left; reflexivity | | lia].
  destruct (e'' <=? emax - prec)%Z; [right; right; eauto | right; left; reflexivity].
Qed.

Lemma binary_round_aux_not_nan (s : bool) (mx ex : Z) (lx : location) :
  (0 <= mx)%Z -> is_nan (binary_round_aux prec emax s mx ex lx) = false.
Proof.
  intros H.
  destruct (binary_round_aux_sign s mx ex lx H) as [E | [E | (m & e & E)]];
    rewrite E; reflexivity.
Qed.

(** A product is [nan] only if a factor is, or for [inf * 0]. *)
Lemma fmul_not_nan (x y : binary64) :
  is_nan x = false -> is_finite y = true -> is_zero y = false ->
  is_nan (x * y)%F = false.
Proof.
  destruct x as [sx | sx | | sx mx ex], y as [sy | sy | | sy my ey];
    simpl; intros Hx Hy Hz; try discriminate; try reflexivity.
  apply binary_round_aux_not_nan. lia.
Qed.


(** ** The rounding of [binary_round_aux] *)

Section Rounding.
Local Open Scope Z_scope.



Lemma fexp_eq (e : Z) : fexp prec emax e = Z.max (e - 53) (-1074).
Proof. reflexivity. Qed.

Lemma digits2_pos_bounds (p : positive) :
  2 ^ (Z.pos (digits2_pos p) - 1) <= Z.pos p < 2 ^ Z.pos (digits2_pos p).
Proof.
  induction p as [p IH | p IH |]; cbn [digits2_pos].
  - rewrite Pos2Z.inj_succ.
    replace (Z.succ (Z.pos (digits2_pos p)) - 1) with (Z.succ (Z.pos (digits2_pos p) - 1)) by lia.
    rewrite !Z.pow_succ_r by lia. lia.
  - rewrite Pos2Z.inj_succ.
    replace (Z.succ (Z.pos (digits2_pos p)) - 1) with (Z.succ (Z.pos (digits2_pos p) - 1)) by lia.
    rewrite !Z.pow_succ_r by lia. lia.
  - simpl. lia.
Qed.

(** The number of binary digits of a positive integer. *)
Lemma Zdigits2_log2 (n : Z) : 0 < n -> Zdigits2 n = Z.log2 n + 1.
Proof.
  intros H. destruct n as [| p | p]; try lia. cbn [Zdigits2].
  pose proof (digits2_pos_bounds p) as B.
  symmetry. assert (E : Z.log2 (Z.pos p) = Z.pos (digits2_pos p) - 1).
  { apply Z.log2_unique; [lia |].
    replace (Z.succ (Z.pos (digits2_pos p) - 1)) with (Z.pos (digits2_pos p)) by lia.
    exact B. }
  lia.
Qed.

Lemma Zdigits2_nonneg (n : Z) : 0 <= Zdigits2 n.
Proof. destruct n; simpl; lia. Qed.

(** ** Shifting right with round and sticky bits *)

(** Counting the steps of [iter_pos]. *)
Lemma iter_pos_count {A : Type} (f : A -> A) (P : Z -> A -> Prop) :
  (forall n x, 0 <= n -> P n x -> P (n + 1) (f x)) ->
  forall p n x, 0 <= n -> P n x -> P (n + Z.pos p) (iter_pos f p x).
Proof.
  intros Hf. induction p as [p IH | p IH |]; intros n x Hn Hx; simpl.
  - replace (n + Z.pos p~1) with (n + 1 + Z.pos p + Z.pos p) by lia.
    apply IH; [lia |]. apply IH; [lia |]. apply Hf; assumption.
  - replace (n + Z.pos p~0) with (n + Z.pos p + Z.pos p) by lia.
    apply IH; [lia |]. apply IH; assumption.
  - apply Hf; assumption.
Qed.


Lemma div_mod_double (N D : Z) :
  0 < D ->
  N / (2 * D) = N / D / 2 /\ N mod (2 * D) = (N / D mod 2) * D + N mod D.
Proof.
  intros HD.
  pose proof (Z.div_mod N D ltac:(lia)) as E1.
  pose proof (Z.mod_pos_bound N D HD) as B1.
  pose proof (Z.div_mod (N / D) 2 ltac:(lia)) as E2.
  pose proof (Z.mod_pos_bound (N / D) 2 ltac:(lia)) as B2.
  assert (E : N = (N / D / 2) * (2 * D) + ((N / D mod 2) * D + N mod D)) by nia.
  assert (B : 0 <= (N / D mod 2) * D + N mod D < 2 * D) by nia.
  split.
  - symmetry. apply (Z.div_unique_pos N (2 * D) (N / D / 2) ((N / D mod 2) * D + N mod D)); lia.
  - symmetry. apply (Z.mod_unique_pos N (2 * D) (N / D / 2) ((N / D mod 2) * D + N mod D)); lia.
Qed.

Lemma shr_1_spec (mrs : shr_record) :
  0 <= shr_m mrs ->
  shr_m (shr_1 mrs) = shr_m mrs / 2
  /\ shr_r (shr_1 mrs) = Z.odd (shr_m mrs)
  /\ shr_s (shr_1 mrs) = (shr_r mrs || shr_s mrs)%bool.
Proof.
  destruct mrs as [m r s]. cbn [shr_m shr_r shr_s]. intros H.
  destruct m as [| [p | p |] | p]; try lia; cbn [shr_1 shr_m shr_r shr_s].
  - repeat split; reflexivity.
  - repeat split; try reflexivity.
    apply (Z.div_unique_pos _ 2 (Z.pos p) 1); lia.
  - repeat split; try reflexivity.
    apply (Z.div_unique_pos _ 2 (Z.pos p) 0); lia.
  - repeat split; reflexivity.
Qed.

Lemma shr_1_inbetween (N D : Z) (mrs : shr_record) :
  0 <= N -> 0 < D -> inbetween N D mrs -> inbetween N (2 * D) (shr_1 mrs).
Proof.
  intros HN HD (Hm & Hr & Hs).
  assert (Hm0 : 0 <= shr_m mrs) by (rewrite Hm; apply Z.div_pos; lia).
  destruct (shr_1_spec mrs Hm0) as (Em & Er & Es).
  destruct (div_mod_double N D HD) as [Ed Emod].
  pose proof (Z.mod_pos_bound N D HD) as B1.
  unfold inbetween. rewrite Em, Er, Es, Ed, Emod, Hm. split; [reflexivity |].
  rewrite Zodd_mod. rewrite orb_true_iff, Hr, Hs.
  pose proof (Z.mod_pos_bound (N / D) 2 ltac:(lia)) as B2.
  assert (C : N / D mod 2 = 0 \/ N / D mod 2 = 1) by lia.
  destruct C as [C | C]; rewrite C;
    [change (0 =? 1) with false | change (1 =? 1) with true];
    rewrite ?Z.mul_0_l, ?Z.mul_1_l, ?Z.add_0_l;
    intuition (try discriminate; try lia).
Qed.

Lemma shr_inbetween (N D : Z) (mrs : shr_record) (e n : Z) :
  0 <= N -> 0 < D -> inbetween N D mrs ->
  inbetween N (D * 2 ^ Z.max 0 n) (fst (shr mrs e n))
  /\ snd (shr mrs e n) = e + Z.max 0 n.
Proof.
  intros HN HD H. destruct n as [| p | p]; cbn [shr fst snd].
  - rewrite Z.max_id. change (2 ^ 0) with 1. rewrite Z.mul_1_r. split; [exact H | lia].
  - rewrite Z.max_r by lia. split; [| reflexivity].
    apply (iter_pos_count shr_1
             (fun k x => 0 < D * 2 ^ k /\ inbetween N (D * 2 ^ k) x) ) with (n := 0);
      [| lia |].
    + intros k x Hk [Hpos Hx]. rewrite Z.pow_add_r by lia. change (2 ^ 1) with 2.
      replace (D * (2 ^ k * 2)) with (2 * (D * 2 ^ k)) by lia.
      split; [lia | apply shr_1_inbetween; assumption].
    + change (2 ^ 0) with 1. rewrite Z.mul_1_r. split; assumption.
  - rewrite Z.max_l by lia. change (2 ^ 0) with 1. rewrite Z.mul_1_r. split; [exact H | lia].
Qed.

Lemma inbetween_exact (m : Z) : inbetween m 1 (shr_record_of_loc m loc_Exact).
Proof.
  unfold inbetween. cbn [shr_record_of_loc shr_m shr_r shr_s].
  rewrite Z.div_1_r, Z.mod_1_r. repeat split; intros; try discriminate; lia.
Qed.

Lemma round_nearest_even_spec (N D : Z) (mrs : shr_record) :
  0 <= N -> 0 < D -> inbetween N D mrs ->
  N / D <= round_nearest_even (shr_m mrs) (loc_of_shr_record mrs) <= N / D + 1
  /\ 2 * Z.abs (round_nearest_even (shr_m mrs) (loc_of_shr_record mrs) * D - N) <= D
  /\ (N mod D = 0 -> round_nearest_even (shr_m mrs) (loc_of_shr_record mrs) = N / D).
Proof.
  intros HN HD (Hm & Hr & Hs).
  pose proof (Z.div_mod N D ltac:(lia)) as E.
  pose proof (Z.mod_pos_bound N D HD) as B.
  destruct mrs as [m r s]. cbn [shr_m shr_r shr_s] in *. subst m.
  set (q := N / D) in *. set (rho := N mod D) in *.
  assert (Eq1 : q * D - N = - rho) by lia.
  assert (Eq2 : (q + 1) * D - N = D - rho) by lia.
  destruct r, s; cbn [loc_of_shr_record round_nearest_even].
  - (* above the middle *)
    assert (D <= 2 * rho) by (apply Hr; reflexivity).
    assert (rho <> 0 /\ 2 * rho <> D) by (apply Hs; reflexivity).
    rewrite Eq2. repeat split; lia.
  - (* the middle *)
    assert (D <= 2 * rho) by (apply Hr; reflexivity).
    assert (~ (rho <> 0 /\ 2 * rho <> D)) by (intros X; apply Hs in X; discriminate).
    destruct (Z.even q); [rewrite Eq1 | rewrite Eq2]; repeat split; lia.
  - (* below the middle *)
    assert (~ D <= 2 * rho) by (intros X; apply Hr in X; discriminate).
    rewrite Eq1. repeat split; lia.
  - (* exact *)
    assert (~ D <= 2 * rho) by (intros X; apply Hr in X; discriminate).
    assert (~ (rho <> 0 /\ 2 * rho <> D)) by (intros X; apply Hs in X; discriminate).
    rewrite Eq1. repeat split; lia.
Qed.

Lemma fexp_mono (a b : Z) : a <= b -> fexp prec emax a <= fexp prec emax b.
Proof. rewrite !fexp_eq. lia. Qed.

Lemma Zdigits2_bounds (m : Z) : 0 < m -> 2 ^ (Zdigits2 m - 1) <= m < 2 ^ Zdigits2 m.
Proof.
  intros H. destruct m as [| p | p]; try lia. apply digits2_pos_bounds.
Qed.

Lemma Zdigits2_unique (m k : Z) : 0 < m -> 2 ^ (k - 1) <= m < 2 ^ k -> Zdigits2 m = k.
Proof.
  intros H B. rewrite Zdigits2_log2 by exact H.
  assert (Hk : 0 < k).
  { destruct (Z.lt_ge_cases 0 k) as [L | L]; [exact L | exfalso].
    assert (2 ^ k <= 1); [| lia].
    destruct (Z.eq_dec k 0) as [-> | NE]; [simpl; lia |].
    rewrite Z.pow_neg_r by lia. lia. }
  rewrite (Z.log2_unique m (k - 1)); [lia | lia |].
  replace (Z.succ (k - 1)) with k by lia. exact B.
Qed.

Lemma pow2_pos (k : Z) : 0 <= k -> 0 < 2 ^ k.
Proof. intros H. apply Z.pow_pos_nonneg; lia. Qed.

Lemma pow2_split (a b : Z) : 0 <= b <= a -> 2 ^ a = 2 ^ (a - b) * 2 ^ b.
Proof.
  intros H. rewrite <- Z.pow_add_r by lia. f_equal. lia.
Qed.

(** The quotient of a [d]-digit number by [2^n]. *)
Lemma div_pow2_bounds (m d n : Z) :
  0 <= n -> 2 ^ (d - 1) <= m < 2 ^ d -> 0 < m ->
  (n < d -> 2 ^ (d - 1 - n) <= m / 2 ^ n < 2 ^ (d - n))
  /\ (d <= n -> m / 2 ^ n = 0).
Proof.
  intros Hn B Hm. pose proof (pow2_pos n Hn) as Pn. split.
  - intros L. split.
    + apply Z.div_le_lower_bound; [exact Pn |].
      rewrite Z.mul_comm, <- pow2_split by lia. lia.
    + apply Z.div_lt_upper_bound; [exact Pn |].
      rewrite Z.mul_comm, <- pow2_split by lia. lia.
  - intros L. apply Z.div_small. split; [lia |].
    assert (2 ^ d <= 2 ^ n) by (apply Z.pow_le_mono_r; lia). lia.
Qed.


(** The second shift of [binary_round_aux]: a rounded mantissa [m] at the
    exponent [E] has at most one digit too many, and then it is [2^53]. *)
Lemma renormalize (m E k : Z) :
  0 < m -> E = fexp prec emax (k + E) ->
  (0 < k -> 2 ^ (k - 1) <= m <= 2 ^ k) ->
  (k <= 0 -> m = 1 /\ E = emin) ->
  exists m' e',
    0 < m' /\ m' * 2 ^ (e' - E) = m /\ E <= e'
    /\ fexp prec emax (Zdigits2 m' + e') = e'
    /\ shr (shr_record_of_loc m loc_Exact) E (fexp prec emax (Zdigits2 m + E) - E)
       = (shr_record_of_loc m' loc_Exact, e').
Proof.
  intros Hm HE Hpos Hneg. rewrite fexp_eq in HE.
  destruct (Z.lt_ge_cases 0 k) as [Hk | Hk].
  - specialize (Hpos Hk). destruct (Z.eq_dec m (2 ^ k)) as [Emk | Nmk].
    + assert (Dm : Zdigits2 m = k + 1).
      { apply Zdigits2_unique; [exact Hm |]. replace (k + 1 - 1) with k by lia.
        rewrite Emk. split; [lia |]. apply Z.pow_lt_mono_r; lia. }
      destruct (Z.eq_dec k 53) as [-> | Nk].
      * assert (N2 : fexp prec emax (Zdigits2 m + E) - E = 1) by (rewrite Dm, fexp_eq; lia).
        rewrite N2. subst m. exists (2 ^ 52), (E + 1).
        split; [reflexivity |]. split; [replace (E + 1 - E) with 1 by lia; reflexivity |].
        split; [lia |]. split; [| reflexivity].
        change (Zdigits2 (2 ^ 52)) with 53. rewrite fexp_eq. lia.
      * assert (N2 : fexp prec emax (Zdigits2 m + E) - E = 0) by (rewrite Dm, fexp_eq; lia).
        rewrite N2. exists m, E. split; [exact Hm |].
        split; [rewrite Z.sub_diag; simpl; lia |]. split; [lia |].
        split; [rewrite Dm, fexp_eq; lia | reflexivity].
    + assert (Dm : Zdigits2 m = k) by (apply Zdigits2_unique; [exact Hm | lia]).
      assert (N2 : fexp prec emax (Zdigits2 m + E) - E = 0) by (rewrite Dm, fexp_eq; lia).
      rewrite N2. exists m, E. split; [exact Hm |].
      split; [rewrite Z.sub_diag; simpl; lia |]. split; [lia |].
      split; [rewrite Dm, fexp_eq; lia | reflexivity].
  - destruct (Hneg Hk) as [-> ->]. exists 1, emin.
    repeat split; try reflexivity; lia.
Qed.

(** What [binary_round_aux] returns for the number [N / D * 2^ex], given
    by its integer part [mx] and the location of the rest: the nearest
    number [m * 2^e] in canonical form, or an infinity when [e] is beyond
    the exponents of binary64. *)
Theorem binary_round_aux_correct (s : bool) (mx ex : Z) (lx : location) (N D : Z) :
  0 <= N -> 0 < D ->
  inbetween N D (shr_record_of_loc mx lx) ->
  ex <= fexp prec emax (Zdigits2 mx + ex) ->
  exists m e,
    0 <= m /\ ex <= e
    /\ 2 * Z.abs (m * (D * 2 ^ (e - ex)) - N) <= D * 2 ^ (e - ex)
    /\ match m with
       | Z0 => e = emin /\ binary_round_aux prec emax s mx ex lx = S754_zero s
       | Z.pos p =>
           canonical_mantissa prec emax p e = true
           /\ binary_round_aux prec emax s mx ex lx
              = (if e <=? emax - prec then S754_finite s p e else S754_infinity s)
       | Z.neg _ => False
       end.
Proof.
  intros HN HD Hin Hex.
  assert (Emx : mx = N / D) by (destruct Hin as [Hm _]; rewrite shr_record_of_loc_m in Hm; exact Hm).
  assert (Hmx : 0 <= mx) by (rewrite Emx; apply Z.div_pos; lia).
  set (d := Zdigits2 mx) in *. set (E := fexp prec emax (d + ex)) in *.
  assert (Hd : 0 <= d) by apply Zdigits2_nonneg.
  assert (HE : E = Z.max (d + ex - 53) emin) by reflexivity.
  unfold binary_round_aux, shr_fexp. fold d. fold E.
  destruct (shr_inbetween N D (shr_record_of_loc mx lx) ex (E - ex) HN HD Hin) as [I1 S1].
  rewrite Z.max_r in I1, S1 by lia.
  destruct (shr (shr_record_of_loc mx lx) ex (E - ex)) as [mrs' e'] eqn:Eshr.
  cbn [fst snd] in I1, S1. replace (ex + (E - ex)) with E in S1 by lia. subst e'.
  set (D1 := D * 2 ^ (E - ex)) in *.
  assert (HD1 : 0 < D1) by (unfold D1; pose proof (pow2_pos (E - ex)); nia).
  destruct (round_nearest_even_spec N D1 mrs' HN HD1 I1) as (Rb & Rerr & _).
  set (mr := round_nearest_even (shr_m mrs') (loc_of_shr_record mrs')) in *.
  assert (Em1 : N / D1 = mx / 2 ^ (E - ex)).
  { unfold D1. rewrite <- Z.div_div by (try lia; apply pow2_pos; lia). rewrite <- Emx. reflexivity. }
  assert (Hm1 : 0 <= N / D1) by (apply Z.div_pos; lia).
  destruct (Z.eq_dec mr 0) as [Z0 | NZ].
  - (* the result is a zero *)
    exists 0, E. split; [lia |]. split; [lia |]. fold D1.
    split; [rewrite Z0 in Rerr; exact Rerr |].
    split.
    + assert (M0 : mx / 2 ^ (E - ex) = 0) by lia.
      destruct (Z.eq_dec mx 0) as [Emx0 | Nmx0].
      * subst d. rewrite Emx0 in HE. simpl in HE. rewrite HE in Hex. unfold emin in *. lia.
      * pose proof (Zdigits2_bounds mx ltac:(lia)) as B. fold d in B.
        destruct (div_pow2_bounds mx d (E - ex) ltac:(lia) B ltac:(lia)) as [Blt _].
        destruct (Z.lt_ge_cases (E - ex) d) as [L | L].
        -- specialize (Blt L). pose proof (pow2_pos (d - 1 - (E - ex)) ltac:(lia)). lia.
        -- unfold emin in *. lia.
    + rewrite Z0.
      destruct (shr (shr_record_of_loc 0 loc_Exact) E
                    (fexp prec emax (Zdigits2 0 + E) - E)) as [mrs'' e''] eqn:E2.
      destruct (shr_inbetween 0 1 (shr_record_of_loc 0 loc_Exact) E
                  (fexp prec emax (Zdigits2 0 + E) - E) ltac:(lia) ltac:(lia)
                  (inbetween_exact 0)) as [[I2 _] _].
      rewrite E2 in I2. cbn [fst] in I2. rewrite Z.div_0_l in I2.
      * rewrite I2. reflexivity.
      * pose proof (pow2_pos (Z.max 0 (fexp prec emax (Zdigits2 0 + E) - E)) ltac:(lia)). lia.
  - (* the result is not a zero *)
    assert (Pmr : 0 < mr) by lia.
    destruct (renormalize mr E (d + ex - E) Pmr) as (m' & e'' & Pm' & Em' & Le & Can & Sh).
    + replace (d + ex - E + E) with (d + ex) by lia. reflexivity.
    + intros Hk. destruct (Z.eq_dec mx 0) as [Emx0 | Nmx0].
      * exfalso. subst d. rewrite Emx0 in *. simpl in Hk, HE. unfold emin in *. lia.
      * pose proof (Zdigits2_bounds mx ltac:(lia)) as B. fold d in B.
        destruct (div_pow2_bounds mx d (E - ex) ltac:(lia) B ltac:(lia)) as [Blt _].
        specialize (Blt ltac:(lia)).
        replace (d - 1 - (E - ex)) with (d + ex - E - 1) in Blt by lia.
        replace (d - (E - ex)) with (d + ex - E) in Blt by lia. lia.
    + intros Hk. assert (M0 : mx / 2 ^ (E - ex) = 0).
      { destruct (Z.eq_dec mx 0) as [Emx0 | Nmx0]; [rewrite Emx0; apply Z.div_0_l;
          pose proof (pow2_pos (E - ex)); lia |].
        pose proof (Zdigits2_bounds mx ltac:(lia)) as B. fold d in B.
        apply (div_pow2_bounds mx d (E - ex) ltac:(lia) B ltac:(lia)). lia. }
      unfold emin in *. split; lia.
    + exists m', e''. split; [lia |]. split; [lia |].
      split.
      * replace (D * 2 ^ (e'' - ex)) with (D1 * 2 ^ (e'' - E)).
        -- replace (m' * (D1 * 2 ^ (e'' - E))) with (mr * D1) by (rewrite <- Em'; ring).
           pose proof (pow2_pos (e'' - E) ltac:(lia)). nia.
        -- unfold D1. rewrite <- Z.mul_assoc, <- Z.pow_add_r by lia. do 2 f_equal. lia.
      * destruct m' as [| p | p]; try lia.
        split; [unfold canonical_mantissa; apply Z.eqb_eq; exact Can |].
        rewrite Sh. cbn [shr_record_of_loc shr_m]. reflexivity.
Qed.

End Rounding.
(** ** Compounding *)

Lemma cumulate_from_length (returns : list binary64) (r0 : binary64) :
  length (cumulate_from r0 returns) = length returns.
Proof.
  revert r0; induction returns as [| r1 rest IH]; intros r0; simpl;
    [reflexivity | f_equal; apply IH].
Qed.

Lemma cumulate_from_step (returns : list binary64) (r0 : binary64) (i : nat) :
  S i < length returns ->
  nth (S i) (cumulate_from r0 returns) 0%F
  = ((1 + nth i (cumulate_from r0 returns) 0) * (1 + nth (S i) returns 0) - 1)%F.
Proof.
  revert r0 i; induction returns as [| r1 rest IH]; intros r0 i H; [simpl in H; lia |].
  cbn [cumulate_from]. simpl in H. destruct i as [| i].
  - destruct rest as [| r2 rest]; [simpl in H; lia |]. reflexivity.
  - change (nth (S (S i)) (r1 :: rest) 0%F) with (nth (S i) rest 0%F).
    cbn [nth]. apply IH. lia.
Qed.

Lemma one_plus_zero (r : binary64) : is_zero r = true -> (1 + r)%F = 1%F.
Proof.
  destruct r; simpl; intros H; try discriminate. reflexivity.
Qed.

Lemma cumulate_from_zeros (returns : list binary64) (r0 : binary64) :
  is_zero r0 = true ->
  Forall (fun r => is_zero r = true) returns ->
  cumulate_from r0 returns = repeat 0%F (length returns).
Proof.
  intros H0 H. revert r0 H0.
  induction H as [| r1 rest Hr1 Hrest IH]; intros r0 H0; [reflexivity |].
  cbn [cumulate_from length repeat].
  rewrite (one_plus_zero r0 H0), (one_plus_zero r1 Hr1).
  change ((1 * 1 - 1)%F) with 0%F. f_equal. apply IH. reflexivity.
Qed.

(** C4, amended.  [cumulate_returns] keeps the length of its input; its
    first element is [(1 + 0) * (1 + r[0]) - 1] and each later element is
    [(1 + c) * (1 + r[i]) - 1] for the element [c] before it, every
    operation rounded to binary64; and it maps a list of zeros to the list
    of zeros of the same length. *)
Theorem cumulate_returns_compounding (returns : list binary64) :
  length (cumulate_returns returns) = length returns
  /\ (0 < length returns ->
      nth 0 (cumulate_returns returns) 0%F = ((1 + 0) * (1 + nth 0 returns 0) - 1)%F)
  /\ (forall i, S i < length returns ->
        nth (S i) (cumulate_returns returns) 0%F
        = ((1 + nth i (cumulate_returns returns) 0) * (1 + nth (S i) returns 0) - 1)%F)
  /\ (Forall (fun r => is_zero r = true) returns ->
      cumulate_returns returns = repeat 0%F (length returns)).
Proof.
  split; [apply cumulate_from_length |]. split; [| split].
  - destruct returns as [| r rest]; simpl; [lia | reflexivity].
  - intros i Hi. apply cumulate_from_step. exact Hi.
  - apply cumulate_from_zeros. reflexivity.
Qed.

Lemma cumulate_returns_compounding_witness :
  nth 2 (cumulate_returns [of_decimal false 1 (-1); of_decimal true 5 (-1);
                           of_decimal false 25 (-2)]) 0%F
  = ((1 + nth 1 (cumulate_returns [of_decimal false 1 (-1); of_decimal true 5 (-1);
                                   of_decimal false 25 (-2)]) 0)
     * (1 + nth 2 [of_decimal false 1 (-1); of_decimal true 5 (-1);
                   of_decimal false 25 (-2)] 0) - 1)%F.
Proof.
  apply (proj1 (proj2 (proj2 (cumulate_returns_compounding
                                [of_decimal false 1 (-1); of_decimal true 5 (-1);
                                 of_decimal false 25 (-2)])))).
  simpl. lia.
Defined.

(** C4, as stated, fails.  Cumulating [2^-30, 2^-30] gives [2^-29] at index
    1, where the product [(1 + 2^-30) * (1 + 2^-30) - 1] is
    [2^-29 + 2^-60]: the product [1 + 2^-29 + 2^-60] is rounded to 53 bits
    before 1 is taken off.  And no tolerance mends it: cumulating
    [-0.999999999, -0.999999999, 1e18] gives [-1.0] at index 2, where the
    product minus one is above [-1/2]. *)
Lemma cumulate_returns_not_compound :
  cumulate_returns [pow2 (-30); pow2 (-30)] = [pow2 (-30); pow2 (-29)]
  /\ ~ (value (nth 1 (cumulate_returns [pow2 (-30); pow2 (-30)]) 0%F)
        == compound (map value [pow2 (-30); pow2 (-30)]) - 1)%Q
  /\ nth 2 (cumulate_returns [of_decimal true 999999999 (-9);
                              of_decimal true 999999999 (-9);
                              of_decimal false 1 18]) 0%F
     = of_Z (-1)
  /\ (value (of_Z (-1)) == -1)%Q
  /\ (- (1 # 2)
      < compound (map value [of_decimal true 999999999 (-9);
                             of_decimal true 999999999 (-9);
                             of_decimal false 1 18]) - 1)%Q.
Proof.
  split; [vm_compute; reflexivity |].
  split; [intros H; vm_compute in H; discriminate |].
  split; [vm_compute; reflexivity |].
  split; vm_compute; reflexivity.
Qed.

(** ** Decomposition *)

Lemma mapM_seq {B : Type} (f : nat -> result B) (g : nat -> B) (a k : nat) :
  (forall i, a <= i < a + k -> f i = inr (g i)) ->
  mapM f (seq a k) = inr (map g (seq a k)).
Proof.
  revert a; induction k as [| k IH]; intros a H; simpl; [reflexivity |].
  rewrite (H a) by lia. simpl.
  rewrite (IH (S a)) by (intros i Hi; apply H; lia). reflexivity.
Qed.

Lemma mapM_ext_in {A B : Type} (f g : A -> result B) (l : list A) :
  (forall a, In a l -> f a = g a) -> mapM f l = mapM g l.
Proof.
  induction l as [| x l IH]; intros H; simpl; [reflexivity |].
  rewrite (H x (or_introl eq_refl)), IH; [reflexivity |].
  intros a Ha. apply H. right. exact Ha.
Qed.

Lemma nth_map_seq {B : Type} (g : nat -> B) (a k i : nat) (d : B) :
  i < k -> nth i (map g (seq a k)) d = g (a + i).
Proof.
  intros H. rewrite (nth_indep _ d (g 0)) by (rewrite length_map, length_seq; exact H).
  rewrite map_nth. rewrite seq_nth by exact H. reflexivity.
Qed.

Lemma div_defined (x y : binary64) : is_zero y = false -> div x y = inr (x / y)%F.
Proof.
  intros H. unfold div. rewrite H. reflexivity.
Qed.

Lemma div_by_zero (x y : binary64) : is_zero y = true -> div x y = inl ZeroDivisionError.
Proof.
  intros H. unfold div. rewrite H. reflexivity.
Qed.

Lemma div_inr (x y q : binary64) :
  div x y = inr q -> is_zero y = false /\ q = (x / y)%F.
Proof.
  unfold div. destruct (is_zero y); intros H; [discriminate |].
  injection H as <-. split; reflexivity.
Qed.

Lemma div_inl (x y : binary64) (e : exn) :
  div x y = inl e -> e = ZeroDivisionError /\ is_zero y = true.
Proof.
  unfold div. destruct (is_zero y); intros H; [| discriminate].
  unfold raise in H. split; congruence.
Qed.

Lemma mapM_raises {A B : Type} (f : A -> result B) (e : exn) (l : list A) :
  Forall (fun a => f a = inl e \/ exists b, f a = inr b) l ->
  Exists (fun a => f a = inl e) l ->
  mapM f l = inl e.
Proof.
  induction l as [| a l IH]; intros HF HE; [inversion HE |].
  inversion HF as [| x l' Ha Hl]; subst. simpl.
  destruct Ha as [Ha | [b Ha]]; rewrite Ha; [reflexivity |]. simpl.
  inversion HE as [x l' Hx | x l' Hx]; subst; [congruence |].
  rewrite (IH Hl Hx). reflexivity.
Qed.

Lemma mapM_inl {A B : Type} (f : A -> result B) (l : list A) (e : exn) :
  mapM f l = inl e -> exists a, In a l /\ f a = inl e.
Proof.
  induction l as [| x l IH]; simpl; intros H; [discriminate |].
  destruct (f x) as [e' | b] eqn:Hx.
  - simpl in H. exists x. split; [left; reflexivity | congruence].
  - simpl in H. destruct (mapM f l) as [e' | bs]; [| discriminate].
    simpl in H. destruct (IH H) as (a & Ha & Fa). exists a. auto.
Qed.

Lemma overnight_at_eval (price_open price_close price_close_adj : list binary64)
    (dates_datetime : list datetime) (i : nat) :
  1 <= i < length dates_datetime ->
  overnight_at
    (0%F :: map (close_to_close_of price_close_adj) (seq 1 (length dates_datetime - 1)))
    (map (intraday_of price_open price_close) (seq 0 (length dates_datetime)))
    dates_datetime i
  = overnight_step price_open price_close price_close_adj dates_datetime i.
Proof.
  intros Hi. unfold overnight_at, overnight_step, gap_of.
  rewrite (getitem_lt dates_datetime i 0%Z) by lia.
  rewrite (getitem_lt dates_datetime (i - 1) 0%Z) by lia. cbn [bind].
  destruct (nth i dates_datetime 0 - nth (i - 1) dates_datetime 0 <? timedelta_days 14)%Z;
    [| reflexivity].
  rewrite (getitem_lt _ i 0%F) by (cbn [length]; rewrite length_map, length_seq; lia).
  rewrite (getitem_lt _ i 0%F) by (rewrite length_map, length_seq; lia).
  cbn [bind]. destruct i as [| i]; [lia |]. cbn [nth].
  rewrite !nth_map_seq by lia.
  replace (1 + i) with (S i) by lia. replace (0 + S i) with (S i) by lia.
  reflexivity.
Qed.

Lemma overnight_step_defined (price_open price_close price_close_adj : list binary64)
    (dates_datetime : list datetime) (i : nat) :
  ~ zero_divisor_at price_open price_close dates_datetime i ->
  1 <= i < length dates_datetime ->
  overnight_step price_open price_close price_close_adj dates_datetime i
  = inr (overnight_of price_open price_close price_close_adj dates_datetime i).
Proof.
  intros Hnz Hi. unfold overnight_step, overnight_of.
  destruct (gap_of dates_datetime i <? timedelta_days 14)%Z eqn:G; [| reflexivity].
  rewrite div_defined; [reflexivity |].
  destruct (is_zero (1 + intraday_of price_open price_close i)%F) eqn:E; [| reflexivity].
  exfalso. apply Hnz. split; [exact Hi |]. split; [apply Z.ltb_lt; exact G | exact E].
Qed.

Lemma overnight_step_raises (price_open price_close price_close_adj : list binary64)
    (dates_datetime : list datetime) (i : nat) (e : exn) :
  1 <= i < length dates_datetime ->
  overnight_step price_open price_close price_close_adj dates_datetime i = inl e ->
  e = ZeroDivisionError /\ zero_divisor_at price_open price_close dates_datetime i.
Proof.
  intros Hi. unfold overnight_step.
  destruct (gap_of dates_datetime i <? timedelta_days 14)%Z eqn:G; [| discriminate].
  intros H. apply bind_inl in H as [H | (q & _ & H)]; [| discriminate].
  apply div_inl in H as [-> Z0]. split; [reflexivity |].
  split; [exact Hi |]. split; [apply Z.ltb_lt; exact G | exact Z0].
Qed.

(** On lists of one length with no zero open and no zero adjusted close,
    the two first comprehensions return and the function is the third. *)
Lemma compute_returns_eval (price_open price_close price_close_adj : list binary64)
    (dates_datetime : list datetime) :
  0 < length dates_datetime ->
  length price_open = length dates_datetime ->
  length price_close = length dates_datetime ->
  length price_close_adj = length dates_datetime ->
  (forall i, i < length dates_datetime -> is_zero (nth i price_open 0%F) = false) ->
  (forall i, 1 <= i < length dates_datetime ->
     is_zero (nth (i - 1) price_close_adj 0%F) = false) ->
  compute_returns_overnight_intraday price_open price_close price_close_adj dates_datetime
  = (overnight_tail <-
       mapM (overnight_step price_open price_close price_close_adj dates_datetime)
            (seq 1 (length dates_datetime - 1)) ;;
     ret (0%F :: overnight_tail,
          map (intraday_of price_open price_close) (seq 0 (length dates_datetime)))).
Proof.
  intros Hpos Lo Lc La Ho Ha.
  unfold compute_returns_overnight_intraday.
  rewrite Lo, Lc, La, !Nat.eqb_refl. simpl assert_. cbn [bind ret].
  assert (Hn : (length dates_datetime =? 0) = false) by (apply Nat.eqb_neq; lia).
  rewrite Hn. unfold range. rewrite Nat.sub_0_r.
  rewrite (mapM_seq _ (intraday_of price_open price_close)).
  2:{ intros i Hi. unfold intraday_at.
      rewrite (getitem_lt price_close i 0%F) by lia.
      rewrite (getitem_lt price_open i 0%F) by lia. cbn [bind].
      rewrite div_defined by (apply Ho; lia). reflexivity. }
  cbn [bind].
  rewrite (mapM_seq _ (close_to_close_of price_close_adj)).
  2:{ intros i Hi. unfold close_to_close_at.
      rewrite (getitem_lt price_close_adj i 0%F) by lia.
      rewrite (getitem_lt price_close_adj (i - 1) 0%F) by lia. cbn [bind].
      rewrite div_defined by (apply Ha; lia). reflexivity. }
  cbn [bind]. f_equal. apply mapM_ext_in. intros i Hi. apply in_seq in Hi.
  apply overnight_at_eval. lia.
Qed.

(** Where no division is a division by zero, the function returns the
    lists of the values above. *)
Lemma compute_returns_defined (price_open price_close price_close_adj : list binary64)
    (dates_datetime : list datetime) :
  0 < length dates_datetime ->
  length price_open = length dates_datetime ->
  length price_close = length dates_datetime ->
  length price_close_adj = length dates_datetime ->
  (forall i, i < length dates_datetime -> is_zero (nth i price_open 0%F) = false) ->
  (forall i, 1 <= i < length dates_datetime ->
     is_zero (nth (i - 1) price_close_adj 0%F) = false) ->
  (forall i, ~ zero_divisor_at price_open price_close dates_datetime i) ->
  compute_returns_overnight_intraday price_open price_close price_close_adj dates_datetime
  = inr (0%F :: map (overnight_of price_open price_close price_close_adj dates_datetime)
                    (seq 1 (length dates_datetime - 1)),
         map (intraday_of price_open price_close) (seq 0 (length dates_datetime))).
Proof.
  intros Hpos Lo Lc La Ho Ha Hnz.
  rewrite compute_returns_eval by assumption.
  rewrite (mapM_seq _ (overnight_of price_open price_close price_close_adj dates_datetime)).
  - reflexivity.
  - intros i Hi. apply overnight_step_defined; [apply Hnz | lia].
Qed.

(** Where [1 + intraday[k]] is zero less than 14 days after the previous
    row, the function raises [ZeroDivisionError]. *)
Lemma compute_returns_raises (price_open price_close price_close_adj : list binary64)
    (dates_datetime : list datetime) (k : nat) :
  length price_open = length dates_datetime ->
  length price_close = length dates_datetime ->
  length price_close_adj = length dates_datetime ->
  (forall i, i < length dates_datetime -> is_zero (nth i price_open 0%F) = false) ->
  (forall i, 1 <= i < length dates_datetime ->
     is_zero (nth (i - 1) price_close_adj 0%F) = false) ->
  zero_divisor_at price_open price_close dates_datetime k ->
  compute_returns_overnight_intraday price_open price_close price_close_adj dates_datetime
  = inl ZeroDivisionError.
Proof.
  intros Lo Lc La Ho Ha (Hk & Hgap & Hzero).
  rewrite compute_returns_eval by (assumption || lia).
  rewrite (mapM_raises _ ZeroDivisionError); [reflexivity | |].
  - apply Forall_forall. intros i Hi. apply in_seq in Hi. unfold overnight_step.
    destruct (gap_of dates_datetime i <? timedelta_days 14)%Z; [| right; eexists; reflexivity].
    unfold div.
    destruct (is_zero (1 + intraday_of price_open price_close i)%F);
      [left | right; eexists]; reflexivity.
  - apply Exists_exists. exists k. split; [apply in_seq; lia |].
    unfold overnight_step. apply Z.ltb_lt in Hgap. rewrite Hgap.
    rewrite div_by_zero by exact Hzero. reflexivity.
Qed.

(** Whenever the function raises on such lists, it is for a zero
    [1 + intraday[i]]. *)
Lemma compute_returns_inl (price_open price_close price_close_adj : list binary64)
    (dates_datetime : list datetime) (e : exn) :
  length price_open = length dates_datetime ->
  length price_close = length dates_datetime ->
  length price_close_adj = length dates_datetime ->
  (forall i, i < length dates_datetime -> is_zero (nth i price_open 0%F) = false) ->
  (forall i, 1 <= i < length dates_datetime ->
     is_zero (nth (i - 1) price_close_adj 0%F) = false) ->
  compute_returns_overnight_intraday price_open price_close price_close_adj dates_datetime
  = inl e ->
  exists i, zero_divisor_at price_open price_close dates_datetime i.
Proof.
  intros Lo Lc La Ho Ha H.
  destruct (Nat.eq_dec (length dates_datetime) 0) as [E | NE].
  - unfold compute_returns_overnight_intraday in H.
    rewrite Lo, Lc, La, !Nat.eqb_refl, E in H. discriminate.
  - rewrite compute_returns_eval in H by (assumption || lia).
    apply bind_inl in H as [H | (tail & _ & H)]; [| discriminate].
    apply mapM_inl in H as (i & Hin & H). apply in_seq in Hin.
    apply overnight_step_raises in H as [_ H]; [| lia]. exists i. exact H.
Qed.

Lemma nth_positive_nonzero (l : list binary64) (i : nat) :
  Forall (fun p => (0 <? p)%F = true) l -> i < length l -> is_zero (nth i l 0%F) = false.
Proof.
  intros H Hi. apply positive_not_zero.
  exact (proj1 (Forall_nth _ l) H i 0%F Hi).
Qed.

Lemma nth_error_cons_map_seq {B : Type} (g : nat -> B) (x : B) (k i : nat) :
  1 <= i <= k -> nth_error (x :: map g (seq 1 k)) i = Some (g i).
Proof.
  intros H. destruct i as [| i]; [lia |]. cbn [nth_error].
  rewrite (nth_error_nth' _ (g 0)) by (rewrite length_map, length_seq; lia).
  rewrite nth_map_seq by lia. reflexivity.
Qed.

Lemma nth_error_map_seq {B : Type} (g : nat -> B) (k i : nat) :
  i < k -> nth_error (map g (seq 0 k)) i = Some (g i).
Proof.
  intros H. rewrite (nth_error_nth' _ (g 0)) by (rewrite length_map, length_seq; lia).
  rewrite nth_map_seq by lia. reflexivity.
Qed.

(** C2, amended.  On a non-empty series whose opens and adjusted closes are
    positive and in which [1 + intraday[i]] is never zero less than 14 days
    after the previous row, the function returns; [intraday[i]] is
    [close[i] / open[i] - 1]; [overnight[0]] is [0]; and for [i >= 1]
    [overnight[i]] is [(1 + closeToClose[i]) / (1 + intraday[i]) - 1] when
    the dates are less than 14 days apart and [0] otherwise, with
    [closeToClose[i] = adjustedClose[i] / adjustedClose[i-1] - 1]. *)
Theorem compute_returns_overnight_rule
    (price_open price_close price_close_adj : list binary64)
    (dates_datetime : list datetime) :
  0 < length dates_datetime ->
  length price_open = length dates_datetime ->
  length price_close = length dates_datetime ->
  length price_close_adj = length dates_datetime ->
  Forall (fun p => (0 <? p)%F = true) price_open ->
  Forall (fun p => (0 <? p)%F = true) price_close_adj ->
  (forall i, ~ zero_divisor_at price_open price_close dates_datetime i) ->
  exists overnight intraday,
    compute_returns_overnight_intraday price_open price_close price_close_adj dates_datetime
    = inr (overnight, intraday)
    /\ nth_error overnight 0 = Some 0%F
    /\ (forall i, i < length dates_datetime ->
          nth_error intraday i = Some (nth i price_close 0 / nth i price_open 0 - 1)%F)
    /\ forall i, 1 <= i < length dates_datetime ->
         ((gap_of dates_datetime i < timedelta_days 14)%Z ->
          nth_error overnight i
          = Some ((1 + (nth i price_close_adj 0 / nth (i - 1) price_close_adj 0 - 1))
                  / (1 + (nth i price_close 0 / nth i price_open 0 - 1)) - 1)%F)
         /\ ((timedelta_days 14 <= gap_of dates_datetime i)%Z ->
             nth_error overnight i = Some 0%F).
Proof.
  intros Hn Lo Lc La Ho Ha Hnz.
  rewrite (compute_returns_defined price_open price_close price_close_adj dates_datetime
             Hn Lo Lc La).
  - do 2 eexists. split; [reflexivity |]. split; [reflexivity |]. split.
    + intros i Hi. rewrite nth_error_map_seq by exact Hi. reflexivity.
    + intros i Hi. rewrite nth_error_cons_map_seq by lia.
      unfold overnight_of, close_to_close_of, intraday_of. split; intros G.
      * apply Z.ltb_lt in G. rewrite G. reflexivity.
      * apply Z.ltb_ge in G. rewrite G. reflexivity.
  - intros i Hi. apply nth_positive_nonzero; [exact Ho | lia].
  - intros i Hi. apply nth_positive_nonzero; [exact Ha | lia].
  - exact Hnz.
Qed.

(** ** Cleaning *)

Lemma mapM_Forall {A B : Type} (f : A -> result B) (P : A -> Prop) (R : B -> Prop)
    (l : list A) (bs : list B) :
  mapM f l = inr bs -> Forall P l ->
  (forall a b, P a -> f a = inr b -> R b) -> Forall R bs.
Proof.
  revert bs; induction l as [| a l IH]; simpl; intros bs H HP HR.
  - injection H as <-. constructor.
  - inversion HP as [| x l' Pa Pl]; subst.
    destruct (f a) as [e | b] eqn:Hb; [discriminate |]. simpl in H.
    destruct (mapM f l) as [e | bs'] eqn:Hl; [discriminate |]. simpl in H.
    injection H as <-. constructor; [eapply HR; eauto | apply IH; auto].
Qed.

Lemma filterM_Forall {A : Type} (f : A -> result bool) (l r : list A) :
  filterM f l = inr r -> Forall (fun a => f a = inr true /\ In a l) r.
Proof.
  revert r; induction l as [| a l IH]; simpl; intros r H.
  - injection H as <-. constructor.
  - destruct (f a) as [e | b] eqn:Hb; [discriminate |]. simpl in H.
    destruct (filterM f l) as [e | r'] eqn:Hl; [discriminate |]. simpl in H.
    injection H as <-.
    assert (Hr' : Forall (fun x => f x = inr true /\ (a = x \/ In x l)) r').
    { eapply Forall_impl; [| apply IH; reflexivity]. simpl. intros x [? ?]; auto. }
    destruct b; [constructor; auto | exact Hr'].
Qed.

Lemma filterM_all_true {A : Type} (f : A -> result bool) (l : list A) :
  Forall (fun a => f a = inr true) l -> filterM f l = inr l.
Proof.
  induction 1 as [| a l Ha Hl IH]; simpl; [reflexivity |].
  rewrite Ha. simpl. rewrite IH. reflexivity.
Qed.

Lemma filter_all_true {A : Type} (f : A -> bool) (l : list A) :
  Forall (fun a => f a = true) l -> filter f l = l.
Proof.
  induction 1 as [| a l Ha Hl IH]; simpl; [reflexivity |].
  rewrite Ha, IH. reflexivity.
Qed.

Lemma index_True_spec (l : list bool) (i : nat) :
  index_True l = inr i ->
  i < length l /\ nth i l false = true /\ forall j, j < i -> nth j l false = false.
Proof.
  revert i; induction l as [| b l IH]; simpl; intros i H; [discriminate |].
  destruct b.
  - injection H as <-. repeat split; [lia | intros j Hj; lia].
  - destruct (index_True l) as [e | k] eqn:Hk; [discriminate |]. simpl in H.
    injection H as <-. destruct (IH k eq_refl) as (L & T & F).
    repeat split; [lia | exact T |].
    intros [| j] Hj; [reflexivity | apply F; lia].
Qed.

Lemma slice_length_eq {A B : Type} (lo hi : nat) (l : list A) (l' : list B) :
  length l = length l' -> length (slice lo hi l) = length (slice lo hi l').
Proof.
  intros H. unfold slice. rewrite !length_firstn, !length_skipn, H. reflexivity.
Qed.

Lemma slice_incl {A : Type} (lo hi : nat) (l : list A) (x : A) :
  In x (slice lo hi l) -> In x l.
Proof.
  unfold slice. intros H.
  rewrite <- (firstn_skipn lo l). apply in_or_app. right.
  rewrite <- (firstn_skipn (hi - lo) (skipn lo l)). apply in_or_app. left. exact H.
Qed.

Lemma Forall_slice {A : Type} (P : A -> Prop) (lo hi : nat) (l : list A) :
  Forall P l -> Forall P (slice lo hi l).
Proof.
  rewrite !Forall_forall. intros H x Hx. apply H. eapply slice_incl; eauto.
Qed.

Lemma slice_empty {A : Type} (lo hi : nat) (l : list A) :
  hi <= lo -> slice lo hi l = [].
Proof.
  intros H. unfold slice. replace (hi - lo) with 0 by lia. reflexivity.
Qed.

Section CleanerProperties.

Variable float : string -> option binary64.
Variable int : string -> option Z.
Variable strftime : datetime -> string -> option string.

Abbreviation clean := (get_prices_open_close_adj_dates float int strftime).

Lemma read_rows_inr (original_data : list string) (bad_data_dates : list datetime)
    (data : list (list string)) :
  read_rows float strftime original_data bad_data_dates = inr data ->
  exists hdr bad_data_dates_str,
    nth_error original_data 0 = Some hdr
    /\ str_strip hdr = HEADER
    /\ mapM (fun d => of_option ValueError (strftime d DATETIME_FORMAT)) bad_data_dates
       = inr bad_data_dates_str
    /\ filterM (open_positive float)
         (filter (fun d => negb (all_flat d))
            (map (str_split ",")
               (filter (line_kept bad_data_dates_str) (tl original_data))))
       = inr data.
Proof.
  unfold read_rows. intros H.
  apply bind_inr in H as (hdr & Hh & H). apply getitem_inr in Hh.
  apply bind_inr in H as (u & Ha & H). apply assert_inr in Ha.
  apply String.eqb_eq in Ha.
  apply bind_inr in H as (bs & Hb & H).
  exists hdr, bs. auto.
Qed.

Lemma read_rows_Forall (original_data : list string) (bad_data_dates : list datetime)
    (data : list (list string)) :
  read_rows float strftime original_data bad_data_dates = inr data ->
  Forall (fun d => all_flat d = false /\ open_positive float d = inr true) data.
Proof.
  intros H. apply read_rows_inr in H as (hdr & bs & _ & _ & _ & H).
  apply filterM_Forall in H. eapply Forall_impl; [| exact H].
  simpl. intros d [Hp Hin]. split; [| exact Hp].
  apply filter_In in Hin as [_ Hf]. apply negb_true_iff. exact Hf.
Qed.

Lemma columns_inr (data : list (list string)) (po pc pa : list binary64) (dd : list datetime) :
  columns float int data = inr (po, pc, pa, dd) ->
  mapM (field_float float 1) data = inr po
  /\ mapM (field_float float 4) data = inr pc
  /\ mapM (field_float float 5) data = inr pa
  /\ forallb (fun p => 0 <? p)%F pa = true
  /\ mapM (field_date int) data = inr dd.
Proof.
  unfold columns. intros H.
  apply bind_inr in H as (po' & Ho & H).
  apply bind_inr in H as (pc' & Hc & H).
  apply bind_inr in H as (pa' & Ha & H).
  apply bind_inr in H as (u & Hassert & H). apply assert_inr in Hassert.
  apply bind_inr in H as (dd' & Hd & H).
  injection H as <- <- <- <-. auto.
Qed.

Lemma open_positive_field (d : list string) (x : binary64) :
  open_positive float d = inr true -> field_float float 1 d = inr x ->
  (0 <? x)%F = true.
Proof.
  unfold open_positive, field_float. intros H F.
  destruct (getitem d 1) as [e | s]; [discriminate |]. simpl in H, F.
  rewrite F in H. simpl in H. injection H as H. exact H.
Qed.

Lemma window_inr (po pc pa : list binary64) (dd : list datetime)
    (start_date end_date : option datetime) (s' : series) :
  window (po, pc, pa, dd) start_date end_date = inr s' ->
  exists d0 d1,
    window_d0 po pc dd start_date = inr d0
    /\ window_d1 dd end_date = inr d1
    /\ s' = if ((1 <? d0) || (d1 <? length dd))%nat
            then (slice d0 d1 po, slice d0 d1 pc, slice d0 d1 pa, slice d0 d1 dd)
            else (po, pc, pa, dd).
Proof.
  unfold window. intros H.
  apply bind_inr in H as (d0 & H0 & H).
  apply bind_inr in H as (d1 & H1 & H).
  exists d0, d1. repeat split; auto.
  destruct ((1 <? d0) || (d1 <? length dd))%nat; injection H as <-; reflexivity.
Qed.

Lemma clean_inr (original_data : list string) (start_date end_date : option datetime)
    (bad_data_dates : list datetime) (s' : series) :
  clean original_data start_date end_date bad_data_dates = inr s' ->
  exists data po pc pa dd,
    read_rows float strftime original_data bad_data_dates = inr data
    /\ columns float int data = inr (po, pc, pa, dd)
    /\ window (po, pc, pa, dd) start_date end_date = inr s'.
Proof.
  unfold get_prices_open_close_adj_dates. intros H.
  apply bind_inr in H as (data & Hr & H).
  apply bind_inr in H as ([[[po pc] pa] dd] & Hc & H).
  exists data, po, pc, pa, dd. auto.
Qed.

(** What every returned series satisfies: four lists of one length, opens
    and adjusted closes positive. *)
Lemma clean_invariant (original_data : list string) (start_date end_date : option datetime)
    (bad_data_dates : list datetime) (po pc pa : list binary64) (dd : list datetime) :
  clean original_data start_date end_date bad_data_dates = inr (po, pc, pa, dd) ->
  length po = length dd /\ length pc = length dd /\ length pa = length dd
  /\ Forall (fun p => (0 <? p)%F = true) po
  /\ Forall (fun p => (0 <? p)%F = true) pa.
Proof.
  intros H.
  apply clean_inr in H as (data & po0 & pc0 & pa0 & dd0 & Hr & Hc & Hw).
  apply columns_inr in Hc as (Ho & Hcl & Ha & Hpos & Hd).
  pose proof (mapM_length _ _ _ Ho) as Lo.
  pose proof (mapM_length _ _ _ Hcl) as Lc.
  pose proof (mapM_length _ _ _ Ha) as La.
  pose proof (mapM_length _ _ _ Hd) as Ld.
  assert (Po : Forall (fun p => (0 <? p)%F = true) po0).
  { eapply mapM_Forall; [exact Ho | apply (read_rows_Forall _ _ _ Hr) |].
    simpl. intros d x [_ Hp] Hx. eapply open_positive_field; eauto. }
  assert (Pa : Forall (fun p => (0 <? p)%F = true) pa0) by (apply forallb_Forall; exact Hpos).
  apply window_inr in Hw as (d0 & d1 & _ & _ & Hs).
  destruct ((1 <? d0) || (d1 <? length dd0))%nat; injection Hs as -> -> -> ->.
  - repeat split; try (apply slice_length_eq; congruence);
      apply Forall_slice; assumption.
  - repeat split; congruence || assumption.
Qed.


(** C9, amended.  On every series the cleaner returns the opens and the
    adjusted closes are positive, so neither [close / open] nor
    [adjustedClose[i] / adjustedClose[i-1]] divides by zero.  The division
    by [1 + intraday[i]] does divide by zero, and the decomposition then
    raises [ZeroDivisionError], exactly when at some index [i >= 1] less
    than 14 days after its predecessor [1 + (close[i] / open[i] - 1)] is
    zero; when there is no such index the decomposition returns. *)
Theorem clean_output_divisions (original_data : list string)
    (start_date end_date : option datetime) (bad_data_dates : list datetime)
    (po pc pa : list binary64) (dd : list datetime) :
  clean original_data start_date end_date bad_data_dates = inr (po, pc, pa, dd) ->
  Forall (fun p => (0 <? p)%F = true) po
  /\ Forall (fun p => (0 <? p)%F = true) pa
  /\ (compute_returns_overnight_intraday po pc pa dd = inl ZeroDivisionError
      <-> exists i, zero_divisor_at po pc dd i)
  /\ ((forall i, ~ zero_divisor_at po pc dd i) ->
      exists overnight intraday,
        compute_returns_overnight_intraday po pc pa dd = inr (overnight, intraday)).
Proof.
  intros H. apply clean_invariant in H as (Lo & Lc & La & Po & Pa).
  assert (Ho : forall i, i < length dd -> is_zero (nth i po 0%F) = false)
    by (intros i Hi; apply nth_positive_nonzero; [exact Po | lia]).
  assert (Ha : forall i, 1 <= i < length dd -> is_zero (nth (i - 1) pa 0%F) = false)
    by (intros i Hi; apply nth_positive_nonzero; [exact Pa | lia]).
  split; [exact Po |]. split; [exact Pa |]. split; [split |].
  - intros E. exact (compute_returns_inl po pc pa dd _ Lo Lc La Ho Ha E).
  - intros [k Hk]. exact (compute_returns_raises po pc pa dd k Lo Lc La Ho Ha Hk).
  - intros Hnz. destruct dd as [| d0 dd'] eqn:Edd.
    + destruct po, pc, pa; try discriminate. do 2 eexists. reflexivity.
    + rewrite <- Edd in *.
      rewrite (compute_returns_defined po pc pa dd); try assumption.
      * do 2 eexists. reflexivity.
      * rewrite Edd. simpl. lia.
Qed.

End CleanerProperties.

(** ** Which exceptions the stages after the assertion can raise *)

Lemma never_asserts_ret {A : Type} (a : A) : never_asserts (ret a).
Proof. intros m H. discriminate. Qed.

Lemma never_asserts_bind {A B : Type} (c : result A) (k : A -> result B) :
  never_asserts c -> (forall a, never_asserts (k a)) -> never_asserts (bind c k).
Proof.
  intros Hc Hk m H. apply bind_inl in H as [H | (a & _ & H)].
  - exact (Hc m H).
  - exact (Hk a m H).
Qed.

Lemma never_asserts_getitem {A : Type} (l : list A) (i : nat) :
  never_asserts (getitem l i).
Proof.
  intros m. unfold getitem. destruct (nth_error l i); discriminate.
Qed.

Lemma never_asserts_ValueError {A : Type} (o : option A) :
  never_asserts (of_option ValueError o).
Proof.
  intros m. destruct o; discriminate.
Qed.

Lemma never_asserts_mapM {A B : Type} (f : A -> result B) (l : list A) :
  (forall a, never_asserts (f a)) -> never_asserts (mapM f l).
Proof.
  intros Hf. induction l as [| a l IH]; simpl.
  - apply never_asserts_ret.
  - apply never_asserts_bind; [apply Hf |]. intros b.
    apply never_asserts_bind; [exact IH |]. intros bs. apply never_asserts_ret.
Qed.

Lemma never_asserts_index_True (l : list bool) : never_asserts (index_True l).
Proof.
  induction l as [| b l IH]; simpl; [intros m H; discriminate |].
  destruct b; [apply never_asserts_ret |].
  apply never_asserts_bind; [exact IH | intros i; apply never_asserts_ret].
Qed.

Lemma never_asserts_py_max (l : list Z) : never_asserts (py_max l).
Proof.
  intros m. destruct l; discriminate.
Qed.

Lemma never_asserts_datetime_new (args : list Z) : never_asserts (datetime_new args).
Proof.
  intros m H. unfold datetime_new in H.
  repeat match type of H with
         | context [match ?x with _ => _ end] => destruct x
         end; discriminate.
Qed.

Lemma never_asserts_window (s : series) (start_date end_date : option datetime) :
  never_asserts (window s start_date end_date).
Proof.
  destruct s as [[[po pc] pa] dd]. unfold window.
  apply never_asserts_bind.
  - unfold window_d0.
    apply never_asserts_bind; [apply never_asserts_index_True | intros a].
    apply never_asserts_bind; [apply never_asserts_index_True | intros b].
    apply never_asserts_ret.
  - intros d0. apply never_asserts_bind.
    + unfold window_d1.
      apply never_asserts_bind; [apply never_asserts_py_max | intros m].
      destruct (or_default end_date DEFAULT_END_DATE <? m)%Z;
        [apply never_asserts_index_True | apply never_asserts_ret].
    + intros d1. destruct ((1 <? d0) || (d1 <? length dd)); apply never_asserts_ret.
Qed.

(** ** The window bounds *)

Lemma fold_left_max_spec (l : list Z) (x : Z) :
  (x <= fold_left Z.max l x)%Z
  /\ (forall y, In y l -> (y <= fold_left Z.max l x)%Z)
  /\ In (fold_left Z.max l x) (x :: l).
Proof.
  revert x; induction l as [| z l IH]; intros x; simpl.
  - repeat split; [lia | intros y []| left; reflexivity].
  - destruct (IH (Z.max x z)) as (G & A & M). repeat split.
    + lia.
    + intros y [<- | Hy]; [lia | apply A; exact Hy].
    + destruct M as [M | M]; [| right; right; exact M].
      rewrite <- M. destruct (Z.max_spec x z) as [[_ E] | [_ E]]; rewrite E; auto.
Qed.

Lemma py_max_spec (l : list Z) (m : Z) :
  py_max l = inr m -> In m l /\ forall y, In y l -> (y <= m)%Z.
Proof.
  destruct l as [| x l]; simpl; intros H; [discriminate |].
  injection H as <-. destruct (fold_left_max_spec l x) as (G & A & M).
  split; [exact M |]. intros y [<- | Hy]; [exact G | apply A; exact Hy].
Qed.

Lemma nth_map_bool {A : Type} (f : A -> bool) (l : list A) (d : A) (j : nat) :
  j < length l -> nth j (map f l) false = f (nth j l d).
Proof.
  intros H. rewrite (nth_indep _ false (f d)) by (rewrite length_map; exact H).
  apply map_nth.
Qed.

(** [d1] is the first index whose date exceeds the end date, or the length
    when no date does. *)
Lemma window_d1_spec (dd : list datetime) (end_date : option datetime) (d1 : nat) :
  window_d1 dd end_date = inr d1 ->
  d1 <= length dd
  /\ (forall j, j < d1 -> (nth j dd 0 <= or_default end_date DEFAULT_END_DATE)%Z)
  /\ (d1 < length dd -> (or_default end_date DEFAULT_END_DATE < nth d1 dd 0)%Z).
Proof.
  unfold window_d1. intros H. apply bind_inr in H as (m & Hm & H).
  apply py_max_spec in Hm as [Min Mmax].
  destruct (or_default end_date DEFAULT_END_DATE <? m)%Z eqn:E.
  - apply index_True_spec in H as (L & T & F). rewrite length_map in L.
    unfold datetime in *. split; [| split].
    + lia.
    + intros j Hj. specialize (F j Hj).
      rewrite (nth_map_bool _ dd 0%Z) in F by lia. apply Z.ltb_ge in F. exact F.
    + intros _. rewrite (nth_map_bool _ dd 0%Z) in T by lia.
      apply Z.ltb_lt in T. exact T.
  - injection H as <-. apply Z.ltb_ge in E. unfold datetime in *. split; [| split].
    + lia.
    + intros j Hj. specialize (Mmax (nth j dd 0%Z) (nth_In dd 0%Z Hj)). lia.
    + lia.
Qed.

(** [d0] is the larger of the first index with [open != close] and the
    first index whose date is on or after the start date. *)
Lemma window_d0_spec (po pc : list binary64) (dd : list datetime)
    (start_date : option datetime) (d0 : nat) :
  length po = length dd -> length pc = length dd ->
  window_d0 po pc dd start_date = inr d0 ->
  exists a b,
    d0 = Nat.max a b
    /\ a < length dd /\ (nth a po 0 =? nth a pc 0)%F = false
    /\ (forall j, j < a -> (nth j po 0 =? nth j pc 0)%F = true)
    /\ b < length dd /\ (or_default start_date DEFAULT_START_DATE <= nth b dd 0)%Z
    /\ (forall j, j < b -> (nth j dd 0 < or_default start_date DEFAULT_START_DATE)%Z).
Proof.
  unfold window_d0. intros Lo Lc H.
  apply bind_inr in H as (a & Ha & H). apply bind_inr in H as (b & Hb & H).
  injection H as <-. exists a, b.
  apply index_True_spec in Ha as (La & Ta & Fa).
  apply index_True_spec in Hb as (Lb & Tb & Fb).
  rewrite length_map in La, Lb. rewrite length_combine, Lo, Lc, Nat.min_id in La.
  unfold datetime in *.
  assert (Hnth : forall j, j < length dd ->
            nth j (map (fun oc => negb (fst oc =? snd oc)%F) (combine po pc)) false
            = negb (nth j po 0 =? nth j pc 0)%F).
  { intros j Hj. rewrite (nth_map_bool _ _ (0%F, 0%F))
      by (rewrite length_combine, Lo, Lc, Nat.min_id; exact Hj).
    rewrite combine_nth by congruence. reflexivity. }
  split; [reflexivity |]. split; [| split; [| split; [| split; [| split]]]].
  - exact La.
  - rewrite Hnth in Ta by exact La. apply negb_true_iff in Ta. exact Ta.
  - intros j Hj. specialize (Fa j Hj). rewrite Hnth in Fa by lia.
    apply negb_false_iff in Fa. exact Fa.
  - exact Lb.
  - rewrite (nth_map_bool _ dd 0%Z) in Tb by exact Lb. apply Z.leb_le. exact Tb.
  - intros j Hj. specialize (Fb j Hj).
    rewrite (nth_map_bool _ dd 0%Z) in Fb by lia. apply Z.leb_gt. exact Fb.
Qed.

(** On numbers, [not (0 < p)] is [p <= 0]. *)
Lemma not_positive_fle (p : binary64) :
  is_nan p = false -> ((0 <? p)%F = false <-> (p <=? 0)%F = true).
Proof.
  intros N. destruct p as [s | s | | s m e]; simpl in *; try discriminate;
    try (destruct s; simpl; split; intros H; (reflexivity || discriminate));
    split; reflexivity.
Qed.

Section CleanerClaims.

Variable float : string -> option binary64.
Variable int : string -> option Z.
Variable strftime : datetime -> string -> option string.

Abbreviation clean := (get_prices_open_close_adj_dates float int strftime).

Lemma open_positive_parses (d : list string) :
  open_positive float d = inr true -> exists x, field_float float 1 d = inr x.
Proof.
  unfold open_positive, field_float. intros H.
  destruct (getitem d 1) as [e | s]; [discriminate |]. simpl in *.
  destruct (float s) as [x |]; [| discriminate]. simpl. eauto.
Qed.

Lemma read_rows_opens (original_data : list string) (bad_data_dates : list datetime)
    (data : list (list string)) :
  read_rows float strftime original_data bad_data_dates = inr data ->
  exists po, mapM (field_float float 1) data = inr po.
Proof.
  intros H. apply read_rows_Forall in H. apply mapM_total.
  intros d Hd. rewrite Forall_forall in H. destruct (H d Hd) as [_ Hp].
  apply open_positive_parses. exact Hp.
Qed.

(** C7.  Once the three filters have run and the close and adjusted-close
    fields of the remaining rows have been read, the function raises
    [AssertionError] with the bad-data message exactly when some remaining
    row has an adjusted close that is not [> 0], which for a number is an
    adjusted close [<= 0]; hence when it returns a series no such row was
    among them. *)
Theorem clean_data_integrity (original_data : list string)
    (start_date end_date : option datetime) (bad_data_dates : list datetime)
    (data : list (list string)) (pc pa : list binary64) :
  read_rows float strftime original_data bad_data_dates = inr data ->
  mapM (field_float float 4) data = inr pc ->
  mapM (field_float float 5) data = inr pa ->
  (clean original_data start_date end_date bad_data_dates = inl (AssertionError BAD_DATA)
   <-> Exists (fun p => (0 <? p)%F = false) pa)
  /\ (Forall (fun p => is_nan p = false) pa ->
      (clean original_data start_date end_date bad_data_dates
       = inl (AssertionError BAD_DATA)
       <-> Exists (fun p => (p <=? 0)%F = true) pa))
  /\ (forall s, clean original_data start_date end_date bad_data_dates = inr s ->
        Forall (fun p => (0 <? p)%F = true) pa).
Proof.
  intros Hr Hc Ha. destruct (read_rows_opens _ _ _ Hr) as [po Ho].
  assert (Main :
    (clean original_data start_date end_date bad_data_dates
     = inl (AssertionError BAD_DATA)
     <-> Exists (fun p => (0 <? p)%F = false) pa)
    /\ (forall s, clean original_data start_date end_date bad_data_dates = inr s ->
          Forall (fun p => (0 <? p)%F = true) pa)).
  { unfold get_prices_open_close_adj_dates, columns.
    rewrite Hr. cbn [bind]. rewrite Ho. cbn [bind]. rewrite Hc. cbn [bind].
    rewrite Ha. cbn [bind].
    destruct (forallb (fun p => 0 <? p)%F pa) eqn:E; cbn [assert_ bind ret raise].
    - split.
      + split.
        * intros H. exfalso. revert H.
          apply never_asserts_bind.
          -- apply never_asserts_bind;
               [apply never_asserts_mapM | intros dd; apply never_asserts_ret].
             intros d. unfold field_date.
             apply never_asserts_bind; [apply never_asserts_getitem | intros s].
             apply never_asserts_bind; [| intros parts; apply never_asserts_datetime_new].
             apply never_asserts_mapM. intros p. apply never_asserts_ValueError.
          -- intros s. apply never_asserts_window.
        * intros H. exfalso.
          apply (proj2 (forallb_Exists (fun p => (0 <? p)%F) pa)) in H. congruence.
      + intros _ _. apply (proj1 (forallb_Forall (fun p => (0 <? p)%F) pa)). exact E.
    - split.
      + split; [intros _; apply (proj1 (forallb_Exists (fun p => (0 <? p)%F) pa)); exact E
               | reflexivity].
      + intros s H. discriminate. }
  destruct Main as [Iff Ret]. split; [exact Iff |]. split; [| exact Ret].
  intros Num. rewrite Iff. rewrite !Exists_exists.
  split; intros (p & Hin & Hp); exists p; (split; [exact Hin |]);
    apply (not_positive_fle p (proj1 (Forall_forall _ pa) Num p Hin)); exact Hp.
Qed.

(** The series returned is the columns of the filtered rows cut to
    [[d0, d1)] when [d0 > 1] or [d1 < len]; it is left whole otherwise, which
    differs from the cut exactly when [d0 = 1] and [d1 = len]. *)
Lemma clean_window (original_data : list string) (start_date end_date : option datetime)
    (bad_data_dates : list datetime) (s' : series) :
  clean original_data start_date end_date bad_data_dates = inr s' ->
  exists data po pc pa dd d0 d1,
    read_rows float strftime original_data bad_data_dates = inr data
    /\ columns float int data = inr (po, pc, pa, dd)
    /\ window_d0 po pc dd start_date = inr d0
    /\ window_d1 dd end_date = inr d1
    /\ (1 < d0 \/ d1 < length dd ->
        s' = (slice d0 d1 po, slice d0 d1 pc, slice d0 d1 pa, slice d0 d1 dd))
    /\ (d0 <= 1 -> d1 = length dd -> s' = (po, pc, pa, dd)).
Proof.
  intros H. apply clean_inr in H as (data & po & pc & pa & dd & Hr & Hc & Hw).
  apply window_inr in Hw as (d0 & d1 & H0 & H1 & Hs).
  exists data, po, pc, pa, dd, d0, d1. repeat (split; [assumption |]).
  pose proof (window_d1_spec _ _ _ H1) as (Hle & _).
  split.
  - intros Hcut. rewrite Hs.
    replace ((1 <? d0) || (d1 <? length dd)) with true; [reflexivity |].
    symmetry. apply orb_true_iff.
    destruct Hcut; [left; apply Nat.ltb_lt | right; apply Nat.ltb_lt]; assumption.
  - intros Hd0 Hd1. rewrite Hs.
    replace ((1 <? d0) || (d1 <? length dd)) with false; [reflexivity |].
    symmetry. apply orb_false_iff. split; apply Nat.ltb_ge; lia.
Qed.

(** When the filters leave no row the search for [d0] fails: the function
    raises [ValueError], it does not return an empty series. *)
Lemma clean_no_rows (original_data : list string) (start_date end_date : option datetime)
    (bad_data_dates : list datetime) :
  read_rows float strftime original_data bad_data_dates = inr [] ->
  clean original_data start_date end_date bad_data_dates = inl ValueError.
Proof.
  intros H. unfold get_prices_open_close_adj_dates. rewrite H. reflexivity.
Qed.

End CleanerClaims.

Section EmptySeries.

Variable float : string -> option binary64.
Variable int : string -> option Z.
Variable strftime : datetime -> string -> option string.

(** C8, amended.  When the filters leave rows but the window [[d0, d1)] is
    empty, the cleaner returns four empty lists; decomposing that series
    returns two empty lists, cumulating an empty list returns an empty list,
    and [get_plot_data] returns [None]: no exception is raised. *)
Theorem clean_empty_window (original_data : list string)
    (start_date end_date : option datetime) (bad_data_dates : list datetime)
    (data : list (list string)) (po pc pa : list binary64) (dd : list datetime) (d0 d1 : nat) :
  read_rows float strftime original_data bad_data_dates = inr data ->
  columns float int data = inr (po, pc, pa, dd) ->
  window_d0 po pc dd start_date = inr d0 ->
  window_d1 dd end_date = inr d1 ->
  d1 <= d0 ->
  get_prices_open_close_adj_dates float int strftime
    original_data start_date end_date bad_data_dates = inr ([], [], [], [])
  /\ compute_returns_overnight_intraday [] [] [] [] = inr ([], [])
  /\ cumulate_returns [] = []
  /\ get_plot_data float int strftime original_data
       {| sd_start_date := start_date; sd_end_date := end_date;
          sd_bad_data_dates := bad_data_dates |} None = inr None.
Proof.
  intros Hr Hc H0 H1 Hle.
  assert (Hclean : get_prices_open_close_adj_dates float int strftime
                     original_data start_date end_date bad_data_dates
                   = inr ([], [], [], [])).
  { unfold get_prices_open_close_adj_dates. rewrite Hr. cbn [bind]. rewrite Hc.
    cbn [bind]. unfold window. rewrite H0. cbn [bind]. rewrite H1. cbn [bind].
    pose proof (columns_inr _ _ _ _ _ _ _ Hc) as (Mo & Mc & _ & _ & Md).
    pose proof (mapM_length _ _ _ Mo) as Lo.
    pose proof (mapM_length _ _ _ Mc) as Lc.
    pose proof (mapM_length _ _ _ Md) as Ld.
    destruct (window_d0_spec po pc dd start_date d0) as (a & b & E & La & _ & _ & Lb & _);
      [congruence | congruence | exact H0 |].
    assert (Hcut : (d1 <? length dd) = true) by (apply Nat.ltb_lt; lia).
    rewrite Hcut, orb_true_r. rewrite !slice_empty by exact Hle. reflexivity. }
  repeat split; [exact Hclean |].
  unfold get_plot_data. cbn [sd_start_date sd_end_date sd_bad_data_dates].
  rewrite Hclean. reflexivity.
Qed.

End EmptySeries.

(** ** Runs of the program on concrete price files *)

Lemma compute_returns_overnight_rule_witness :
  exists overnight intraday,
    compute_returns_overnight_intraday
      [of_Z 10; of_Z 10; of_Z 12] [of_Z 11; of_Z 9; of_Z 12] [of_Z 11; of_Z 9; of_Z 12]
      [jan 2; jan 3; mk_datetime 2020 2 3 0 0 0 0]
    = inr (overnight, intraday)
    /\ nth_error overnight 0 = Some 0%F
    /\ nth_error overnight 1
       = Some ((1 + (of_Z 9 / of_Z 11 - 1)) / (1 + (of_Z 9 / of_Z 10 - 1)) - 1)%F
    /\ nth_error overnight 2 = Some 0%F.
Proof.
  destruct (compute_returns_overnight_rule
              [of_Z 10; of_Z 10; of_Z 12] [of_Z 11; of_Z 9; of_Z 12]
              [of_Z 11; of_Z 9; of_Z 12] [jan 2; jan 3; mk_datetime 2020 2 3 0 0 0 0])
    as (overnight & intraday & Hret & H0 & _ & Hi).
  - simpl. lia.
  - reflexivity.
  - reflexivity.
  - reflexivity.
  - repeat constructor.
  - repeat constructor.
  - intros i (Hi & _ & Z0). simpl in Hi.
    destruct i as [| [| [| i]]]; try lia; vm_compute in Z0; discriminate.
  - exists overnight, intraday. split; [exact Hret |]. split; [exact H0 |]. split.
    + apply (Hi 1); [simpl; lia | vm_compute; reflexivity].
    + apply (Hi 2); [simpl; lia | vm_compute; discriminate].
Defined.

(** C2, as stated, fails.  The cleaner returns this two-row series; its
    second close, [1e-17], is not zero, but [1e-17 / 10 - 1] is [-1.0] in
    binary64, so [1 + intraday[1]] is [0.0] and the decomposition raises
    [ZeroDivisionError]: it sets no overnight return at all. *)
Lemma clean_series_not_decomposed :
  clean_py [HEADER; "2020-01-02,10,11,9,10.5,10.5,5"; "2020-01-03,10,10,0,1e-17,5,5"]
    None None []
  = inr ([of_Z 10; of_Z 10], [of_decimal false 105 (-1); of_decimal false 1 (-17)],
         [of_decimal false 105 (-1); of_Z 5], [jan 2; jan 3])
  /\ is_zero (of_decimal false 1 (-17)) = false
  /\ (of_decimal false 1 (-17) / of_Z 10 - 1)%F = of_Z (-1)
  /\ compute_returns_overnight_intraday
       [of_Z 10; of_Z 10] [of_decimal false 105 (-1); of_decimal false 1 (-17)]
       [of_decimal false 105 (-1); of_Z 5] [jan 2; jan 3]
     = inl ZeroDivisionError.
Proof.
  repeat split; vm_compute; reflexivity.
Qed.

Lemma clean_data_integrity_witness :
  (clean_py [HEADER; "2020-01-02,10,11,9,10.5,10.5,5"; "2020-01-03,10,11,9,10,-1,5"]
     None None [] = inl (AssertionError BAD_DATA)
   <-> Exists (fun p => (0 <? p)%F = false) [of_decimal false 105 (-1); of_Z (-1)])
  /\ (Forall (fun p => is_nan p = false) [of_decimal false 105 (-1); of_Z (-1)] ->
      (clean_py [HEADER; "2020-01-02,10,11,9,10.5,10.5,5"; "2020-01-03,10,11,9,10,-1,5"]
         None None [] = inl (AssertionError BAD_DATA)
       <-> Exists (fun p => (p <=? 0)%F = true) [of_decimal false 105 (-1); of_Z (-1)]))
  /\ (forall s,
        clean_py [HEADER; "2020-01-02,10,11,9,10.5,10.5,5"; "2020-01-03,10,11,9,10,-1,5"]
          None None [] = inr s ->
        Forall (fun p => (0 <? p)%F = true) [of_decimal false 105 (-1); of_Z (-1)]).
Proof.
  apply (clean_data_integrity py_float py_int py_strftime
           [HEADER; "2020-01-02,10,11,9,10.5,10.5,5"; "2020-01-03,10,11,9,10,-1,5"]
           None None []
           [["2020-01-02"; "10"; "11"; "9"; "10.5"; "10.5"; "5"];
            ["2020-01-03"; "10"; "11"; "9"; "10"; "-1"; "5"]]
           [of_decimal false 105 (-1); of_Z 10] [of_decimal false 105 (-1); of_Z (-1)]).
  - vm_compute. reflexivity.
  - vm_compute. reflexivity.
  - vm_compute. reflexivity.
Defined.

(** C9, as stated, fails.  The cleaner returns this two-row series, whose
    second close is [0]: [1 + intraday[1]] is [0.0] and the decomposition
    divides by it.  A close need not be zero for that: with the second
    close [1e-20] the quotient [close / open] is so small that
    [close / open - 1] is [-1.0], and the division is by zero again. *)
Lemma clean_output_division_by_zero :
  clean_py [HEADER; "2020-01-02,10,11,9,10.5,10.5,5"; "2020-01-03,10,10,0,0,5,5"]
    None None []
  = inr ([of_Z 10; of_Z 10], [of_decimal false 105 (-1); 0%F],
         [of_decimal false 105 (-1); of_Z 5], [jan 2; jan 3])
  /\ compute_returns_overnight_intraday
       [of_Z 10; of_Z 10] [of_decimal false 105 (-1); 0%F]
       [of_decimal false 105 (-1); of_Z 5] [jan 2; jan 3]
     = inl ZeroDivisionError
  /\ clean_py [HEADER; "2020-01-02,10,11,9,10.5,10.5,5";
               "2020-01-03,10,10,0,0.00000000000000000001,5,5"]
       None None []
     = inr ([of_Z 10; of_Z 10], [of_decimal false 105 (-1); of_decimal false 1 (-20)],
            [of_decimal false 105 (-1); of_Z 5], [jan 2; jan 3])
  /\ compute_returns_overnight_intraday
       [of_Z 10; of_Z 10] [of_decimal false 105 (-1); of_decimal false 1 (-20)]
       [of_decimal false 105 (-1); of_Z 5] [jan 2; jan 3]
     = inl ZeroDivisionError.
Proof.
  repeat split; vm_compute; reflexivity.
Qed.

Lemma clean_output_divisions_witness :
  Forall (fun p => (0 <? p)%F = true) [of_Z 10; of_Z 11]
  /\ Forall (fun p => (0 <? p)%F = true) [of_Z 11; of_Z 12]
  /\ (compute_returns_overnight_intraday
        [of_Z 10; of_Z 11] [of_Z 11; of_Z 12] [of_Z 11; of_Z 12] [jan 3; jan 6]
      = inl ZeroDivisionError
      <-> exists i, zero_divisor_at [of_Z 10; of_Z 11] [of_Z 11; of_Z 12] [jan 3; jan 6] i)
  /\ ((forall i, ~ zero_divisor_at [of_Z 10; of_Z 11] [of_Z 11; of_Z 12] [jan 3; jan 6] i) ->
      exists overnight intraday,
        compute_returns_overnight_intraday
          [of_Z 10; of_Z 11] [of_Z 11; of_Z 12] [of_Z 11; of_Z 12] [jan 3; jan 6]
        = inr (overnight, intraday)).
Proof.
  apply (clean_output_divisions py_float py_int py_strftime
           [HEADER; "2020-01-02,10,10,10,10,10,5"; "2020-01-03,10,11,9,11,11,5";
            "2020-01-06,11,12,11,12,12,5"]
           None None []).
  vm_compute. reflexivity.
Defined.

(** C1, at the failing input.  Row 0 has [open == close] and row 1 does not,
    so [d0 = 1]; no date exceeds the end date, so [d1 = 2 = len]; the guard
    [d0 > 1 or d1 < len] is false and the function returns both rows, row 0
    included, where the slice [[d0, d1)] holds row 1 alone. *)
Theorem clean_keeps_row_below_d0 :
  read_rows py_float py_strftime
    [HEADER; "2020-01-02,10,11,9,10,10,5"; "2020-01-03,10,11,9,11,11,5"] []
  = inr [["2020-01-02"; "10"; "11"; "9"; "10"; "10"; "5"];
         ["2020-01-03"; "10"; "11"; "9"; "11"; "11"; "5"]]
  /\ columns py_float py_int
       [["2020-01-02"; "10"; "11"; "9"; "10"; "10"; "5"];
        ["2020-01-03"; "10"; "11"; "9"; "11"; "11"; "5"]]
     = inr ([of_Z 10; of_Z 10], [of_Z 10; of_Z 11], [of_Z 10; of_Z 11], [jan 2; jan 3])
  /\ window_d0 [of_Z 10; of_Z 10] [of_Z 10; of_Z 11] [jan 2; jan 3] None = inr 1
  /\ window_d1 [jan 2; jan 3] None = inr 2
  /\ clean_py [HEADER; "2020-01-02,10,11,9,10,10,5"; "2020-01-03,10,11,9,11,11,5"]
       None None []
     = inr ([of_Z 10; of_Z 10], [of_Z 10; of_Z 11], [of_Z 10; of_Z 11], [jan 2; jan 3])
  /\ slice 1 2 [jan 2; jan 3] = [jan 3].
Proof.
  repeat split; vm_compute; reflexivity.
Qed.

(** C6, at the failing input.  The second row's open, high, low and close
    are the texts [10], [10.0], [10.00] and [10], which [float] reads as the
    same number; the filter compares the texts, finds more than one, and the
    row is returned. *)
Theorem clean_keeps_numerically_flat_row :
  map py_float ["10"; "10.0"; "10.00"; "10"]
  = [Some (of_Z 10); Some (of_Z 10); Some (of_Z 10); Some (of_Z 10)]
  /\ all_flat ["2020-01-03"; "10"; "10.0"; "10.00"; "10"; "10"; "5"] = false
  /\ clean_py [HEADER; "2020-01-02,10,11,9,11,11,5"; "2020-01-03,10,10.0,10.00,10,10,5"]
       None None []
     = inr ([of_Z 10; of_Z 10], [of_Z 11; of_Z 10], [of_Z 11; of_Z 10], [jan 2; jan 3]).
Proof.
  repeat split; vm_compute; reflexivity.
Qed.

(** C8, as stated, fails twice.  With both dates excluded no row is left and
    [index(True)] raises [ValueError] instead of an empty result; with an
    end date before every row the result is empty, and decomposition and
    cumulation of it return empty lists, not an error. *)
Lemma clean_all_rows_removed :
  clean_py [HEADER; "2020-01-02,10,11,9,10,10,5"; "2020-01-03,10,11,9,11,11,5"]
    None None [jan 2; jan 3] = inl ValueError
  /\ clean_py [HEADER; "2020-01-02,10,11,9,10,10,5"; "2020-01-03,10,11,9,11,11,5"]
       None (Some (mk_datetime 2019 1 3 0 0 0 0)) [] = inr ([], [], [], [])
  /\ compute_returns_overnight_intraday [] [] [] [] = inr ([], [])
  /\ cumulate_returns [] = [].
Proof.
  repeat split; vm_compute; reflexivity.
Qed.

Lemma clean_empty_window_witness :
  clean_py [HEADER; "2020-01-02,10,11,9,10,10,5"; "2020-01-03,10,11,9,11,11,5"]
    None (Some (mk_datetime 2019 1 3 0 0 0 0)) [] = inr ([], [], [], [])
  /\ compute_returns_overnight_intraday [] [] [] [] = inr ([], [])
  /\ cumulate_returns [] = []
  /\ get_plot_data py_float py_int py_strftime
       [HEADER; "2020-01-02,10,11,9,10,10,5"; "2020-01-03,10,11,9,11,11,5"]
       {| sd_start_date := None; sd_end_date := Some (mk_datetime 2019 1 3 0 0 0 0);
          sd_bad_data_dates := [] |} None = inr None.
Proof.
  apply (clean_empty_window py_float py_int py_strftime
           [HEADER; "2020-01-02,10,11,9,10,10,5"; "2020-01-03,10,11,9,11,11,5"]
           None (Some (mk_datetime 2019 1 3 0 0 0 0)) []
           [["2020-01-02"; "10"; "11"; "9"; "10"; "10"; "5"];
            ["2020-01-03"; "10"; "11"; "9"; "11"; "11"; "5"]]
           [of_Z 10; of_Z 10] [of_Z 10; of_Z 11] [of_Z 10; of_Z 11] [jan 2; jan 3] 1 0).
  - vm_compute. reflexivity.
  - vm_compute. reflexivity.
  - vm_compute. reflexivity.
  - vm_compute. reflexivity.
  - lia.
Defined.

(** ** Cleaning a cleaned series again *)

Lemma str_split_nonempty (sep : ascii) (s : string) : str_split sep s <> [].
Proof.
  destruct s as [| c rest]; simpl; [discriminate |].
  destruct (Ascii.eqb c sep); [discriminate |].
  destruct (str_split sep rest); discriminate.
Qed.

Lemma str_join_split (sep : ascii) (s : string) :
  str_join sep (str_split sep s) = s.
Proof.
  induction s as [| c rest IH]; [reflexivity |].
  cbn [str_split]. pose proof (str_split_nonempty sep rest) as NE.
  destruct (Ascii.eqb c sep) eqn:E.
  - apply Ascii.eqb_eq in E. subst c.
    destruct (str_split sep rest) as [| w ws]; [contradiction |].
    cbn [str_join] in *. rewrite IH. reflexivity.
  - destruct (str_split sep rest) as [| w ws]; [contradiction |].
    destruct ws as [| w' ws]; cbn [str_join] in *; rewrite <- IH; reflexivity.
Qed.

Lemma mapM_firstn {A B : Type} (f : A -> result B) (l : list A) (bs : list B) (n : nat) :
  mapM f l = inr bs -> mapM f (firstn n l) = inr (firstn n bs).
Proof.
  revert bs n; induction l as [| a l IH]; simpl; intros bs n H.
  - injection H as <-. destruct n; reflexivity.
  - destruct (f a) as [e | b] eqn:Hb; [discriminate |]. simpl in H.
    destruct (mapM f l) as [e | bs'] eqn:Hl; [discriminate |]. simpl in H.
    injection H as <-. destruct n as [| n]; simpl; [reflexivity |].
    rewrite Hb. simpl. rewrite (IH bs' n eq_refl). reflexivity.
Qed.

Lemma mapM_skipn {A B : Type} (f : A -> result B) (l : list A) (bs : list B) (n : nat) :
  mapM f l = inr bs -> mapM f (skipn n l) = inr (skipn n bs).
Proof.
  revert bs n; induction l as [| a l IH]; simpl; intros bs n H.
  - injection H as <-. destruct n; reflexivity.
  - destruct (f a) as [e | b] eqn:Hb; [discriminate |]. simpl in H.
    destruct (mapM f l) as [e | bs'] eqn:Hl; [discriminate |]. simpl in H.
    injection H as <-. destruct n as [| n]; simpl.
    + rewrite Hb. simpl. rewrite Hl. reflexivity.
    + apply IH. reflexivity.
Qed.

Lemma mapM_slice {A B : Type} (f : A -> result B) (l : list A) (bs : list B)
    (lo hi : nat) :
  mapM f l = inr bs -> mapM f (slice lo hi l) = inr (slice lo hi bs).
Proof.
  intros H. unfold slice. apply mapM_firstn. apply mapM_skipn. exact H.
Qed.

Lemma slice_In_nth {A : Type} (lo hi : nat) (l : list A) (x d : A) :
  In x (slice lo hi l) -> exists j, lo <= j < hi /\ j < length l /\ nth j l d = x.
Proof.
  intros H. apply In_nth_error in H as [i Hi]. unfold slice in Hi.
  rewrite nth_error_firstn in Hi.
  destruct (i <? hi - lo) eqn:E; [| discriminate]. apply Nat.ltb_lt in E.
  rewrite nth_error_skipn in Hi. exists (lo + i). split; [lia |]. split.
  - apply nth_error_Some. congruence.
  - apply nth_error_nth. exact Hi.
Qed.

Lemma HEADER_accepted : (str_strip HEADER =? HEADER)%string = true.
Proof. vm_compute. reflexivity. Qed.

(** A series whose first row has [open != close] and a date on or after the
    start date, and none of whose dates exceeds the end date, passes the
    window unchanged. *)
Lemma window_fixed (po pc pa : list binary64) (dd : list datetime)
    (start_date end_date : option datetime) (o c : binary64) (d : datetime) :
  nth_error po 0 = Some o -> nth_error pc 0 = Some c -> (o =? c)%F = false ->
  nth_error dd 0 = Some d ->
  (or_default start_date DEFAULT_START_DATE <= d)%Z ->
  (forall x, In x dd -> (x <= or_default end_date DEFAULT_END_DATE)%Z) ->
  window (po, pc, pa, dd) start_date end_date = inr (po, pc, pa, dd).
Proof.
  intros Ho Hc Hne Hd Hstart Hend.
  destruct po as [| o' po']; [discriminate |]. injection Ho as ->.
  destruct pc as [| c' pc']; [discriminate |]. injection Hc as ->.
  destruct dd as [| d' dd']; [discriminate |]. injection Hd as ->.
  unfold window, window_d0, window_d1. cbn [combine map index_True fst snd].
  rewrite Hne. cbn [negb bind ret].
  apply Z.leb_le in Hstart. rewrite Hstart. cbn [bind ret Nat.max].
  destruct (py_max (d :: dd')) as [e | m] eqn:Hm; [discriminate |].
  apply py_max_spec in Hm as [Min _]. apply Hend in Min. apply Z.ltb_ge in Min.
  cbn [bind]. rewrite Min. cbn [bind ret].
  rewrite Nat.ltb_irrefl. reflexivity.
Qed.

Section Recleaning.

Variable float : string -> option binary64.
Variable int : string -> option Z.
Variable strftime : datetime -> string -> option string.

Abbreviation clean := (get_prices_open_close_adj_dates float int strftime).

Lemma read_rows_pass (original_data : list string) (bad_data_dates : list datetime)
    (data : list (list string)) :
  read_rows float strftime original_data bad_data_dates = inr data ->
  Forall (row_passes float) data.
Proof.
  intros H. apply read_rows_inr in H as (hdr & bs & _ & _ & _ & H).
  apply filterM_Forall in H. eapply Forall_impl; [| exact H].
  simpl. intros d [Hp Hin].
  apply filter_In in Hin as [Hin Hflat]. apply negb_true_iff in Hflat.
  apply in_map_iff in Hin as (line & <- & Hline).
  apply filter_In in Hline as [_ Hk]. unfold line_kept in Hk.
  apply andb_true_iff in Hk as [Hk _]. apply andb_true_iff in Hk as [Hne Hnull].
  apply negb_true_iff in Hne, Hnull. apply String.eqb_neq in Hne.
  repeat split; eauto.
Qed.

Lemma read_rows_rejoined (rows : list (list string)) :
  Forall (row_passes float) rows ->
  read_rows float strftime (HEADER :: map (str_join ",") rows) [] = inr rows.
Proof.
  intros H. unfold read_rows. cbn [getitem nth_error of_option bind ret].
  rewrite HEADER_accepted. cbn [assert_ mapM bind ret tl].
  rewrite (filter_all_true (line_kept []) (map (str_join ",") rows)).
  2:{ apply Forall_map. eapply Forall_impl; [| exact H]. simpl.
      intros d ((line & -> & Hne & Hnull) & _). rewrite str_join_split.
      unfold line_kept. apply String.eqb_neq in Hne. rewrite Hne, Hnull. reflexivity. }
  rewrite map_map.
  assert (Hid : map (fun d => str_split "," (str_join "," d)) rows = rows).
  { rewrite <- (map_id rows) at 2. apply map_ext_Forall.
    eapply Forall_impl; [| exact H]. simpl.
    intros d ((line & -> & _) & _). rewrite str_join_split. reflexivity. }
  rewrite Hid. rewrite filter_all_true.
  2:{ eapply Forall_impl; [| exact H]. simpl.
      intros d (_ & Hflat & _). rewrite Hflat. reflexivity. }
  apply filterM_all_true. eapply Forall_impl; [| exact H]. simpl.
  intros d (_ & _ & Hp). exact Hp.
Qed.

Lemma columns_slice (data : list (list string)) (po pc pa : list binary64) (dd : list datetime)
    (lo hi : nat) :
  columns float int data = inr (po, pc, pa, dd) ->
  columns float int (slice lo hi data)
  = inr (slice lo hi po, slice lo hi pc, slice lo hi pa, slice lo hi dd).
Proof.
  intros H. apply columns_inr in H as (Ho & Hc & Ha & Hpos & Hd).
  unfold columns.
  rewrite (mapM_slice _ _ _ lo hi Ho). cbn [bind].
  rewrite (mapM_slice _ _ _ lo hi Hc). cbn [bind].
  rewrite (mapM_slice _ _ _ lo hi Ha). cbn [bind].
  assert (Hpos' : forallb (fun p => 0 <? p)%F (slice lo hi pa) = true).
  { apply forallb_Forall. apply Forall_slice.
    apply (proj1 (forallb_Forall (fun p => (0 <? p)%F) pa)). exact Hpos. }
  rewrite Hpos'. cbn [assert_ bind ret].
  rewrite (mapM_slice _ _ _ lo hi Hd). reflexivity.
Qed.

(** The retained rows exist whenever the cleaner returns; they pass the
    filters, their columns are the returned series, and none of their dates
    exceeds the end date. *)
Lemma retained_rows_spec (original_data : list string)
    (start_date end_date : option datetime) (bad_data_dates : list datetime)
    (s : series) :
  clean original_data start_date end_date bad_data_dates = inr s ->
  exists rows,
    retained_rows float int strftime original_data start_date end_date bad_data_dates = inr rows
    /\ Forall (row_passes float) rows
    /\ columns float int rows = inr s
    /\ forall x, In x (snd s) -> (x <= or_default end_date DEFAULT_END_DATE)%Z.
Proof.
  intros H. apply clean_inr in H as (data & po & pc & pa & dd & Hr & Hc & Hw).
  apply window_inr in Hw as (d0 & d1 & H0 & H1 & Hs).
  pose proof (read_rows_pass _ _ _ Hr) as Hpass.
  pose proof (window_d1_spec _ _ _ H1) as (Hle & Hbefore & _).
  unfold retained_rows. rewrite Hr. cbn [bind]. rewrite Hc. cbn [bind fst snd].
  rewrite H0. cbn [bind]. rewrite H1. cbn [bind ret].
  destruct ((1 <? d0) || (d1 <? length dd))%nat eqn:Cut; subst s.
  - exists (slice d0 d1 data). split; [reflexivity |].
    split; [apply Forall_slice; exact Hpass |].
    split; [apply columns_slice; exact Hc |].
    cbn [snd]. intros x Hx.
    apply (slice_In_nth d0 d1 dd x 0%Z) in Hx as (j & Hj & _ & <-).
    apply Hbefore. lia.
  - exists data. split; [reflexivity |]. split; [exact Hpass |]. split; [exact Hc |].
    cbn [snd]. intros x Hx. apply orb_false_iff in Cut as [_ Cut].
    apply Nat.ltb_ge in Cut.
    apply (In_nth dd x 0%Z) in Hx as (j & Hj & <-). apply Hbefore.
    unfold datetime in *. lia.
Qed.

(** C5, amended.  When the series the cleaner returns starts with a row whose
    open differs from its close and whose date is on or after the start date,
    cleaning the retained rows again, with the same window and no excluded
    dates, returns the same series. *)
Theorem clean_idempotent_live_first_row (original_data : list string)
    (start_date end_date : option datetime) (bad_data_dates : list datetime)
    (po pc pa : list binary64) (dd : list datetime) (o c : binary64) (d : datetime) :
  clean original_data start_date end_date bad_data_dates = inr (po, pc, pa, dd) ->
  nth_error po 0 = Some o ->
  nth_error pc 0 = Some c ->
  (o =? c)%F = false ->
  nth_error dd 0 = Some d ->
  (or_default start_date DEFAULT_START_DATE <= d)%Z ->
  reclean float int strftime original_data start_date end_date bad_data_dates = inr (po, pc, pa, dd).
Proof.
  intros H Ho Hc Hne Hd Hstart.
  apply retained_rows_spec in H as (rows & Hrows & Hpass & Hcols & Hend).
  unfold reclean. rewrite Hrows. cbn [bind].
  unfold get_prices_open_close_adj_dates.
  rewrite (read_rows_rejoined rows Hpass). cbn [bind].
  rewrite Hcols. cbn [bind].
  apply (window_fixed po pc pa dd start_date end_date o c d); assumption.
Qed.

End Recleaning.

(** C5, as stated, fails.  With the start date on 2020-01-06 the cleaner
    returns the last three rows of this file; the first two of them have
    [open == close], so cleaning those three rows again cuts them off and
    returns the last row alone. *)
Lemma clean_not_idempotent :
  clean_py
    [HEADER; "2020-01-02,10,11,9,11,11,5"; "2020-01-03,10,11,9,11,11,5";
     "2020-01-06,10,11,9,10,10,5"; "2020-01-07,10,11,9,10,10,5";
     "2020-01-08,10,11,9,11,11,5"]
    (Some (jan 6)) None []
  = inr ([of_Z 10; of_Z 10; of_Z 10], [of_Z 10; of_Z 10; of_Z 11],
         [of_Z 10; of_Z 10; of_Z 11], [jan 6; jan 7; jan 8])
  /\ retained_rows py_float py_int py_strftime
       [HEADER; "2020-01-02,10,11,9,11,11,5"; "2020-01-03,10,11,9,11,11,5";
        "2020-01-06,10,11,9,10,10,5"; "2020-01-07,10,11,9,10,10,5";
        "2020-01-08,10,11,9,11,11,5"]
       (Some (jan 6)) None []
     = inr [["2020-01-06"; "10"; "11"; "9"; "10"; "10"; "5"];
            ["2020-01-07"; "10"; "11"; "9"; "10"; "10"; "5"];
            ["2020-01-08"; "10"; "11"; "9"; "11"; "11"; "5"]]
  /\ clean_py
       [HEADER; "2020-01-06,10,11,9,10,10,5"; "2020-01-07,10,11,9,10,10,5";
        "2020-01-08,10,11,9,11,11,5"]
       (Some (jan 6)) None []
     = inr ([of_Z 10], [of_Z 11], [of_Z 11], [jan 8])
  /\ reclean py_float py_int py_strftime
       [HEADER; "2020-01-02,10,11,9,11,11,5"; "2020-01-03,10,11,9,11,11,5";
        "2020-01-06,10,11,9,10,10,5"; "2020-01-07,10,11,9,10,10,5";
        "2020-01-08,10,11,9,11,11,5"]
       (Some (jan 6)) None []
     <> clean_py
          [HEADER; "2020-01-02,10,11,9,11,11,5"; "2020-01-03,10,11,9,11,11,5";
           "2020-01-06,10,11,9,10,10,5"; "2020-01-07,10,11,9,10,10,5";
           "2020-01-08,10,11,9,11,11,5"]
          (Some (jan 6)) None [].
Proof.
  repeat split; try (vm_compute; reflexivity).
  vm_compute. discriminate.
Qed.

Lemma clean_idempotent_live_first_row_witness :
  reclean py_float py_int py_strftime
    [HEADER; "2020-01-02,10,10,10,10,10,5"; "2020-01-03,10,11,9,11,11,5";
     "2020-01-06,11,12,11,12,12,5"]
    None None []
  = inr ([of_Z 10; of_Z 11], [of_Z 11; of_Z 12], [of_Z 11; of_Z 12], [jan 3; jan 6]).
Proof.
  apply (clean_idempotent_live_first_row py_float py_int py_strftime
           [HEADER; "2020-01-02,10,10,10,10,10,5"; "2020-01-03,10,11,9,11,11,5";
            "2020-01-06,11,12,11,12,12,5"]
           None None [] _ _ _ _ (of_Z 10) (of_Z 11) (jan 3)).
  - vm_compute. reflexivity.
  - reflexivity.
  - reflexivity.
  - reflexivity.
  - reflexivity.
  - vm_compute. discriminate.
Defined.
(** * Further properties of the module *)

(** ** The cleaner *)

Lemma index_True_all_false (l : list bool) :
  Forall (fun b => b = false) l -> index_True l = inl ValueError.
Proof.
  induction 1 as [| b l Hb Hl IH]; simpl; [reflexivity |].
  rewrite Hb, IH. reflexivity.
Qed.

Lemma index_True_inl (l : list bool) (e : exn) :
  index_True l = inl e -> e = ValueError.
Proof.
  induction l as [| b l IH]; simpl; intros H.
  - unfold raise in H. congruence.
  - destruct b; [discriminate |].
    destruct (index_True l) as [e' | i]; [| discriminate].
    simpl in H. apply IH. congruence.
Qed.

Lemma short_row_flat (d : list string) : length d <= 2 -> all_flat d = true.
Proof.
  intros H. destruct d as [| a [| b [| c d]]]; simpl in H; try lia; reflexivity.
Qed.

Lemma filter_filter {A : Type} (f g : A -> bool) (l : list A) :
  filter f (filter g l) = filter (fun a => g a && f a) l.
Proof.
  induction l as [| a l IH]; simpl; [reflexivity |].
  destruct (g a); simpl; [destruct (f a) |]; rewrite IH; reflexivity.
Qed.

Section CleanerExtras.

Variable float : string -> option binary64.
Variable int : string -> option Z.
Variable strftime : datetime -> string -> option string.

Abbreviation clean := (get_prices_open_close_adj_dates float int strftime).

(** Every series the cleaner returns is made of four lists of one length,
    with every open and every adjusted close positive. *)
Theorem clean_returns_aligned_positive (original_data : list string)
    (start_date end_date : option datetime) (bad_data_dates : list datetime)
    (po pc pa : list binary64) (dd : list datetime) :
  clean original_data start_date end_date bad_data_dates = inr (po, pc, pa, dd) ->
  length po = length dd /\ length pc = length dd /\ length pa = length dd
  /\ Forall (fun p => (0 <? p)%F = true) po
  /\ Forall (fun p => (0 <? p)%F = true) pa.
Proof.
  intros H. exact (clean_invariant float int strftime _ _ _ _ _ _ _ _ H).
Qed.

(** No date of a returned series is after the end date (the default end
    date when none is given). *)
Theorem clean_dates_within_end (original_data : list string)
    (start_date end_date : option datetime) (bad_data_dates : list datetime)
    (po pc pa : list binary64) (dd : list datetime) :
  clean original_data start_date end_date bad_data_dates = inr (po, pc, pa, dd) ->
  Forall (fun d => (d <= or_default end_date DEFAULT_END_DATE)%Z) dd.
Proof.
  intros H.
  apply (retained_rows_spec float int strftime) in H as (rows & _ & _ & _ & Hend).
  apply Forall_forall. exact Hend.
Qed.

Lemma rows_without_junk (bs : list string) (lines : list string) :
  filter (fun d => negb (all_flat d))
    (map (str_split ",") (filter (line_kept bs) (filter (fun d => negb (junk_line d)) lines)))
  = filter (fun d => negb (all_flat d))
      (map (str_split ",") (filter (line_kept bs) lines)).
Proof.
  induction lines as [| d lines IH]; [reflexivity |].
  cbn [filter]. destruct (junk_line d) eqn:J; cbn [negb].
  - rewrite IH. destruct (line_kept bs d) eqn:K; [| reflexivity].
    cbn [map filter].
    assert (F : all_flat (str_split "," d) = true).
    { apply short_row_flat. unfold junk_line in J. unfold line_kept in K.
      apply andb_true_iff in K as [K _]. apply andb_true_iff in K as [K1 K2].
      apply negb_true_iff in K1, K2. rewrite K1, K2 in J. cbn [orb] in J.
      apply Nat.leb_le. exact J. }
    rewrite F. reflexivity.
  - cbn [filter]. destruct (line_kept bs d); [| exact IH].
    cbn [map filter]. rewrite IH. reflexivity.
Qed.

(** Lines that are empty, carry a [null] or have fewer than three fields
    do not count: the cleaner does on a file what it does on the file
    without them. *)
Theorem clean_ignores_junk_lines (hdr : string) (lines : list string)
    (start_date end_date : option datetime) (bad_data_dates : list datetime) :
  clean (hdr :: lines) start_date end_date bad_data_dates
  = clean (hdr :: filter (fun d => negb (junk_line d)) lines)
      start_date end_date bad_data_dates.
Proof.
  unfold get_prices_open_close_adj_dates. f_equal.
  unfold read_rows. cbn [getitem nth_error of_option bind ret tl].
  destruct (assert_ (str_strip hdr =? HEADER)%string (Message hdr)) as [e | u];
    [reflexivity |].
  cbn [bind].
  destruct (mapM (fun d => of_option ValueError (strftime d DATETIME_FORMAT))
              bad_data_dates) as [e | bs]; [reflexivity |].
  cbn [bind]. rewrite rows_without_junk. reflexivity.
Qed.

(** Excluding dates is deleting their lines: with the excluded dates
    formatted as [bs], the cleaner does on a file what it does, with no
    date excluded, on the file without the lines whose date field is in
    [bs]. *)
Theorem clean_exclusion_is_deletion (hdr : string) (lines : list string)
    (start_date end_date : option datetime) (bad_data_dates : list datetime)
    (bs : list string) :
  mapM (fun d => of_option ValueError (strftime d DATETIME_FORMAT)) bad_data_dates
  = inr bs ->
  clean (hdr :: lines) start_date end_date bad_data_dates
  = clean (hdr :: filter (fun d => negb (mem (date_text d) bs)) lines)
      start_date end_date [].
Proof.
  intros Hbs. unfold get_prices_open_close_adj_dates. f_equal.
  unfold read_rows. cbn [getitem nth_error of_option bind ret tl].
  destruct (assert_ (str_strip hdr =? HEADER)%string (Message hdr)) as [e | u];
    [reflexivity |].
  cbn [bind mapM ret]. rewrite Hbs. cbn [bind].
  rewrite filter_filter. do 3 f_equal.
  apply filter_ext. intros d. unfold line_kept, date_text. cbn [mem existsb negb].
  rewrite andb_true_r. apply andb_comm.
Qed.

(** When no remaining row has an open different from its close, or no
    remaining row is dated on or after the start date, the search for
    [d0] fails and the cleaner raises [ValueError]. *)
Theorem clean_no_first_row_raises (original_data : list string)
    (start_date end_date : option datetime) (bad_data_dates : list datetime)
    (data : list (list string)) (po pc pa : list binary64) (dd : list datetime) :
  read_rows float strftime original_data bad_data_dates = inr data ->
  columns float int data = inr (po, pc, pa, dd) ->
  Forall (fun oc => (fst oc =? snd oc)%F = true) (combine po pc)
  \/ Forall (fun d => (d < or_default start_date DEFAULT_START_DATE)%Z) dd ->
  clean original_data start_date end_date bad_data_dates = inl ValueError.
Proof.
  intros Hr Hc Hnone. unfold get_prices_open_close_adj_dates.
  rewrite Hr. cbn [bind]. rewrite Hc. cbn [bind]. unfold window, window_d0.
  destruct Hnone as [Hflat | Hearly].
  - rewrite index_True_all_false; [reflexivity |].
    apply Forall_map. eapply Forall_impl; [| exact Hflat]. simpl. intros oc E.
    apply negb_false_iff. exact E.
  - assert (Hb : index_True
                   (map (fun d => (or_default start_date DEFAULT_START_DATE <=? d)%Z) dd)
                 = inl ValueError).
    { apply index_True_all_false. apply Forall_map.
      eapply Forall_impl; [| exact Hearly]. simpl. intros d L.
      apply Z.leb_gt. exact L. }
    destruct (index_True (map (fun oc => negb (fst oc =? snd oc)%F)
                              (combine po pc))) as [e | a] eqn:Ha.
    + apply index_True_inl in Ha. subst e. reflexivity.
    + cbn [bind]. rewrite Hb. reflexivity.
Qed.

End CleanerExtras.

(** ** The decomposition *)

Lemma mapM_inr_nth {A B : Type} (f : A -> result B) (l : list A) (bs : list B)
    (i : nat) (a : A) :
  mapM f l = inr bs -> nth_error l i = Some a ->
  exists b, nth_error bs i = Some b /\ f a = inr b.
Proof.
  revert bs i; induction l as [| x l IH]; simpl; intros bs i H Hi.
  - destruct i; discriminate.
  - destruct (f x) as [e | b] eqn:Hx; [discriminate |]. simpl in H.
    destruct (mapM f l) as [e | bs'] eqn:Hl; [discriminate |]. simpl in H.
    injection H as <-. destruct i as [| i]; simpl in *.
    + injection Hi as <-. eauto.
    + eapply IH; eauto.
Qed.

Lemma lengths_asserted (a b c d : nat) (u : unit) :
  assert_ ((a =? b) && (b =? c) && (c =? d)) NoMessage = inr u ->
  a = d /\ b = d /\ c = d.
Proof.
  intros H. apply assert_inr in H.
  apply andb_true_iff in H as [H H3]. apply andb_true_iff in H as [H1 H2].
  apply Nat.eqb_eq in H1, H2, H3. lia.
Qed.

(** What a returned decomposition looks like, whatever the dates and the
    adjusted closes. *)
Lemma compute_returns_inv (price_open price_close price_close_adj : list binary64)
    (dates_datetime : list datetime) (overnight intraday : list binary64) :
  compute_returns_overnight_intraday price_open price_close price_close_adj dates_datetime
  = inr (overnight, intraday) ->
  length overnight = length dates_datetime
  /\ length intraday = length dates_datetime
  /\ (0 < length dates_datetime -> nth_error overnight 0 = Some 0%F)
  /\ forall i, i < length dates_datetime ->
       is_zero (nth i price_open 0%F) = false
       /\ nth_error intraday i = Some (nth i price_close 0 / nth i price_open 0 - 1)%F.
Proof.
  unfold compute_returns_overnight_intraday. intros H.
  apply bind_inr in H as (u & Hlen & H). apply lengths_asserted in Hlen as (Lo & Lc & La).
  destruct (length dates_datetime =? 0) eqn:E.
  - apply Nat.eqb_eq in E. injection H as <- <-. rewrite E.
    repeat split; try reflexivity; intros; lia.
  - apply Nat.eqb_neq in E.
    apply bind_inr in H as (intra & Hi & H).
    apply bind_inr in H as (ctc & Hctc & H).
    apply bind_inr in H as (tail & Ht & H). injection H as <- <-.
    pose proof (mapM_length _ _ _ Hi) as Li.
    pose proof (mapM_length _ _ _ Ht) as Lt.
    unfold range in *. rewrite length_seq in Li, Lt. rewrite Nat.sub_0_r in *.
    split; [cbn [length]; lia |]. split; [exact Li |]. split; [reflexivity |].
    intros i Hlt.
    assert (Hseq : nth_error (seq 0 (length dates_datetime)) i = Some i).
    { rewrite (nth_error_nth' _ 0) by (rewrite length_seq; exact Hlt).
      rewrite seq_nth by exact Hlt. reflexivity. }
    destruct (mapM_inr_nth _ _ _ _ _ Hi Hseq) as (b & Hb & Fb).
    unfold intraday_at in Fb.
    rewrite (getitem_lt price_close i 0%F) in Fb by lia.
    rewrite (getitem_lt price_open i 0%F) in Fb by lia. cbn [bind] in Fb.
    apply bind_inr in Fb as (q & Hq & Fb). apply div_inr in Hq as [Hnz ->].
    injection Fb as <-. split; assumption.
Qed.

(** Whenever the decomposition returns, both lists are as long as the
    list of dates, [overnight[0]] is [0], no open is zero, and
    [intraday[i]] is [close[i] / open[i] - 1] at every index: the intraday
    leg does not depend on the dates or on the adjusted closes. *)
Theorem compute_returns_shape (price_open price_close price_close_adj : list binary64)
    (dates_datetime : list datetime) (overnight intraday : list binary64) :
  compute_returns_overnight_intraday price_open price_close price_close_adj dates_datetime
  = inr (overnight, intraday) ->
  length overnight = length dates_datetime
  /\ length intraday = length dates_datetime
  /\ (dates_datetime <> [] -> nth_error overnight 0 = Some 0%F)
  /\ forall i, i < length dates_datetime ->
       nth_error intraday i = Some (nth i price_close 0 / nth i price_open 0 - 1)%F.
Proof.
  intros H. apply compute_returns_inv in H as (Lo & Li & H0 & Hi).
  repeat split; try assumption.
  - intros NE. apply H0. destruct dates_datetime; [contradiction | simpl; lia].
  - intros i Hlt. apply (Hi i Hlt).
Qed.

Lemma compute_returns_shape_witness :
  length [0%F; (of_Z 12 / of_Z 11 / (of_Z 12 / of_Z 11) - 1)%F] = length [jan 3; jan 6]
  /\ length [(of_Z 11 / of_Z 10 - 1)%F; (of_Z 12 / of_Z 11 - 1)%F] = length [jan 3; jan 6]
  /\ ([jan 3; jan 6] <> []
      -> nth_error [0%F; (of_Z 12 / of_Z 11 / (of_Z 12 / of_Z 11) - 1)%F] 0 = Some 0%F)
  /\ forall i, i < length [jan 3; jan 6] ->
       nth_error [(of_Z 11 / of_Z 10 - 1)%F; (of_Z 12 / of_Z 11 - 1)%F] i
       = Some (nth i [of_Z 11; of_Z 12] 0 / nth i [of_Z 10; of_Z 11] 0 - 1)%F.
Proof.
  apply (compute_returns_shape [of_Z 10; of_Z 11] [of_Z 11; of_Z 12] [of_Z 11; of_Z 12]).
  vm_compute. reflexivity.
Defined.

(** On four lists of one length the only exception the decomposition can
    raise is [ZeroDivisionError]: no index is ever out of range. *)
Theorem compute_returns_only_ZeroDivisionError
    (price_open price_close price_close_adj : list binary64)
    (dates_datetime : list datetime) (e : exn) :
  length price_open = length dates_datetime ->
  length price_close = length dates_datetime ->
  length price_close_adj = length dates_datetime ->
  compute_returns_overnight_intraday price_open price_close price_close_adj dates_datetime
  = inl e ->
  e = ZeroDivisionError.
Proof.
  intros Lo Lc La. unfold compute_returns_overnight_intraday.
  rewrite Lo, Lc, La, !Nat.eqb_refl. simpl assert_. cbn [bind ret].
  destruct (length dates_datetime =? 0) eqn:E; [discriminate |].
  apply Nat.eqb_neq in E. unfold range. rewrite Nat.sub_0_r. intros H.
  apply bind_inl in H as [H | (intra & Hi & H)].
  { apply mapM_inl in H as (i & Hin & H). apply in_seq in Hin.
    unfold intraday_at in H.
    rewrite (getitem_lt price_close i 0%F) in H by lia.
    rewrite (getitem_lt price_open i 0%F) in H by lia. cbn [bind] in H.
    apply bind_inl in H as [H | (q & _ & H)]; [| discriminate].
    apply div_inl in H. apply H. }
  apply bind_inl in H as [H | (ctc & Hc & H)].
  { apply mapM_inl in H as (i & Hin & H). apply in_seq in Hin.
    unfold close_to_close_at in H.
    rewrite (getitem_lt price_close_adj i 0%F) in H by lia.
    rewrite (getitem_lt price_close_adj (i - 1) 0%F) in H by lia. cbn [bind] in H.
    apply bind_inl in H as [H | (q & _ & H)]; [| discriminate].
    apply div_inl in H. apply H. }
  apply bind_inl in H as [H | (tail & _ & H)]; [| discriminate].
  apply mapM_inl in H as (i & Hin & H). apply in_seq in Hin.
  pose proof (mapM_length _ _ _ Hi) as Li. pose proof (mapM_length _ _ _ Hc) as Lctc.
  rewrite length_seq in Li, Lctc.
  unfold overnight_at in H.
  rewrite (getitem_lt dates_datetime i 0%Z) in H by lia.
  rewrite (getitem_lt dates_datetime (i - 1) 0%Z) in H by lia. cbn [bind] in H.
  destruct (nth i dates_datetime 0 - nth (i - 1) dates_datetime 0 <? timedelta_days 14)%Z;
    [| discriminate].
  rewrite (getitem_lt _ i 0%F) in H by (cbn [length]; lia).
  rewrite (getitem_lt intra i 0%F) in H by lia. cbn [bind] in H.
  apply bind_inl in H as [H | (q & _ & H)]; [| discriminate].
  apply div_inl in H. apply H.
Qed.

Lemma compute_returns_only_ZeroDivisionError_witness :
  compute_returns_overnight_intraday
    [of_Z 10; 0%F] [of_Z 11; of_Z 12] [of_Z 11; of_Z 12] [jan 3; jan 6]
  = inl ZeroDivisionError
  /\ ZeroDivisionError = ZeroDivisionError.
Proof.
  split; [vm_compute; reflexivity |].
  apply (compute_returns_only_ZeroDivisionError
           [of_Z 10; 0%F] [of_Z 11; of_Z 12] [of_Z 11; of_Z 12] [jan 3; jan 6]);
    vm_compute; reflexivity.
Defined.

(** With a zero close and an open that is a number other than zero,
    [close / open - 1] is [-1.0] and [1 + intraday] is [0.0]. *)
Lemma zero_close_intraday (o c : binary64) :
  is_zero c = true -> is_zero o = false -> is_nan o = false ->
  is_zero (1 + (c / o - 1))%F = true.
Proof.
  destruct c as [sc | | |]; try discriminate.
  destruct o as [so | so | | so mo eo]; try discriminate; intros _ _ _;
    destruct sc, so; reflexivity.
Qed.

(** A zero close at an index [k >= 1] less than 14 days after its
    predecessor makes [1 + intraday[k]] zero, and the function raises. *)
Theorem compute_returns_zero_close (price_open price_close price_close_adj : list binary64)
    (dates_datetime : list datetime) (k : nat) :
  length price_open = length dates_datetime ->
  length price_close = length dates_datetime ->
  length price_close_adj = length dates_datetime ->
  (forall i, i < length dates_datetime -> is_zero (nth i price_open 0%F) = false) ->
  (forall i, 1 <= i < length dates_datetime ->
     is_zero (nth (i - 1) price_close_adj 0%F) = false) ->
  1 <= k < length dates_datetime ->
  (gap_of dates_datetime k < timedelta_days 14)%Z ->
  is_nan (nth k price_open 0%F) = false ->
  is_zero (nth k price_close 0%F) = true ->
  is_zero (1 + intraday_of price_open price_close k)%F = true
  /\ compute_returns_overnight_intraday price_open price_close price_close_adj
       dates_datetime
     = inl ZeroDivisionError.
Proof.
  intros Lo Lc La Ho Ha Hk Hgap Hnum Hzero.
  assert (Z0 : is_zero (1 + intraday_of price_open price_close k)%F = true).
  { unfold intraday_of. apply zero_close_intraday; [exact Hzero | apply Ho; lia | exact Hnum]. }
  split; [exact Z0 |].
  apply (compute_returns_raises price_open price_close price_close_adj dates_datetime k);
    try assumption.
  split; [exact Hk |]. split; [exact Hgap | exact Z0].
Qed.

Lemma compute_returns_zero_close_witness :
  is_zero (1 + intraday_of [of_Z 10; of_Z 10] [of_decimal false 105 (-1); 0%F] 1)%F = true
  /\ compute_returns_overnight_intraday
       [of_Z 10; of_Z 10] [of_decimal false 105 (-1); 0%F]
       [of_decimal false 105 (-1); of_Z 5] [jan 2; jan 3]
     = inl ZeroDivisionError.
Proof.
  apply (compute_returns_zero_close
           [of_Z 10; of_Z 10] [of_decimal false 105 (-1); 0%F]
           [of_decimal false 105 (-1); of_Z 5] [jan 2; jan 3] 1).
  - reflexivity.
  - reflexivity.
  - reflexivity.
  - intros i Hi. simpl in Hi.
    destruct i as [| [| i]]; try lia; reflexivity.
  - intros i Hi. simpl in Hi.
    destruct i as [| [| i]]; try lia; reflexivity.
  - simpl. lia.
  - vm_compute. reflexivity.
  - reflexivity.
  - reflexivity.
Defined.

(** ** From the price file to the plot data *)

Section PlotDataExtras.

Variable float : string -> option binary64.
Variable int : string -> option Z.
Variable strftime : datetime -> string -> option string.

(** The assertions of the [PlotData] constructor cannot fail inside
    [get_plot_data]: once the cleaner and the decomposition have returned,
    [get_plot_data] returns [None] for an empty series and otherwise the
    [PlotData] holding the dates and the two return lists. *)
Theorem get_plot_data_constructs (data : list string) (s : symbol_details)
    (start_date : option datetime) (po pc pa : list binary64) (dd : list datetime)
    (overnight intraday : list binary64) :
  get_prices_open_close_adj_dates float int strftime data
    (match start_date with Some d => Some d | None => sd_start_date s end)
    (sd_end_date s) (sd_bad_data_dates s) = inr (po, pc, pa, dd) ->
  compute_returns_overnight_intraday po pc pa dd = inr (overnight, intraday) ->
  get_plot_data float int strftime data s start_date
  = inr (match dd with
         | [] => None
         | _ :: _ => Some {| _dates_datetime := dd;
                             _returns_overnight := overnight;
                             _returns_intraday := intraday |}
         end).
Proof.
  intros Hclean Hdec. unfold get_plot_data. rewrite Hclean. cbn [bind].
  rewrite Hdec. cbn [bind fst snd].
  destruct dd as [| d0 dd'] eqn:Edd; [reflexivity |]. rewrite <- Edd in *.
  apply compute_returns_inv in Hdec as (Lo & Li & H0 & _).
  assert (Hpos : 0 < length dd) by (rewrite Edd; simpl; lia).
  specialize (H0 Hpos). unfold PlotData_init.
  rewrite Lo, Li, !Nat.eqb_refl. cbn [andb assert_ bind ret].
  unfold getitem. rewrite H0. reflexivity.
Qed.

End PlotDataExtras.

Lemma get_plot_data_constructs_witness :
  get_plot_data py_float py_int py_strftime
    [HEADER; "2020-01-02,10,10,10,10,10,5"; "2020-01-03,10,11,9,11,11,5";
     "2020-01-06,11,12,11,12,12,5"]
    {| sd_start_date := None; sd_end_date := None; sd_bad_data_dates := [] |} None
  = inr (Some {| _dates_datetime := [jan 3; jan 6];
                 _returns_overnight :=
                   [0%F; ((1 + (of_Z 12 / of_Z 11 - 1)) / (1 + (of_Z 12 / of_Z 11 - 1)) - 1)%F];
                 _returns_intraday :=
                   [(of_Z 11 / of_Z 10 - 1)%F; (of_Z 12 / of_Z 11 - 1)%F] |}).
Proof.
  apply (get_plot_data_constructs py_float py_int py_strftime
           [HEADER; "2020-01-02,10,10,10,10,10,5"; "2020-01-03,10,11,9,11,11,5";
            "2020-01-06,11,12,11,12,12,5"]
           {| sd_start_date := None; sd_end_date := None; sd_bad_data_dates := [] |} None
           [of_Z 10; of_Z 11] [of_Z 11; of_Z 12] [of_Z 11; of_Z 12] [jan 3; jan 6]).
  - vm_compute. reflexivity.
  - vm_compute. reflexivity.
Defined.

(** Witnesses of the cleaner's properties, on concrete price files. *)

Lemma clean_returns_aligned_positive_witness :
  length [of_Z 10; of_Z 11] = length [jan 3; jan 6]
  /\ length [of_Z 11; of_Z 12] = length [jan 3; jan 6]
  /\ length [of_Z 11; of_Z 12] = length [jan 3; jan 6]
  /\ Forall (fun p => (0 <? p)%F = true) [of_Z 10; of_Z 11]
  /\ Forall (fun p => (0 <? p)%F = true) [of_Z 11; of_Z 12].
Proof.
  apply (clean_returns_aligned_positive py_float py_int py_strftime
           [HEADER; "2020-01-02,10,10,10,10,10,5"; "2020-01-03,10,11,9,11,11,5";
            "2020-01-06,11,12,11,12,12,5"]
           None None [] _ [of_Z 11; of_Z 12]).
  vm_compute. reflexivity.
Defined.

Lemma clean_dates_within_end_witness :
  Forall (fun d => (d <= or_default (Some (jan 3)) DEFAULT_END_DATE)%Z) [jan 3].
Proof.
  apply (clean_dates_within_end py_float py_int py_strftime
           [HEADER; "2020-01-02,10,10,10,10,10,5"; "2020-01-03,10,11,9,11,11,5";
            "2020-01-06,11,12,11,12,12,5"]
           None (Some (jan 3)) [] [of_Z 10] [of_Z 11] [of_Z 11]).
  vm_compute. reflexivity.
Defined.

Lemma clean_exclusion_is_deletion_witness :
  get_prices_open_close_adj_dates py_float py_int py_strftime
    (HEADER :: ["2020-01-02,10,11,9,10.5,10.5,5"; "2020-01-03,10,11,9,11,11,5";
                "2020-01-06,11,12,11,12,12,5"])
    None None [jan 3]
  = get_prices_open_close_adj_dates py_float py_int py_strftime
      (HEADER :: filter (fun d => negb (mem (date_text d) ["2020-01-03"]))
                   ["2020-01-02,10,11,9,10.5,10.5,5"; "2020-01-03,10,11,9,11,11,5";
                    "2020-01-06,11,12,11,12,12,5"])
      None None [].
Proof.
  apply (clean_exclusion_is_deletion py_float py_int py_strftime).
  vm_compute. reflexivity.
Defined.

Lemma clean_no_first_row_raises_witness :
  clean_py [HEADER; "2020-01-02,10,11,9,10,10,5"; "2020-01-03,12,13,11,12,12,5"]
    None None [] = inl ValueError.
Proof.
  apply (clean_no_first_row_raises py_float py_int py_strftime
           [HEADER; "2020-01-02,10,11,9,10,10,5"; "2020-01-03,12,13,11,12,12,5"]
           None None []
           [["2020-01-02"; "10"; "11"; "9"; "10"; "10"; "5"];
            ["2020-01-03"; "12"; "13"; "11"; "12"; "12"; "5"]]
           [of_Z 10; of_Z 12] [of_Z 10; of_Z 12] [of_Z 10; of_Z 12] [jan 2; jan 3]).
  - vm_compute. reflexivity.
  - vm_compute. reflexivity.
  - left. repeat constructor.
Defined.

(** ** Compounding, continued *)

Lemma cumulate_from_firstn (returns : list binary64) (r0 : binary64) (n : nat) :
  cumulate_from r0 (firstn n returns) = firstn n (cumulate_from r0 returns).
Proof.
  revert r0 n; induction returns as [| r1 rest IH]; intros r0 n.
  - destruct n; reflexivity.
  - destruct n as [| n]; [reflexivity |]. cbn [firstn cumulate_from].
    f_equal. apply IH.
Qed.

(** The curve up to a day does not depend on later returns: cumulating
    the first [n] returns gives the first [n] points of the whole curve. *)
Theorem cumulate_returns_prefix (returns : list binary64) (n : nat) :
  cumulate_returns (firstn n returns) = firstn n (cumulate_returns returns).
Proof.
  apply cumulate_from_firstn.
Qed.

(** ** Clipping and the histogram *)

Lemma clip_bounds (x lo hi : binary64) :
  is_nan x = false -> (lo <=? hi)%F = true ->
  (lo <=? clip x lo hi)%F = true /\ (clip x lo hi <=? hi)%F = true.
Proof.
  intros Nx H. destruct (fle_not_nan lo hi H) as [Nlo Nhi]. unfold clip.
  destruct (x <? lo)%F eqn:E1; [split; [apply fle_refl; exact Nlo | exact H] |].
  destruct (hi <? x)%F eqn:E2; [split; [exact H | apply fle_refl; exact Nhi] |].
  split; apply flt_false_fle; assumption.
Qed.

(** With [lo <= hi] the clipped value of a number lies in [[lo, hi]], and
    a value already there is returned as it is. *)
Theorem clip_within (x lo hi : binary64) :
  is_nan x = false ->
  (lo <=? hi)%F = true ->
  ((lo <=? clip x lo hi)%F = true /\ (clip x lo hi <=? hi)%F = true)
  /\ ((lo <=? x)%F = true -> (x <=? hi)%F = true -> clip x lo hi = x).
Proof.
  intros Nx H. split; [apply clip_bounds; assumption |].
  intros L U. unfold clip.
  rewrite (fle_flt_false lo x L), (fle_flt_false x hi U). reflexivity.
Qed.

Lemma clip_within_witness :
  ((- of_decimal false 293 (-2) <=? clip (of_Z 5) (- of_decimal false 293 (-2))
                                       (of_decimal false 293 (-2)))%F = true
   /\ (clip (of_Z 5) (- of_decimal false 293 (-2)) (of_decimal false 293 (-2))
       <=? of_decimal false 293 (-2))%F = true)
  /\ ((- of_decimal false 293 (-2) <=? of_Z 5)%F = true ->
      (of_Z 5 <=? of_decimal false 293 (-2))%F = true ->
      clip (of_Z 5) (- of_decimal false 293 (-2)) (of_decimal false 293 (-2)) = of_Z 5).
Proof.
  apply (clip_within (of_Z 5) (- of_decimal false 293 (-2)) (of_decimal false 293 (-2)));
    reflexivity.
Defined.

Lemma histogram_returns_inv (self : PlotData) (h1 h2 : hist_call) :
  histogram_returns self = inr (h1, h2) ->
  hist_x h1
  = map (fun r1 => clip (r1 * of_decimal false 1 2)
                        (- (of_Z 3 - of_decimal false 7 (-2)))
                        (of_Z 3 - of_decimal false 7 (-2)))%F
        (skipn 1 (_returns_overnight self))
  /\ hist_x h2
     = map (fun r1 => clip (r1 * of_decimal false 1 2)
                           (- (of_Z 3 - of_decimal false 7 (-2)))
                           (of_Z 3 - of_decimal false 7 (-2)))%F
           (_returns_intraday self)
  /\ hist_range h1 = ((-3)%Z, 3%Z)
  /\ hist_range h2 = ((-3)%Z, 3%Z)
  /\ length (_returns_overnight self) = length (_returns_intraday self)
  /\ 0 < length (_returns_overnight self).
Proof.
  unfold histogram_returns. intros H.
  apply bind_inr in H as (u & Hlen & H). apply assert_inr in Hlen.
  apply Nat.eqb_eq in Hlen.
  apply bind_inr in H as (r0 & H0 & H). apply getitem_inr in H0.
  apply bind_inr in H as (u' & _ & H). injection H as <- <-. cbn [hist_x hist_range].
  repeat split; try assumption.
  apply nth_error_Some. congruence.
Qed.

(** A return in percent, clipped: strictly between [-3] and [3]. *)
Lemma clipped_percent_in_range (r1 : binary64) :
  is_nan r1 = false ->
  (of_Z (-3) <? clip (r1 * of_decimal false 1 2)
                     (- (of_Z 3 - of_decimal false 7 (-2)))
                     (of_Z 3 - of_decimal false 7 (-2)))%F = true
  /\ (clip (r1 * of_decimal false 1 2)
           (- (of_Z 3 - of_decimal false 7 (-2)))
           (of_Z 3 - of_decimal false 7 (-2)) <? of_Z 3)%F = true.
Proof.
  intros N.
  destruct (clip_bounds (r1 * of_decimal false 1 2)
              (- (of_Z 3 - of_decimal false 7 (-2)))
              (of_Z 3 - of_decimal false 7 (-2)))%F as [L U].
  - apply fmul_not_nan; [exact N | reflexivity | reflexivity].
  - reflexivity.
  - split.
    + eapply flt_fle_trans; [| exact L]. reflexivity.
    + eapply fle_flt_trans; [exact U |]. reflexivity.
Qed.

Lemma Forall_skipn {A : Type} (P : A -> Prop) (n : nat) (l : list A) :
  Forall P l -> Forall P (skipn n l).
Proof.
  intros H. rewrite <- (firstn_skipn n l) in H. apply Forall_app in H. apply H.
Qed.

(** Every value handed to [hist] lies strictly inside the range of the
    histogram: a return beyond 2.93% either way is moved to 2.93%, into
    an outer bin, and none is left out.  The overnight call gets one
    value per day but the first, the intraday call one per day. *)
Theorem histogram_returns_in_range (self : PlotData) (h1 h2 : hist_call) :
  Forall (fun r => is_nan r = false) (_returns_overnight self) ->
  Forall (fun r => is_nan r = false) (_returns_intraday self) ->
  histogram_returns self = inr (h1, h2) ->
  Forall (fun x => (of_Z (fst (hist_range h1)) <? x)%F = true
                   /\ (x <? of_Z (snd (hist_range h1)))%F = true) (hist_x h1)
  /\ Forall (fun x => (of_Z (fst (hist_range h2)) <? x)%F = true
                      /\ (x <? of_Z (snd (hist_range h2)))%F = true) (hist_x h2)
  /\ S (length (hist_x h1)) = length (_returns_overnight self)
  /\ length (hist_x h2) = length (_returns_intraday self).
Proof.
  intros Nov Nin H. apply histogram_returns_inv in H as (X1 & X2 & R1 & R2 & Hlen & Hpos).
  rewrite X1, X2, R1, R2. cbn [fst snd].
  repeat split.
  - apply Forall_map. eapply Forall_impl; [| apply Forall_skipn; exact Nov].
    intros r1 N. apply clipped_percent_in_range. exact N.
  - apply Forall_map. eapply Forall_impl; [| exact Nin].
    intros r1 N. apply clipped_percent_in_range. exact N.
  - rewrite length_map, length_skipn. lia.
  - rewrite length_map. reflexivity.
Qed.

Lemma histogram_returns_in_range_witness :
  Forall (fun x => (of_Z (-3) <? x)%F = true /\ (x <? of_Z 3)%F = true)
    [(of_decimal false 1 (-2) * of_decimal false 1 2)%F;
     (of_decimal true 2 (-2) * of_decimal false 1 2)%F]
  /\ Forall (fun x => (of_Z (-3) <? x)%F = true /\ (x <? of_Z 3)%F = true)
       [(of_decimal false 2 (-2) * of_decimal false 1 2)%F;
        (of_decimal true 1 (-2) * of_decimal false 1 2)%F;
        (of_Z 3 - of_decimal false 7 (-2))%F]
  /\ S (length [(of_decimal false 1 (-2) * of_decimal false 1 2)%F;
                (of_decimal true 2 (-2) * of_decimal false 1 2)%F])
     = length [0%F; of_decimal false 1 (-2); of_decimal true 2 (-2)]
  /\ length [(of_decimal false 2 (-2) * of_decimal false 1 2)%F;
             (of_decimal true 1 (-2) * of_decimal false 1 2)%F;
             (of_Z 3 - of_decimal false 7 (-2))%F]
     = length [of_decimal false 2 (-2); of_decimal true 1 (-2); of_decimal false 5 (-2)].
Proof.
  apply (histogram_returns_in_range
           {| _dates_datetime := [jan 2; jan 3; jan 6];
              _returns_overnight := [0%F; of_decimal false 1 (-2); of_decimal true 2 (-2)];
              _returns_intraday :=
                [of_decimal false 2 (-2); of_decimal true 1 (-2); of_decimal false 5 (-2)] |}
           {| hist_x := [(of_decimal false 1 (-2) * of_decimal false 1 2)%F;
                         (of_decimal true 2 (-2) * of_decimal false 1 2)%F];
              hist_bins := 60;
              hist_range := ((-3)%Z, 3%Z) |}
           {| hist_x := [(of_decimal false 2 (-2) * of_decimal false 1 2)%F;
                         (of_decimal true 1 (-2) * of_decimal false 1 2)%F;
                         (of_Z 3 - of_decimal false 7 (-2))%F];
              hist_bins := 60;
              hist_range := ((-3)%Z, 3%Z) |}).
  - repeat constructor.
  - repeat constructor.
  - vm_compute. reflexivity.
Defined.

(** ** The curves of [plot_data] *)

Lemma PlotData_init_inv (dd : list datetime) (ov intra : list binary64) (p : PlotData) :
  PlotData_init dd ov intra = inr p ->
  p = {| _dates_datetime := dd; _returns_overnight := ov; _returns_intraday := intra |}
  /\ length dd = length ov /\ length ov = length intra
  /\ exists r ov', ov = r :: ov' /\ is_zero r = true.
Proof.
  unfold PlotData_init. intros H.
  apply bind_inr in H as (u & Hlen & H). apply assert_inr in Hlen.
  apply andb_true_iff in Hlen as [L1 L2]. apply Nat.eqb_eq in L1, L2.
  apply bind_inr in H as (r & Hr & H). apply getitem_inr in Hr.
  apply bind_inr in H as (u' & Hz & H). apply assert_inr in Hz.
  apply feq_zero in Hz. injection H as <-.
  repeat split; try assumption.
  destruct ov as [| r' ov']; [discriminate |]. injection Hr as ->.
  exists r, ov'. split; [reflexivity | exact Hz].
Qed.

Lemma mem_LINEAR_SCALES (ls : string) :
  mem ls LINEAR_SCALES = true ->
  ls = "percent" \/ ls = "fraction_of_unity" \/ ls = "currency".
Proof.
  unfold mem, LINEAR_SCALES. cbn [existsb]. intros H.
  apply orb_true_iff in H as [H | H]; [left; apply String.eqb_eq; exact H |].
  apply orb_true_iff in H as [H | H]; [right; left; apply String.eqb_eq; exact H |].
  apply orb_true_iff in H as [H | H]; [right; right; apply String.eqb_eq; exact H |].
  discriminate.
Qed.

(** The first cumulated value of a list that starts with a zero. *)
Lemma cumulate_returns_zero_head (r : binary64) (rest : list binary64) :
  is_zero r = true ->
  exists tl, cumulate_returns (r :: rest) = 0%F :: tl.
Proof.
  intros H. unfold cumulate_returns. cbn [cumulate_from].
  rewrite (one_plus_zero r H). eexists. reflexivity.
Qed.

(** The curves of a constructed [PlotData] under a presentation [f] that
    the two dicts select. *)
Lemma plot_data_curves (dd : list datetime) (ov intra : list binary64) (p : PlotData)
    (v ls choice : string) (f : binary64 -> binary64) :
  PlotData_init dd ov intra = inr p ->
  mem v ["linear"; "log"] = true ->
  (if (v =? "linear")%string then mem ls LINEAR_SCALES else true) = true ->
  dict_getitem [("linear", ls); ("log", "log")] v = inr choice ->
  dict_getitem r_funcs choice = inr f ->
  (f 0 =? f 0)%F = true ->
  plot_data p v ls = inr (map f (cumulate_returns ov), map f (cumulate_returns intra)).
Proof.
  intros Hp Hv Hls Hchoice Hf Hf0.
  apply PlotData_init_inv in Hp as (-> & _ & _ & r & ov' & -> & Hr).
  unfold plot_data. cbn [_returns_overnight _returns_intraday].
  rewrite Hv. cbn [assert_ lift ret obind].
  assert (Hguard : (if (v =? "linear")%string
                    then lift (assert_ (mem ls LINEAR_SCALES) (Message ls))
                    else inr tt) = inr tt).
  { destruct (v =? "linear")%string; [rewrite Hls |]; reflexivity. }
  rewrite Hguard. cbn [obind]. rewrite Hchoice. cbn [obind]. rewrite Hf. cbn [obind].
  destruct (cumulate_returns_zero_head r ov' Hr) as [tl ->].
  cbn [map getitem nth_error of_option lift ret obind].
  rewrite Hf0. reflexivity.
Qed.

(** The four presentations show the same two curves: the cumulated
    returns as they are, times 100, or plus 1; and the logarithmic
    presentation is the currency one whatever [linear_scale] is. *)
Theorem plot_data_presentations (dd : list datetime) (ov intra : list binary64)
    (p : PlotData) :
  PlotData_init dd ov intra = inr p ->
  plot_data p "linear" "fraction_of_unity"
  = inr (map (fun r1 => r1) (cumulate_returns ov),
         map (fun r1 => r1) (cumulate_returns intra))
  /\ plot_data p "linear" "percent"
     = inr (map (fun r1 => (r1 * of_Z 100)%F) (cumulate_returns ov),
            map (fun r1 => (r1 * of_Z 100)%F) (cumulate_returns intra))
  /\ plot_data p "linear" "currency"
     = inr (map (fun r1 => (r1 + 1)%F) (cumulate_returns ov),
            map (fun r1 => (r1 + 1)%F) (cumulate_returns intra))
  /\ forall linear_scale,
       plot_data p "log" linear_scale
       = inr (map (fun r1 => (r1 + 1)%F) (cumulate_returns ov),
              map (fun r1 => (r1 + 1)%F) (cumulate_returns intra)).
Proof.
  intros Hp. repeat split; [| | | intros linear_scale].
  - apply (plot_data_curves dd ov intra p _ _ "fraction_of_unity"); try reflexivity.
    exact Hp.
  - apply (plot_data_curves dd ov intra p _ _ "percent"); try reflexivity. exact Hp.
  - apply (plot_data_curves dd ov intra p _ _ "currency"); try reflexivity. exact Hp.
  - apply (plot_data_curves dd ov intra p _ _ "log"); try reflexivity. exact Hp.
Qed.

Lemma plot_data_presentations_witness :
  plot_data {| _dates_datetime := [jan 2; jan 3];
               _returns_overnight := [0%F; of_decimal false 1 (-2)];
               _returns_intraday := [of_decimal false 2 (-2); of_decimal true 1 (-2)] |}
    "linear" "percent"
  = inr (map (fun r1 => (r1 * of_Z 100)%F)
             (cumulate_returns [0%F; of_decimal false 1 (-2)]),
         map (fun r1 => (r1 * of_Z 100)%F)
             (cumulate_returns [of_decimal false 2 (-2); of_decimal true 1 (-2)])).
Proof.
  apply (proj1 (proj2 (plot_data_presentations
                         [jan 2; jan 3] [0%F; of_decimal false 1 (-2)]
                         [of_decimal false 2 (-2); of_decimal true 1 (-2)] _ eq_refl))).
Defined.

(** A curve drawn on a linear scale starts where the left tick is put:
    for a constructed [PlotData] and a valid linear scale, [plot_data]
    returns two curves with one point per day, and the first point of the
    overnight curve is [linear_scale_start_value(linear_scale)]. *)
Theorem plot_data_starts_at_start_value (dd : list datetime) (ov intra : list binary64)
    (p : PlotData) (linear_scale : string) :
  PlotData_init dd ov intra = inr p ->
  mem linear_scale LINEAR_SCALES = true ->
  exists overnight_curve intraday_curve v c0,
    plot_data p "linear" linear_scale = inr (overnight_curve, intraday_curve)
    /\ length overnight_curve = n_days p
    /\ length intraday_curve = n_days p
    /\ linear_scale_start_value linear_scale = inr v
    /\ nth_error overnight_curve 0 = Some c0
    /\ (c0 =? v)%F = true.
Proof.
  intros Hp Hls.
  pose proof (PlotData_init_inv _ _ _ _ Hp) as (Ep & L1 & L2 & r & ov' & Eov & Hr).
  assert (Hcurves : forall choice f,
            dict_getitem [("linear", linear_scale); ("log", "log")] "linear" = inr choice ->
            dict_getitem r_funcs choice = inr f ->
            (f 0 =? f 0)%F = true ->
            plot_data p "linear" linear_scale
            = inr (map f (cumulate_returns ov), map f (cumulate_returns intra))).
  { intros choice f Hc Hf Hf0.
    apply (plot_data_curves dd ov intra p "linear" linear_scale choice f);
      try assumption; reflexivity. }
  assert (Hn : n_days p = length dd) by (rewrite Ep; reflexivity).
  destruct (cumulate_returns_zero_head r ov' Hr) as [tl Etl]. rewrite <- Eov in Etl.
  unfold linear_scale_start_value. rewrite Hls. cbn [assert_ lift ret obind].
  destruct (mem_LINEAR_SCALES _ Hls) as [-> | [-> | ->]].
  - exists (map (fun r1 => (r1 * of_Z 100)%F) (cumulate_returns ov)),
           (map (fun r1 => (r1 * of_Z 100)%F) (cumulate_returns intra)),
           0%F, (0 * of_Z 100)%F.
    split; [apply (Hcurves "percent"); reflexivity |].
    rewrite !length_map, Etl.
    split; [rewrite <- Etl; unfold cumulate_returns; rewrite cumulate_from_length; lia |].
    split; [unfold cumulate_returns; rewrite cumulate_from_length; lia |].
    split; [reflexivity |]. split; reflexivity.
  - exists (map (fun r1 => r1) (cumulate_returns ov)),
           (map (fun r1 => r1) (cumulate_returns intra)),
           0%F, 0%F.
    split; [apply (Hcurves "fraction_of_unity"); reflexivity |].
    rewrite !length_map, Etl.
    split; [rewrite <- Etl; unfold cumulate_returns; rewrite cumulate_from_length; lia |].
    split; [unfold cumulate_returns; rewrite cumulate_from_length; lia |].
    split; [reflexivity |]. split; reflexivity.
  - exists (map (fun r1 => (r1 + 1)%F) (cumulate_returns ov)),
           (map (fun r1 => (r1 + 1)%F) (cumulate_returns intra)),
           1%F, (0 + 1)%F.
    split; [apply (Hcurves "currency"); reflexivity |].
    rewrite !length_map, Etl.
    split; [rewrite <- Etl; unfold cumulate_returns; rewrite cumulate_from_length; lia |].
    split; [unfold cumulate_returns; rewrite cumulate_from_length; lia |].
    split; [reflexivity |]. split; reflexivity.
Qed.

Lemma plot_data_starts_at_start_value_witness :
  exists overnight_curve intraday_curve v c0,
    plot_data {| _dates_datetime := [jan 2; jan 3];
                 _returns_overnight := [0%F; of_decimal false 1 (-2)];
                 _returns_intraday := [of_decimal false 2 (-2); of_decimal true 1 (-2)] |}
      "linear" "currency" = inr (overnight_curve, intraday_curve)
    /\ length overnight_curve = 2
    /\ length intraday_curve = 2
    /\ linear_scale_start_value "currency" = inr v
    /\ nth_error overnight_curve 0 = Some c0
    /\ (c0 =? v)%F = true.
Proof.
  apply (plot_data_starts_at_start_value
           [jan 2; jan 3] [0%F; of_decimal false 1 (-2)]
           [of_decimal false 2 (-2); of_decimal true 1 (-2)] _ "currency" eq_refl eq_refl).
Defined.

Lemma obind_inr {A B : Type} (c : outcome A) (k : A -> outcome B) (b : B) :
  obind c k = inr b -> exists a, c = inr a /\ k a = inr b.
Proof.
  destruct c as [e | a]; simpl; intros H; [discriminate | eauto].
Qed.

Lemma lift_inr {A : Type} (c : result A) (a : A) : lift c = inr a -> c = inr a.
Proof.
  destruct c; simpl; intros H; [discriminate | congruence].
Qed.

Lemma no_KeyError_lift {A : Type} (c : result A) : no_KeyError (lift c).
Proof.
  intros key. destruct c; discriminate.
Qed.

Lemma no_KeyError_obind {A B : Type} (c : outcome A) (k : A -> outcome B) :
  no_KeyError c -> (forall a, c = inr a -> no_KeyError (k a)) -> no_KeyError (obind c k).
Proof.
  intros Hc Hk key H. destruct c as [e | a]; simpl in H.
  - apply (Hc key). congruence.
  - exact (Hk a eq_refl key H).
Qed.

Lemma no_KeyError_inr {A : Type} (a : A) : no_KeyError (inr a : outcome A).
Proof.
  intros key. discriminate.
Qed.

Lemma assert_mem_LINEAR_SCALES (ls : string) (u : unit) :
  lift (assert_ (mem ls LINEAR_SCALES) (Message ls)) = inr u ->
  ls = "percent" \/ ls = "fraction_of_unity" \/ ls = "currency".
Proof.
  intros H. apply lift_inr in H. apply assert_inr in H.
  apply mem_LINEAR_SCALES. exact H.
Qed.

Lemma no_KeyError_linear_scale_start_value (ls : string) :
  no_KeyError (linear_scale_start_value ls).
Proof.
  unfold linear_scale_start_value.
  apply no_KeyError_obind; [apply no_KeyError_lift |].
  intros u Hu. destruct (assert_mem_LINEAR_SCALES _ _ Hu) as [-> | [-> | ->]];
    apply no_KeyError_inr.
Qed.

Lemma no_KeyError_plot_data (p : PlotData) (v ls : string) :
  no_KeyError (plot_data p v ls).
Proof.
  unfold plot_data.
  apply no_KeyError_obind; [apply no_KeyError_lift |]. intros u Hu.
  apply lift_inr in Hu. apply assert_inr in Hu.
  unfold mem in Hu. cbn [existsb] in Hu.
  assert (Tail : forall f : binary64 -> binary64,
            no_KeyError
              (c0 <~ lift (getitem (map f (cumulate_returns (_returns_overnight p))) 0) ;;
               _ <~ lift (assert_ (c0 =? f 0)%F NoMessage) ;;
               inr (map f (cumulate_returns (_returns_overnight p)),
                    map f (cumulate_returns (_returns_intraday p))))).
  { intros f. apply no_KeyError_obind; [apply no_KeyError_lift |]. intros c0 _.
    apply no_KeyError_obind; [apply no_KeyError_lift |]. intros u' _.
    apply no_KeyError_inr. }
  apply orb_true_iff in Hu as [Hu | Hu].
  - apply String.eqb_eq in Hu. subst v. cbn [String.eqb Ascii.eqb Bool.eqb andb].
    apply no_KeyError_obind; [apply no_KeyError_lift |]. intros u' Hu'.
    destruct (assert_mem_LINEAR_SCALES _ _ Hu') as [-> | [-> | ->]]; apply Tail.
  - apply orb_true_iff in Hu as [Hu | Hu]; [| discriminate].
    apply String.eqb_eq in Hu. subst v. apply Tail.
Qed.

(** No subscript on a dict can fail in [linear_scale_start_value] or in
    [plot_data]: neither ever raises [KeyError]; an unknown scale is
    stopped by an assertion before. *)
Theorem scales_never_KeyError (p : PlotData) (v ls key : string) :
  linear_scale_start_value ls <> inl (KeyError key)
  /\ plot_data p v ls <> inl (KeyError key).
Proof.
  split; [apply no_KeyError_linear_scale_start_value | apply no_KeyError_plot_data].
Qed.

(** ** Symbols and company names *)

Lemma str_append_nil (s : string) : (s ++ "")%string = s.
Proof.
  induction s as [| c s IH]; simpl; [reflexivity | rewrite IH; reflexivity].
Qed.

Lemma str_append_assoc (a b c : string) : ((a ++ b) ++ c)%string = (a ++ (b ++ c))%string.
Proof.
  induction a as [| x a IH]; simpl; [reflexivity | rewrite IH; reflexivity].
Qed.

Lemma str_split_lacks (sep : ascii) (a : string) :
  lacks sep a = true -> str_split sep a = [a].
Proof.
  induction a as [| c a IH]; simpl; intros H; [reflexivity |].
  apply andb_true_iff in H as [Hc Ha]. apply negb_true_iff in Hc.
  rewrite Hc, (IH Ha). reflexivity.
Qed.

Lemma str_split_app (sep : ascii) (a rest : string) :
  lacks sep a = true ->
  str_split sep (a ++ String sep rest) = a :: str_split sep rest.
Proof.
  induction a as [| c a IH]; simpl; intros H.
  - rewrite Ascii.eqb_refl. reflexivity.
  - apply andb_true_iff in H as [Hc Ha]. apply negb_true_iff in Hc.
    rewrite Hc, (IH Ha). reflexivity.
Qed.

(** A symbol without a dot trades in dollars; a symbol [a.e] is looked up
    by its suffix [e], and has no currency text when the suffix is not in
    the table.  No symbol makes the function raise. *)
Theorem sym_to_currency_tex_by_suffix (a : string) :
  lacks "." a = true ->
  sym_to_currency_tex a = inr (Some "$")
  /\ forall e, lacks "." e = true ->
       sym_to_currency_tex (a ++ String "." e) = inr (dict_get CURRENCY_TEX e).
Proof.
  intros Ha. unfold sym_to_currency_tex. split.
  - rewrite (str_split_lacks _ _ Ha). reflexivity.
  - intros e He. rewrite (str_split_app _ _ _ Ha), (str_split_lacks _ _ He).
    reflexivity.
Qed.

Lemma sym_to_currency_tex_by_suffix_witness :
  sym_to_currency_tex "3333" = inr (Some "$")
  /\ forall e, lacks "." e = true ->
       sym_to_currency_tex ("3333" ++ String "." e) = inr (dict_get CURRENCY_TEX e).
Proof.
  apply (sym_to_currency_tex_by_suffix "3333"). reflexivity.
Defined.

Lemma words_aux_invariant (s : string) :
  no_space (fst (words_aux s)) = true /\ Forall is_word (snd (words_aux s)).
Proof.
  induction s as [| c s [IHw IHws]]; simpl; [split; [reflexivity | constructor] |].
  destruct (words_aux s) as [w ws]. cbn [fst snd] in *.
  destruct (is_space c) eqn:E; cbn [fst snd].
  - split; [reflexivity |].
    destruct w as [| c' w']; [exact IHws |].
    constructor; [split; [discriminate | exact IHw] | exact IHws].
  - split; [cbn [no_space]; rewrite E, IHw; reflexivity | exact IHws].
Qed.

Lemma str_words_are_words (s : string) : Forall is_word (str_words s).
Proof.
  unfold str_words. destruct (words_aux_invariant s) as [Hw Hws].
  destruct (words_aux s) as [w ws]. cbn [fst snd] in *.
  destruct w as [| c w]; [exact Hws |].
  constructor; [split; [discriminate | exact Hw] | exact Hws].
Qed.

Lemma words_aux_app (a s : string) :
  no_space a = true ->
  words_aux (a ++ s) = ((a ++ fst (words_aux s))%string, snd (words_aux s)).
Proof.
  induction a as [| c a IH]; simpl; intros H; [destruct (words_aux s); reflexivity |].
  apply andb_true_iff in H as [Hc Ha]. apply negb_true_iff in Hc.
  rewrite (IH Ha), Hc. reflexivity.
Qed.

Lemma str_words_space (c : ascii) (s : string) :
  is_space c = true -> str_words (String c s) = str_words s.
Proof.
  intros H. unfold str_words. cbn [words_aux].
  destruct (words_aux s) as [w ws]. rewrite H. reflexivity.
Qed.

Lemma str_words_word_then (w : string) (c : ascii) (s : string) :
  is_word w -> is_space c = true ->
  str_words (w ++ String c s) = w :: str_words s.
Proof.
  intros [Hne Hns] Hc. unfold str_words at 1. rewrite (words_aux_app _ _ Hns).
  cbn [words_aux]. fold (str_words s).
  destruct (words_aux s) as [w' ws] eqn:E. rewrite Hc. cbn [fst snd].
  rewrite str_append_nil. unfold str_words. rewrite E.
  destruct w; [contradiction | reflexivity].
Qed.

Lemma str_words_word (w : string) : is_word w -> str_words w = [w].
Proof.
  intros [Hne Hns]. unfold str_words.
  rewrite <- (str_append_nil w) at 1. rewrite (words_aux_app _ _ Hns).
  cbn [words_aux fst snd]. rewrite str_append_nil.
  destruct w; [contradiction | reflexivity].
Qed.

Lemma str_words_join (ws : list string) :
  Forall is_word ws -> str_words (str_join SPACE ws) = ws.
Proof.
  induction 1 as [| w ws Hw Hws IH]; [reflexivity |].
  destruct ws as [| w' ws]; [apply str_words_word; exact Hw |].
  change (str_join SPACE (w :: w' :: ws))
    with (w ++ String SPACE (str_join SPACE (w' :: ws)))%string.
  rewrite str_words_word_then by (assumption || reflexivity).
  rewrite IH. reflexivity.
Qed.

Lemma str_words_join_newline (ws : list string) (s : string) :
  Forall is_word ws ->
  str_words (str_join SPACE ws ++ NEWLINE ++ s) = ws ++ str_words s.
Proof.
  induction 1 as [| w ws Hw Hws IH].
  - cbn [str_join]. apply str_words_space. reflexivity.
  - destruct ws as [| w' ws].
    + cbn [str_join]. unfold NEWLINE. cbn [String.append].
      apply str_words_word_then; [exact Hw | reflexivity].
    + change (str_join SPACE (w :: w' :: ws))
        with (w ++ String SPACE (str_join SPACE (w' :: ws)))%string.
      rewrite str_append_assoc. cbn [String.append].
      rewrite str_words_word_then by (assumption || reflexivity).
      rewrite IH. reflexivity.
Qed.

Lemma str_words_wrapped (ws : list string) (k : nat) :
  Forall is_word ws ->
  str_words (str_join SPACE (slice 0 k ws) ++ NEWLINE ++ str_join SPACE (skipn k ws)) = ws.
Proof.
  intros H. rewrite str_words_join_newline by (apply Forall_slice; exact H).
  rewrite str_words_join by (apply Forall_skipn; exact H).
  unfold slice. rewrite Nat.sub_0_r. cbn [skipn]. apply firstn_skipn.
Qed.

(** Word wrapping changes white space only: the wrapped name is made of
    the words of the name, in their order. *)
Theorem word_wrapped_company_name_keeps_words (s_name : string) :
  str_words (word_wrapped_company_name s_name) = str_words s_name.
Proof.
  unfold word_wrapped_company_name.
  pose proof (str_words_are_words s_name) as H.
  destruct (5 <=? length (str_words s_name)); [apply str_words_wrapped; exact H |].
  destruct ((length (str_words s_name) =? 4) && (26 <=? String.length s_name)).
  { cbv zeta. destruct (_ <? _); apply str_words_wrapped; exact H. }
  destruct ((length (str_words s_name) =? 3) && (26 <=? String.length s_name));
    [apply str_words_wrapped; exact H | reflexivity].
Qed.

(** ** A constructed [PlotData] *)

(** A [PlotData] that the constructor returned has at least one day, as
    many overnight and intraday returns as days, and a first and a last
    date: [first_date] and [last_date] cannot raise [IndexError]. *)
Theorem PlotData_constructed_nonempty (dd : list datetime) (ov intra : list binary64)
    (p : PlotData) :
  PlotData_init dd ov intra = inr p ->
  0 < n_days p
  /\ length (_returns_overnight p) = n_days p
  /\ length (_returns_intraday p) = n_days p
  /\ first_date p = inr (nth 0 dd 0%Z)
  /\ last_date p = inr (nth (n_days p - 1) dd 0%Z).
Proof.
  intros H. apply PlotData_init_inv in H as (-> & L1 & L2 & r & ov' & -> & _).
  unfold n_days, first_date, last_date, getitem_last.
  cbn [_dates_datetime _returns_overnight _returns_intraday].
  cbn [length] in *. unfold datetime in *.
  split; [lia |]. split; [lia |]. split; [lia |]. split.
  - apply getitem_lt. lia.
  - apply (getitem_lt dd (length dd - 1) 0%Z). lia.
Qed.

Lemma PlotData_constructed_nonempty_witness :
  0 < n_days {| _dates_datetime := [jan 2; jan 3];
                _returns_overnight := [0%F; of_decimal false 1 (-2)];
                _returns_intraday := [of_decimal false 2 (-2); of_decimal true 1 (-2)] |}
  /\ first_date {| _dates_datetime := [jan 2; jan 3];
                   _returns_overnight := [0%F; of_decimal false 1 (-2)];
                   _returns_intraday := [of_decimal false 2 (-2); of_decimal true 1 (-2)] |}
     = inr (jan 2)
  /\ last_date {| _dates_datetime := [jan 2; jan 3];
                  _returns_overnight := [0%F; of_decimal false 1 (-2)];
                  _returns_intraday := [of_decimal false 2 (-2); of_decimal true 1 (-2)] |}
     = inr (jan 3).
Proof.
  destruct (PlotData_constructed_nonempty
              [jan 2; jan 3] [0%F; of_decimal false 1 (-2)]
              [of_decimal false 2 (-2); of_decimal true 1 (-2)] _ eq_refl)
    as (H1 & _ & _ & H4 & H5).
  split; [exact H1 |]. split; [exact H4 | exact H5].
Defined.

(** ** The start of the window *)

Section WindowStart.

Variable float : string -> option binary64.
Variable int : string -> option Z.
Variable strftime : datetime -> string -> option string.

(** On rows in date order, away from the case [d0 = 1] with [d1 = len]
    (where the lists are left whole), every date of the returned series is
    on or after the start date. *)
Theorem clean_dates_from_start (original_data : list string)
    (start_date end_date : option datetime) (bad_data_dates : list datetime)
    (data : list (list string)) (po pc pa : list binary64) (dd : list datetime) (d0 d1 : nat) :
  read_rows float strftime original_data bad_data_dates = inr data ->
  columns float int data = inr (po, pc, pa, dd) ->
  window_d0 po pc dd start_date = inr d0 ->
  window_d1 dd end_date = inr d1 ->
  (forall i j, i <= j < length dd -> (nth i dd 0 <= nth j dd 0)%Z) ->
  d0 <> 1 \/ d1 < length dd ->
  exists po' pc' pa' dd',
    get_prices_open_close_adj_dates float int strftime
      original_data start_date end_date bad_data_dates = inr (po', pc', pa', dd')
    /\ Forall (fun d => (or_default start_date DEFAULT_START_DATE <= d)%Z) dd'.
Proof.
  intros Hr Hc H0 H1 Hsorted Hcut.
  pose proof (columns_inr _ _ _ _ _ _ _ Hc) as (Mo & Mc & _ & _ & Md).
  pose proof (mapM_length _ _ _ Mo) as Lo.
  pose proof (mapM_length _ _ _ Mc) as Lc.
  pose proof (mapM_length _ _ _ Md) as Ld.
  destruct (window_d0_spec po pc dd start_date d0) as (a & b & E & _ & _ & _ & Lb & Sb & _);
    [congruence | congruence | exact H0 |].
  pose proof (window_d1_spec _ _ _ H1) as (Hle & _ & _).
  unfold get_prices_open_close_adj_dates. rewrite Hr. cbn [bind]. rewrite Hc.
  cbn [bind]. unfold window. rewrite H0. cbn [bind]. rewrite H1. cbn [bind].
  unfold datetime in *.
  destruct ((1 <? d0) || (d1 <? length dd)) eqn:Cut.
  - do 4 eexists. split; [reflexivity |]. apply Forall_forall. intros x Hx.
    apply (slice_In_nth d0 d1 dd x 0%Z) in Hx as (j & Hj & Hlt & <-).
    specialize (Hsorted b j ltac:(lia)). lia.
  - do 4 eexists. split; [reflexivity |]. apply Forall_forall. intros x Hx.
    apply orb_false_iff in Cut as [C0 C1].
    apply Nat.ltb_ge in C0, C1.
    apply (In_nth dd x 0%Z) in Hx as (j & Hj & <-).
    specialize (Hsorted b j ltac:(lia)). lia.
Qed.

End WindowStart.

Lemma clean_dates_from_start_witness :
  exists po' pc' pa' dd',
    get_prices_open_close_adj_dates py_float py_int py_strftime
      [HEADER; "2020-01-02,10,11,9,11,11,5"; "2020-01-03,10,11,9,11,11,5";
       "2020-01-06,10,11,9,10,10,5"; "2020-01-07,10,11,9,10,10,5";
       "2020-01-08,10,11,9,11,11,5"]
      (Some (jan 6)) None [] = inr (po', pc', pa', dd')
    /\ Forall (fun d => (or_default (Some (jan 6)) DEFAULT_START_DATE <= d)%Z) dd'.
Proof.
  apply (clean_dates_from_start py_float py_int py_strftime
           [HEADER; "2020-01-02,10,11,9,11,11,5"; "2020-01-03,10,11,9,11,11,5";
            "2020-01-06,10,11,9,10,10,5"; "2020-01-07,10,11,9,10,10,5";
            "2020-01-08,10,11,9,11,11,5"]
           (Some (jan 6)) None []
           [["2020-01-02"; "10"; "11"; "9"; "11"; "11"; "5"];
            ["2020-01-03"; "10"; "11"; "9"; "11"; "11"; "5"];
            ["2020-01-06"; "10"; "11"; "9"; "10"; "10"; "5"];
            ["2020-01-07"; "10"; "11"; "9"; "10"; "10"; "5"];
            ["2020-01-08"; "10"; "11"; "9"; "11"; "11"; "5"]]
           [of_Z 10; of_Z 10; of_Z 10; of_Z 10; of_Z 10]
           [of_Z 11; of_Z 11; of_Z 10; of_Z 10; of_Z 11]
           [of_Z 11; of_Z 11; of_Z 10; of_Z 10; of_Z 11]
           [jan 2; jan 3; jan 6; jan 7; jan 8] 2 5).
  - vm_compute. reflexivity.
  - vm_compute. reflexivity.
  - vm_compute. reflexivity.
  - vm_compute. reflexivity.
  - intros i j Hij. simpl in Hij.
    destruct j as [| [| [| [| [| j]]]]]; try lia;
      destruct i as [| [| [| [| [| i]]]]]; try lia; vm_compute; discriminate.
  - left. lia.
Defined.
